(** * The bare-metal machine manager (baremetal/machine_manager.go)

    A shallow embedding of the [MachineManager] of the cluster-api
    bare-metal provider: the lookup of the host bound to a machine, the
    choice of a host, the write-back of the claim, the binding annotation,
    the error fields, the derived status, and the [Create] and [Delete]
    verbs built from them.

    Go pointers that may be nil are [option]s, Go maps are [gmap]s (a nil
    map is [None] where the code tells nil from empty), a Go [error] result
    is an [option error].  The API client is the state of an object store
    together with the answers it gives when a call goes wrong; the manager
    is threaded through every method as explicit state. *)

From Stdlib Require Import ZArith String Ascii List Lia.
From stdpp Require Import base option gmap strings list.

Open Scope string_scope.

(** ** Kubernetes core types used by the manager *)

(** [metav1.Time], as seconds since the epoch; [time.Duration], in
    nanoseconds. *)
Definition Time := Z.
Definition Duration := Z.

Definition Second : Duration := 1000000000%Z.

(** [corev1.ObjectReference]: the fields the manager reads and writes. *)
Record ObjectReference := mkObjectReference {
  ref_Kind : string;
  ref_Namespace : string;
  ref_Name : string;
  ref_APIVersion : string
}.

(** [corev1.SecretReference]. *)
Record SecretReference := mkSecretReference {
  secret_Name : string;
  secret_Namespace : string
}.

#[global] Instance ObjectReference_eq_dec : EqDecision ObjectReference.
Proof. solve_decision. Defined.

#[global] Instance SecretReference_eq_dec : EqDecision SecretReference.
Proof. solve_decision. Defined.

(** ** Errors

    The Go [error] values the manager produces or passes on: an API status
    error with its reason, the requeue signal of this package, a plain
    message, and an error of [fmt.Errorf] kept as its format and operands
    where a verb of the format (such as %q) does more than insert the
    operand. *)

Inductive StatusReason :=
| StatusReasonNotFound
| StatusReasonConflict
| StatusReasonInternalError.

Inductive error :=
| StatusError (reason : StatusReason)
| RequeueAfterError (RequeueAfter : Duration)
| errorString (msg : string)
| errorf (format : string) (operands : list string).

#[global] Instance StatusReason_eq_dec : EqDecision StatusReason.
Proof. solve_decision. Defined.

#[global] Instance error_eq_dec : EqDecision error.
Proof. solve_decision. Defined.

(** [errors.IsNotFound]; on a nil error it answers false. *)
Definition IsNotFound (err : option error) : bool :=
  match err with
  | Some (StatusError StatusReasonNotFound) => true
  | _ => false
  end.

(** A requeue signal, as opposed to a genuine error. *)
Definition isRequeue (err : option error) : bool :=
  match err with
  | Some (RequeueAfterError _) => true
  | _ => false
  end.

Definition ProviderName : string := "baremetal".
Definition HostAnnotation : string := "metal3.io/BareMetalHost".
Definition requeueAfter : Duration := (Second * 30)%Z.

(** ** The bare-metal host (package bmh of the baremetal-operator) *)

Record Image := mkImage {
  image_URL : string;
  image_Checksum : string
}.

Record NIC := mkNIC {
  nic_IP : string
}.

Record HardwareDetails := mkHardwareDetails {
  hw_NIC : list NIC;
  hw_Hostname : string
}.

(** [bmh.ProvisioningState] is a string type; these are its constants. *)
Definition ProvisioningState := string.

Definition StateNone : ProvisioningState := "".
Definition StateRegistrationError : ProvisioningState := "registration error".
Definition StateRegistering : ProvisioningState := "registering".
Definition StateMatchProfile : ProvisioningState := "match profile".
Definition StateReady : ProvisioningState := "ready".
Definition StateValidationError : ProvisioningState := "validation error".
Definition StateProvisioning : ProvisioningState := "provisioning".
Definition StateProvisioningError : ProvisioningState := "provisioning error".
Definition StateProvisioned : ProvisioningState := "provisioned".
Definition StateExternallyProvisioned : ProvisioningState := "externally provisioned".
Definition StateDeprovisioning : ProvisioningState := "deprovisioning".
Definition StateInspecting : ProvisioningState := "inspecting".
Definition StatePowerManagementError : ProvisioningState := "power management error".

Record BareMetalHostSpec := mkBareMetalHostSpec {
  spec_ConsumerRef : option ObjectReference;
  spec_Image : option Image;
  spec_UserData : option SecretReference;
  spec_Online : bool
}.

Record BareMetalHostStatus := mkBareMetalHostStatus {
  status_ProvisioningState : ProvisioningState;
  status_PoweredOn : bool;
  status_HardwareDetails : option HardwareDetails;
  status_ErrorMessage : string
}.

Record BareMetalHost := mkBareMetalHost {
  host_Name : string;
  host_Namespace : string;
  host_Labels : gmap string string;
  host_DeletionTimestamp : option Time;
  host_Spec : BareMetalHostSpec;
  host_Status : BareMetalHostStatus
}.

#[global] Instance Image_eq_dec : EqDecision Image.
Proof. solve_decision. Defined.

#[global] Instance NIC_eq_dec : EqDecision NIC.
Proof. solve_decision. Defined.

#[global] Instance HardwareDetails_eq_dec : EqDecision HardwareDetails.
Proof. solve_decision. Defined.

#[global] Instance BareMetalHostSpec_eq_dec : EqDecision BareMetalHostSpec.
Proof. solve_decision. Defined.

#[global] Instance BareMetalHostStatus_eq_dec : EqDecision BareMetalHostStatus.
Proof. solve_decision. Defined.

#[global] Instance BareMetalHost_eq_dec : EqDecision BareMetalHost.
Proof. solve_decision. Defined.

(** Field updates, for the assignments through a host pointer. *)
Definition host_with_Spec (s : BareMetalHostSpec) (h : BareMetalHost) : BareMetalHost :=
  {| host_Name := host_Name h;
     host_Namespace := host_Namespace h;
     host_Labels := host_Labels h;
     host_DeletionTimestamp := host_DeletionTimestamp h;
     host_Spec := s;
     host_Status := host_Status h |}.

Definition spec_with_ConsumerRef (r : option ObjectReference) (s : BareMetalHostSpec)
  : BareMetalHostSpec :=
  {| spec_ConsumerRef := r;
     spec_Image := spec_Image s;
     spec_UserData := spec_UserData s;
     spec_Online := spec_Online s |}.

Definition spec_with_Image (i : option Image) (s : BareMetalHostSpec) : BareMetalHostSpec :=
  {| spec_ConsumerRef := spec_ConsumerRef s;
     spec_Image := i;
     spec_UserData := spec_UserData s;
     spec_Online := spec_Online s |}.

Definition spec_with_UserData (u : option SecretReference) (s : BareMetalHostSpec)
  : BareMetalHostSpec :=
  {| spec_ConsumerRef := spec_ConsumerRef s;
     spec_Image := spec_Image s;
     spec_UserData := u;
     spec_Online := spec_Online s |}.

Definition spec_with_Online (b : bool) (s : BareMetalHostSpec) : BareMetalHostSpec :=
  {| spec_ConsumerRef := spec_ConsumerRef s;
     spec_Image := spec_Image s;
     spec_UserData := spec_UserData s;
     spec_Online := b |}.

(** [BareMetalHost.HasError] and [BareMetalHost.Available] belong to the
    baremetal-operator API.  A host is available when it is not claimed
    (no [ConsumerRef]), is not being deleted and reports no error. *)
Definition HasError (host : BareMetalHost) : bool :=
  negb (String.eqb (status_ErrorMessage (host_Status host)) "").

Definition Available (host : BareMetalHost) : bool :=
  match spec_ConsumerRef (host_Spec host) with
  | Some _ => false
  | None =>
      match host_DeletionTimestamp host with
      | Some _ => false
      | None => negb (HasError host)
      end
  end.

(** ** Machines (packages capi and capbm) *)

Inductive MachineAddressType :=
| MachineHostName
| MachineExternalIP
| MachineInternalIP
| MachineExternalDNS
| MachineInternalDNS.

Record MachineAddress := mkMachineAddress {
  addr_Type : MachineAddressType;
  addr_Address : string
}.

(** [capierrors.MachineStatusError] is a string type. *)
Definition MachineStatusError := string.
Definition InvalidConfigurationMachineError : MachineStatusError := "InvalidConfiguration".

(** [capi.MachineStatus]. *)
Record MachineStatus := mkMachineStatus {
  mstatus_NodeRef : option ObjectReference;
  mstatus_LastUpdated : option Time;
  mstatus_Version : option string;
  mstatus_ErrorReason : option MachineStatusError;
  mstatus_ErrorMessage : option string;
  mstatus_Addresses : list MachineAddress;
  mstatus_Phase : string;
  mstatus_BootstrapReady : bool;
  mstatus_InfrastructureReady : bool
}.

(** [capi.Machine]: its type and object metadata, and its status. *)
Record Machine := mkMachine {
  machine_Kind : string;
  machine_APIVersion : string;
  machine_Name : string;
  machine_Namespace : string;
  machine_Annotations : option (gmap string string);
  machine_Status : MachineStatus
}.

(** [capbm.HostSelectorRequirement] and [capbm.HostSelector].  The Go
    [MatchLabels] is a map; the list holds its entries in the order the
    [range] loop of [chooseHost] visits them. *)
Record HostSelectorRequirement := mkHostSelectorRequirement {
  req_Key : string;
  req_Operator : string;
  req_Values : list string
}.

Record HostSelector := mkHostSelector {
  MatchLabels : list (string * string);
  MatchExpressions : list HostSelectorRequirement
}.

Record BareMetalMachineSpec := mkBareMetalMachineSpec {
  bmspec_ProviderID : option string;
  bmspec_Image : Image;
  bmspec_UserData : option SecretReference;
  bmspec_HostSelector : HostSelector
}.

Record BareMetalMachineStatus := mkBareMetalMachineStatus {
  bmstatus_LastUpdated : option Time;
  bmstatus_ErrorReason : option MachineStatusError;
  bmstatus_ErrorMessage : option string;
  bmstatus_Addresses : list MachineAddress;
  bmstatus_Ready : bool
}.

Record BareMetalMachine := mkBareMetalMachine {
  bmm_Name : string;
  bmm_Namespace : string;
  bmm_Annotations : option (gmap string string);
  bmm_Spec : BareMetalMachineSpec;
  bmm_Status : BareMetalMachineStatus
}.

#[global] Instance MachineAddressType_eq_dec : EqDecision MachineAddressType.
Proof. solve_decision. Defined.

#[global] Instance MachineAddress_eq_dec : EqDecision MachineAddress.
Proof. solve_decision. Defined.

#[global] Instance MachineStatus_eq_dec : EqDecision MachineStatus.
Proof. solve_decision. Defined.

#[global] Instance BareMetalMachineStatus_eq_dec : EqDecision BareMetalMachineStatus.
Proof. solve_decision. Defined.

Definition bmm_with_Status (s : BareMetalMachineStatus) (b : BareMetalMachine)
  : BareMetalMachine :=
  {| bmm_Name := bmm_Name b;
     bmm_Namespace := bmm_Namespace b;
     bmm_Annotations := bmm_Annotations b;
     bmm_Spec := bmm_Spec b;
     bmm_Status := s |}.

Definition bmm_with_Annotations (a : option (gmap string string)) (b : BareMetalMachine)
  : BareMetalMachine :=
  {| bmm_Name := bmm_Name b;
     bmm_Namespace := bmm_Namespace b;
     bmm_Annotations := a;
     bmm_Spec := bmm_Spec b;
     bmm_Status := bmm_Status b |}.

Definition bmm_with_Spec (s : BareMetalMachineSpec) (b : BareMetalMachine)
  : BareMetalMachine :=
  {| bmm_Name := bmm_Name b;
     bmm_Namespace := bmm_Namespace b;
     bmm_Annotations := bmm_Annotations b;
     bmm_Spec := s;
     bmm_Status := bmm_Status b |}.

Definition bmspec_with_UserData (u : option SecretReference) (s : BareMetalMachineSpec)
  : BareMetalMachineSpec :=
  {| bmspec_ProviderID := bmspec_ProviderID s;
     bmspec_Image := bmspec_Image s;
     bmspec_UserData := u;
     bmspec_HostSelector := bmspec_HostSelector s |}.

Definition bmstatus_with_Error (reason : option MachineStatusError) (message : option string)
    (s : BareMetalMachineStatus) : BareMetalMachineStatus :=
  {| bmstatus_LastUpdated := bmstatus_LastUpdated s;
     bmstatus_ErrorReason := reason;
     bmstatus_ErrorMessage := message;
     bmstatus_Addresses := bmstatus_Addresses s;
     bmstatus_Ready := bmstatus_Ready s |}.

Definition bmstatus_with_Addresses (a : list MachineAddress) (s : BareMetalMachineStatus)
  : BareMetalMachineStatus :=
  {| bmstatus_LastUpdated := bmstatus_LastUpdated s;
     bmstatus_ErrorReason := bmstatus_ErrorReason s;
     bmstatus_ErrorMessage := bmstatus_ErrorMessage s;
     bmstatus_Addresses := a;
     bmstatus_Ready := bmstatus_Ready s |}.

Definition bmstatus_with_LastUpdated (t : option Time) (s : BareMetalMachineStatus)
  : BareMetalMachineStatus :=
  {| bmstatus_LastUpdated := t;
     bmstatus_ErrorReason := bmstatus_ErrorReason s;
     bmstatus_ErrorMessage := bmstatus_ErrorMessage s;
     bmstatus_Addresses := bmstatus_Addresses s;
     bmstatus_Ready := bmstatus_Ready s |}.

(** ** Strings (package strings) *)

(** The two paths of [strings.ToLower].  A string of ASCII bytes only has
    its letters A to Z lowered and every other byte kept; a string with a
    byte from 128 on goes through the Unicode tables ([strings.Map] with
    [unicode.ToLower]), which are taken from outside (see [Externals]). *)
Definition lower_ascii (c : ascii) : ascii :=
  let n := nat_of_ascii c in
  if (65 <=? n)%nat && (n <=? 90)%nat then ascii_of_nat (n + 32) else c.

Fixpoint lowerASCII (s : string) : string :=
  match s with
  | EmptyString => EmptyString
  | String c rest => String (lower_ascii c) (lowerASCII rest)
  end.

Fixpoint isASCII (s : string) : bool :=
  match s with
  | EmptyString => true
  | String c rest => (nat_of_ascii c <? 128)%nat && isASCII rest
  end.

(** [strings.Split(s, "/")]: the pieces between the slashes; a string
    with no slash is its own single piece. *)
Fixpoint Split (s : string) : list string :=
  match s with
  | EmptyString => [EmptyString]
  | String c rest =>
      if Ascii.eqb c "/" then EmptyString :: Split rest
      else match Split rest with
           | [] => [String c EmptyString]
           | piece :: pieces => String c piece :: pieces
           end
  end.

Fixpoint hasSlash (s : string) : bool :=
  match s with
  | EmptyString => false
  | String c rest => Ascii.eqb c "/" || hasSlash rest
  end.

(** ** Object keys (package cache of client-go) *)

(** [cache.MetaNamespaceKeyFunc] on a host: "<namespace>/<name>", or the
    bare name when the namespace is empty.  A host always has metadata, so
    the error result is nil. *)
Definition MetaNamespaceKeyFunc (host : BareMetalHost) : string * option error :=
  if (0 <? String.length (host_Namespace host))%nat
  then (host_Namespace host ++ "/" ++ host_Name host, None)
  else (host_Name host, None).

(** [cache.SplitMetaNamespaceKey]: one piece is a name without namespace,
    two pieces are namespace and name, anything else is the format error
    [fmt.Errorf("unexpected key format: %q", key)]. *)
Definition SplitMetaNamespaceKey (key : string) : string * string * option error :=
  match Split key with
  | [name] => ("", name, None)
  | [namespace; name] => (namespace, name, None)
  | _ => ("", "", Some (errorf "unexpected key format: %q" [key]))
  end.

(** ** What the manager takes from outside machine_manager.go

    The validators and the integer parser of the apimachinery label
    package, the lower-casing of a string that is not all ASCII
    ([strings.Map(unicode.ToLower, s)]), and the validity check of the
    machine's provisioning descriptor ([BareMetalMachineSpec.IsValid],
    which answers nil or an error of which only the message is used). *)
Class Externals := {
  validateLabelKey : string -> option error;
  validateLabelValue : string -> option error;
  ParseInt : string -> option Z;
  MapToLower : string -> string;
  IsValid : BareMetalMachineSpec -> option string
}.

(** [strings.ToLower]. *)
Definition ToLower {ext : Externals} (s : string) : string :=
  if isASCII s then lowerASCII s else MapToLower s.

(** ** Label selectors (packages selection and labels) *)

Module selection.
Definition DoesNotExist : string := "!".
Definition Equals : string := "=".
Definition DoubleEquals : string := "==".
Definition In : string := "in".
Definition NotEquals : string := "!=".
Definition NotIn : string := "notin".
Definition Exists : string := "exists".
Definition GreaterThan : string := "gt".
Definition LessThan : string := "lt".
End selection.

(** The operators [labels.NewRequirement] knows. *)
Definition recognizedOperators : list string :=
  [selection.In; selection.NotIn;
   selection.Equals; selection.DoubleEquals; selection.NotEquals;
   selection.Exists; selection.DoesNotExist;
   selection.GreaterThan; selection.LessThan].

Definition oneOf (op : string) (ops : list string) : bool :=
  existsb (String.eqb op) ops.

Record Requirement := mkRequirement {
  r_key : string;
  r_operator : string;
  r_strValues : list string
}.

(** The error of [labels.NewRequirement] for an operator it does not
    know. *)
Definition unrecognized (op : string) : error :=
  errorString ("operator '" ++ op ++ "' is not recognized").

Section Labels.
Context {ext : Externals}.

(** The first value a check refuses, if any. *)
Fixpoint firstError (check : string -> option error) (vals : list string) : option error :=
  match vals with
  | [] => None
  | v :: rest =>
      match check v with
      | Some err => Some err
      | None => firstError check rest
      end
  end.

Definition checkInteger (v : string) : option error :=
  match ParseInt v with
  | Some _ => None
  | None => Some (errorString "for 'Gt', 'Lt' operators, the value must be an integer")
  end.

(** The operator and arity check of [labels.NewRequirement]. *)
Definition checkOperator (op : string) (vals : list string) : option error :=
  if oneOf op [selection.In; selection.NotIn] then
    if (length vals =? 0)%nat
    then Some (errorString "for 'in', 'notin' operators, values set can't be empty")
    else None
  else if oneOf op [selection.Equals; selection.DoubleEquals; selection.NotEquals] then
    if negb (length vals =? 1)%nat
    then Some (errorString "exact-match compatibility requires one single value")
    else None
  else if oneOf op [selection.Exists; selection.DoesNotExist] then
    if negb (length vals =? 0)%nat
    then Some (errorString "values set must be empty for exists and does not exist")
    else None
  else if oneOf op [selection.GreaterThan; selection.LessThan] then
    if negb (length vals =? 1)%nat
    then Some (errorString "for 'Gt', 'Lt' operators, exactly one value is required")
    else firstError checkInteger vals
  else Some (unrecognized op).

(** [labels.NewRequirement]: the requirement, or the reason it cannot be
    built. *)
Definition NewRequirement (k op : string) (vals : list string) : error + Requirement :=
  match validateLabelKey k with
  | Some err => inl err
  | None =>
      match checkOperator op vals with
      | Some err => inl err
      | None =>
          match firstError validateLabelValue vals with
          | Some err => inl err
          | None => inr {| r_key := k; r_operator := op; r_strValues := vals |}
          end
      end
  end.

Definition hasValue (r : Requirement) (value : string) : bool :=
  existsb (String.eqb value) (r_strValues r).

(** The last value of the requirement read as an integer, as the loop of
    [Requirement.Matches] leaves it; [None] when one does not parse. *)
Fixpoint lastInteger (vals : list string) (rValue : Z) : option Z :=
  match vals with
  | [] => Some rValue
  | v :: rest =>
      match ParseInt v with
      | Some n => lastInteger rest n
      | None => None
      end
  end.

(** [Requirement.Matches] on a label set. *)
Definition Matches (r : Requirement) (ls : gmap string string) : bool :=
  let op := r_operator r in
  if oneOf op [selection.In; selection.Equals; selection.DoubleEquals] then
    match ls !! r_key r with
    | None => false
    | Some v => hasValue r v
    end
  else if oneOf op [selection.NotIn; selection.NotEquals] then
    match ls !! r_key r with
    | None => true
    | Some v => negb (hasValue r v)
    end
  else if String.eqb op selection.Exists then
    bool_decide (is_Some (ls !! r_key r))
  else if String.eqb op selection.DoesNotExist then
    negb (bool_decide (is_Some (ls !! r_key r)))
  else if oneOf op [selection.GreaterThan; selection.LessThan] then
    match ls !! r_key r with
    | None => false
    | Some v =>
        match ParseInt v with
        | None => false
        | Some lsValue =>
            match lastInteger (r_strValues r) 0%Z with
            | None => false
            | Some rValue =>
                (String.eqb op selection.GreaterThan && (rValue <? lsValue)%Z)
                || (String.eqb op selection.LessThan && (lsValue <? rValue)%Z)
            end
        end
    end
  else false.

(** A selector is the conjunction of its requirements; the one made by
    [labels.NewSelector] is empty, and [Add] appends (the sort by key
    it also does leaves the conjunction as it is). *)
Definition selectorMatches (sel : list Requirement) (ls : gmap string string) : bool :=
  forallb (fun r => Matches r ls) sel.

End Labels.

(** ** The object store behind [client.Client]

    The hosts the store holds, in the order a list call returns them; the
    error, if any, with which the store answers a get, a list or an update
    (a conflict, a host gone in the meantime, a transport failure); and the
    record of the hosts passed to [Update], latest first. *)
Record ObjectKey := mkObjectKey {
  key_Namespace : string;
  key_Name : string
}.

Record Client := mkClient {
  objects : list BareMetalHost;
  getFault : option error;
  listFault : option error;
  updateFault : option error;
  updateCalls : list BareMetalHost
}.

Definition hasKey (k : ObjectKey) (h : BareMetalHost) : bool :=
  String.eqb (host_Namespace h) (key_Namespace k) && String.eqb (host_Name h) (key_Name k).

Definition keyOf (h : BareMetalHost) : ObjectKey :=
  {| key_Namespace := host_Namespace h; key_Name := host_Name h |}.

(** [client.Get]: the host stored under the key, or a not-found error. *)
Definition client_Get (k : ObjectKey) (c : Client) : error + BareMetalHost :=
  match getFault c with
  | Some err => inl err
  | None =>
      match find (hasKey k) (objects c) with
      | Some h => inr h
      | None => inl (StatusError StatusReasonNotFound)
      end
  end.

(** [client.List] with a namespace option. *)
Definition client_List (namespace : string) (c : Client) : error + list BareMetalHost :=
  match listFault c with
  | Some err => inl err
  | None => inr (filter (fun h => String.eqb (host_Namespace h) namespace = true) (objects c))
  end.

Definition replaceHost (h : BareMetalHost) (l : list BareMetalHost) : list BareMetalHost :=
  map (fun h0 => if hasKey (keyOf h) h0 then h else h0) l.

(** [client.Update]: the call is recorded; unless the store answers with
    an error, the stored host of the same key is replaced. *)
Definition client_Update (h : BareMetalHost) (c : Client) : option error * Client :=
  let called (objs : list BareMetalHost) :=
    {| objects := objs;
       getFault := getFault c;
       listFault := listFault c;
       updateFault := updateFault c;
       updateCalls := h :: updateCalls c |} in
  match updateFault c with
  | Some err => (Some err, called (objects c))
  | None =>
      if existsb (hasKey (keyOf h)) (objects c)
      then (None, called (replaceHost h (objects c)))
      else (Some (StatusError StatusReasonNotFound), called (objects c))
  end.

(** ** The manager and its methods

    [MachineManager] keeps the client, the machine and the bare-metal
    machine (a pointer that [Create] tests against nil).  A method is a
    function of the manager that ends with a result and the manager as it
    left it, or panics on a nil bare-metal machine. *)
Record MachineManager := mkMachineManager {
  client : Client;
  mgr_Machine : Machine;
  mgr_BareMetalMachine : option BareMetalMachine
}.

Inductive outcome (A : Type) : Type :=
| Done (a : A) (mgr : MachineManager)
| Panic.

Arguments Done {A} a mgr.
Arguments Panic {A}.

Definition M (A : Type) : Type := MachineManager -> outcome A.

#[global] Instance M_ret : MRet M := fun A a mgr => Done a mgr.

#[global] Instance M_bind : MBind M := fun A B f m mgr =>
  match m mgr with
  | Done a mgr' => f a mgr'
  | Panic => Panic
  end.

Definition mgr_with_client (c : Client) (mgr : MachineManager) : MachineManager :=
  {| client := c;
     mgr_Machine := mgr_Machine mgr;
     mgr_BareMetalMachine := mgr_BareMetalMachine mgr |}.

Definition mgr_with_BareMetalMachine (b : BareMetalMachine) (mgr : MachineManager)
  : MachineManager :=
  {| client := client mgr;
     mgr_Machine := mgr_Machine mgr;
     mgr_BareMetalMachine := Some b |}.

Definition getMachine : M Machine := fun mgr => Done (mgr_Machine mgr) mgr.

(** A dereference of [mgr.BareMetalMachine]. *)
Definition getBareMetalMachine : M BareMetalMachine := fun mgr =>
  match mgr_BareMetalMachine mgr with
  | Some b => Done b mgr
  | None => Panic
  end.

Definition setBareMetalMachine (b : BareMetalMachine) : M unit := fun mgr =>
  Done tt (mgr_with_BareMetalMachine b mgr).

Definition callGet (k : ObjectKey) : M (error + BareMetalHost) := fun mgr =>
  Done (client_Get k (client mgr)) mgr.

Definition callList (namespace : string) : M (error + list BareMetalHost) := fun mgr =>
  Done (client_List namespace (client mgr)) mgr.

Definition callUpdate (h : BareMetalHost) : M (option error) := fun mgr =>
  let '(err, c) := client_Update h (client mgr) in
  Done err (mgr_with_client c mgr).

(** [consumerRefMatches]: the consumer reference and the machine agree on
    name, namespace, kind and API version. *)
Definition consumerRefMatches (consumer : ObjectReference) (machine : Machine) : bool :=
  if negb (String.eqb (ref_Name consumer) (machine_Name machine)) then false
  else if negb (String.eqb (ref_Namespace consumer) (machine_Namespace machine)) then false
  else if negb (String.eqb (ref_Kind consumer) (machine_Kind machine)) then false
  else if negb (String.eqb (ref_APIVersion consumer) (machine_APIVersion machine)) then false
  else true.

(** [getHost]: the host named by the annotation on the machine; nil when
    there is no annotation or the store has no such host. *)
Definition getHost : M (option BareMetalHost * option error) :=
  machine ← getMachine;
  match machine_Annotations machine with
  | None => mret (None, None)
  | Some annotations =>
      match annotations !! HostAnnotation with
      | None => mret (None, None)
      | Some hostKey =>
          let '(hostNamespace, hostName, err) := SplitMetaNamespaceKey hostKey in
          match err with
          | Some e => mret (None, Some e)
          | None =>
              r ← callGet {| key_Name := hostName; key_Namespace := hostNamespace |};
              match r with
              | inl e =>
                  if IsNotFound (Some e) then mret (None, None)
                  else mret (None, Some e)
              | inr host => mret (Some host, None)
              end
          end
      end
  end.

(** [nodeAddresses]: an internal IP per network interface, then the host
    name twice, as host name and as internal DNS name. *)
Definition nodeAddresses (host : option BareMetalHost) : list MachineAddress :=
  match host with
  | None => []
  | Some host =>
      match status_HardwareDetails (host_Status host) with
      | None => []
      | Some details =>
          let addrs :=
            map (fun nic => {| addr_Type := MachineInternalIP; addr_Address := nic_IP nic |})
                (hw_NIC details) in
          if negb (String.eqb (hw_Hostname details) "") then
            (addrs
             ++ [ {| addr_Type := MachineHostName; addr_Address := hw_Hostname details |};
                  {| addr_Type := MachineInternalDNS; addr_Address := hw_Hostname details |} ])%list
          else addrs
      end
  end.

(** [setError] and [clearError] on the status of the bare-metal machine. *)
Definition setError (message : string) : M unit :=
  b ← getBareMetalMachine;
  setBareMetalMachine
    (bmm_with_Status
       (bmstatus_with_Error (Some InvalidConfigurationMachineError) (Some message)
          (bmm_Status b)) b).

Definition clearError : M unit :=
  b ← getBareMetalMachine;
  match bmstatus_ErrorMessage (bmm_Status b), bmstatus_ErrorReason (bmm_Status b) with
  | None, None => mret tt
  | _, _ => setBareMetalMachine (bmm_with_Status (bmstatus_with_Error None None (bmm_Status b)) b)
  end.

(** [equality.Semantic.DeepEqual] takes two values of any type: values of
    different Go types are never equal, values of one type are compared
    field by field. *)
Inductive GoValue :=
| MachineStatusValue (s : MachineStatus)
| BareMetalMachineStatusValue (s : BareMetalMachineStatus).

Definition DeepEqual (a1 a2 : GoValue) : bool :=
  match a1, a2 with
  | MachineStatusValue s1, MachineStatusValue s2 => bool_decide (s1 = s2)
  | BareMetalMachineStatusValue s1, BareMetalMachineStatusValue s2 => bool_decide (s1 = s2)
  | _, _ => false
  end.

(** [updateMachineStatus], at the time [now] of [metav1.Now]. *)
Definition updateMachineStatus (now : Time) (host : BareMetalHost) : M (option error) :=
  let addrs := nodeAddresses (Some host) in
  b ← getBareMetalMachine;
  let machineCopy := bmm_with_Status (bmstatus_with_Addresses addrs (bmm_Status b)) b in
  machine ← getMachine;
  if DeepEqual (MachineStatusValue (machine_Status machine))
               (BareMetalMachineStatusValue (bmm_Status machineCopy))
  then mret None
  else
    setBareMetalMachine
      (bmm_with_Status
         (bmstatus_with_Addresses addrs
            (bmstatus_with_LastUpdated (Some now) (bmm_Status b))) b);;
    mret None.

(** [ensureAnnotation]: the annotation on the bare-metal machine names the
    host; nothing is sent to the store. *)
Definition ensureAnnotation (host : BareMetalHost) : M (option error) :=
  b ← getBareMetalMachine;
  let annotations : gmap string string := default ∅ (bmm_Annotations b) in
  let '(hostKey, err) := MetaNamespaceKeyFunc host in
  match err with
  | Some e => mret (Some e)
  | None =>
      let same :=
        match annotations !! HostAnnotation with
        | Some existing => String.eqb existing hostKey
        | None => false
        end in
      if same then mret None
      else
        setBareMetalMachine
          (bmm_with_Annotations (Some (<[HostAnnotation := hostKey]> annotations)) b);;
        mret None
  end.

(** [setHostSpec]: the host as the method leaves it behind the pointer,
    and the answer of the store.  [UserData] is a pointer copied from the
    bare-metal machine, so the namespace written through it shows on the
    bare-metal machine too. *)
Definition setHostSpec (host : BareMetalHost) : M (BareMetalHost * option error) :=
  host ←
    match spec_Image (host_Spec host) with
    | None =>
        b ← getBareMetalMachine;
        let image := {| image_URL := image_URL (bmspec_Image (bmm_Spec b));
                        image_Checksum := image_Checksum (bmspec_Image (bmm_Spec b)) |} in
        let host := host_with_Spec (spec_with_Image (Some image) (host_Spec host)) host in
        let host :=
          host_with_Spec (spec_with_UserData (bmspec_UserData (bmm_Spec b)) (host_Spec host))
            host in
        match spec_UserData (host_Spec host) with
        | Some userData =>
            if String.eqb (secret_Namespace userData) "" then
              machine ← getMachine;
              let userData := {| secret_Name := secret_Name userData;
                                 secret_Namespace := machine_Namespace machine |} in
              setBareMetalMachine
                (bmm_with_Spec (bmspec_with_UserData (Some userData) (bmm_Spec b)) b);;
              mret (host_with_Spec (spec_with_UserData (Some userData) (host_Spec host)) host)
            else mret host
        | None => mret host
        end
    | Some _ => mret host
    end;
  machine ← getMachine;
  let consumer := {| ref_Kind := "Machine";
                     ref_Name := machine_Name machine;
                     ref_Namespace := machine_Namespace machine;
                     ref_APIVersion := machine_APIVersion machine |} in
  let host := host_with_Spec (spec_with_ConsumerRef (Some consumer) (host_Spec host)) host in
  let host := host_with_Spec (spec_with_Online true (host_Spec host)) host in
  err ← callUpdate host;
  mret (host, err).

(** The test [err != nil && !errors.IsNotFound(err)] after an update. *)
Definition isFailure (err : option error) : bool :=
  bool_decide (is_Some err) && negb (IsNotFound err).

(** The payload test of [Delete]. *)
Definition hasPayload (host : BareMetalHost) : bool :=
  bool_decide (is_Some (spec_Image (host_Spec host)))
  || spec_Online (host_Spec host)
  || bool_decide (is_Some (spec_UserData (host_Spec host))).

Definition clearPayload (host : BareMetalHost) : BareMetalHost :=
  let host := host_with_Spec (spec_with_Image None (host_Spec host)) host in
  let host := host_with_Spec (spec_with_Online false (host_Spec host)) host in
  host_with_Spec (spec_with_UserData None (host_Spec host)) host.

(** The assignment [host.Spec.ConsumerRef = nil]. *)
Definition releaseHost (host : BareMetalHost) : BareMetalHost :=
  host_with_Spec (spec_with_ConsumerRef None (host_Spec host)) host.

(** The states of the first case of the switch in [Delete]: the host is
    not provisioned. *)
Definition notProvisionedStates : list ProvisioningState :=
  [StateRegistrationError; StateRegistering;
   StateMatchProfile; StateInspecting;
   StateReady; StateValidationError].

(** The switch of [Delete] on the provisioning state: whether the release
    has to wait. *)
Definition waitingFor (host : BareMetalHost) : bool :=
  let state := status_ProvisioningState (host_Status host) in
  if oneOf state notProvisionedStates
  then false
  else if String.eqb state StateExternallyProvisioned
  then status_PoweredOn (host_Status host)
  else true.

(** [Delete]. *)
Definition Delete : M (string * option error) :=
  let providerId := "" in
  '(host, err) ← getHost;
  match err with
  | Some e => mret (providerId, Some e)
  | None =>
      match host with
      | None => mret (providerId, None)
      | Some host =>
          match spec_ConsumerRef (host_Spec host) with
          | None => mret (providerId, None)
          | Some consumer =>
              machine ← getMachine;
              if negb (consumerRefMatches consumer machine) then mret (providerId, None)
              else
                let providerId := host_Name host in
                if hasPayload host then
                  let host := clearPayload host in
                  err ← callUpdate host;
                  if isFailure err
                  then mret (host_Name host, err)
                  else mret (providerId, Some (RequeueAfterError 0%Z))
                else if waitingFor host then
                  mret (providerId, Some (RequeueAfterError requeueAfter))
                else
                  let host := releaseHost host in
                  err ← callUpdate host;
                  if isFailure err
                  then mret (providerId, err)
                  else mret (providerId, None)
          end
      end
  end.

Section Allocation.
Context {ext : Externals}.

(** The two loops of [chooseHost] that build the requirements: the
    first requirement that cannot be built ends them with its error. *)
Fixpoint matchLabelRequirements (pairs : list (string * string)) (reqs : list Requirement)
  : error + list Requirement :=
  match pairs with
  | [] => inr reqs
  | (labelKey, labelVal) :: rest =>
      match NewRequirement labelKey selection.Equals [labelVal] with
      | inl err => inl err
      | inr r => matchLabelRequirements rest (reqs ++ [r])%list
      end
  end.

Fixpoint matchExpressionRequirements (exprs : list HostSelectorRequirement)
    (reqs : list Requirement) : error + list Requirement :=
  match exprs with
  | [] => inr reqs
  | req :: rest =>
      let lowercaseOperator := ToLower (req_Operator req) in
      match NewRequirement (req_Key req) lowercaseOperator (req_Values req) with
      | inl err => inl err
      | inr r => matchExpressionRequirements rest (reqs ++ [r])%list
      end
  end.

Definition selectorRequirements (sel : HostSelector) : error + list Requirement :=
  match matchLabelRequirements (MatchLabels sel) [] with
  | inl err => inl err
  | inr reqs => matchExpressionRequirements (MatchExpressions sel) reqs
  end.

(** The loop of [chooseHost] over the hosts: it ends at once with a host
    that is not available and is consumed by the machine, and otherwise
    with the available hosts that match the selector. *)
Fixpoint scanHosts (machine : Machine) (labelSelector : list Requirement)
    (items : list BareMetalHost) (availableHosts : list BareMetalHost)
  : BareMetalHost + list BareMetalHost :=
  match items with
  | [] => inr availableHosts
  | host :: rest =>
      if Available host then
        if selectorMatches labelSelector (host_Labels host)
        then scanHosts machine labelSelector rest (availableHosts ++ [host])%list
        else scanHosts machine labelSelector rest availableHosts
      else
        match spec_ConsumerRef (host_Spec host) with
        | Some consumer =>
            if consumerRefMatches consumer machine then inl host
            else scanHosts machine labelSelector rest availableHosts
        | None => scanHosts machine labelSelector rest availableHosts
        end
  end.

(** [chooseHost]; [rnd] is the number the seeded generator draws, reduced
    by [rand.Intn] to an index into the available hosts. *)
Definition chooseHost (rnd : nat) : M (option BareMetalHost * option error) :=
  machine ← getMachine;
  listed ← callList (machine_Namespace machine);
  match listed with
  | inl err => mret (None, Some err)
  | inr hosts =>
      b ← getBareMetalMachine;
      match selectorRequirements (bmspec_HostSelector (bmm_Spec b)) with
      | inl err => mret (None, Some err)
      | inr labelSelector =>
          match scanHosts machine labelSelector hosts [] with
          | inl host => mret (Some host, None)
          | inr availableHosts =>
              if (length availableHosts =? 0)%nat then mret (None, None)
              else mret (availableHosts !! (rnd mod length availableHosts)%nat, None)
          end
      end
  end.

(** The part of [Create] that follows the validation of the descriptor
    and the reset of the error fields: the lookup or choice of the host,
    the claim, the annotation and the status. *)
Definition associate (rnd : nat) (now : Time) : M (string * option error) :=
  let providerId := "" in
  '(host, err) ← getHost;
  match err with
  | Some e => mret (providerId, Some e)
  | None =>
      '(host, err) ←
        match host with
        | None => chooseHost rnd
        | Some host => mret (Some host, None)
        end;
      match err, host with
      | Some e, _ => mret (providerId, Some e)
      | None, None => mret (providerId, Some (RequeueAfterError requeueAfter))
      | None, Some host =>
          let providerId := host_Name host in
          '(host, err) ← setHostSpec host;
          match err with
          | Some e => mret (providerId, Some e)
          | None =>
              err ← ensureAnnotation host;
              match err with
              | Some e => mret (providerId, Some e)
              | None =>
                  err ← updateMachineStatus now host;
                  match err with
                  | Some e => mret (providerId, Some e)
                  | None => mret (providerId, None)
                  end
              end
          end
      end
  end.

(** [Create]. *)
Definition Create (rnd : nat) (now : Time) : M (string * option error) := fun mgr =>
  let providerId := "" in
  match mgr_BareMetalMachine mgr with
  | None => Done (providerId, None) mgr
  | Some b =>
      let config := bmm_Spec b in
      match IsValid config with
      | Some message => (setError message;; mret (providerId, None)) mgr
      | None => (clearError;; associate rnd now) mgr
      end
  end.

(** [Update]. *)
Definition Update (now : Time) : M (string * option error) :=
  let providerId := "" in
  clearError;;
  '(host, err) ← getHost;
  match err, host with
  | Some e, _ => mret (providerId, Some e)
  | None, None =>
      machine ← getMachine;
      mret (providerId,
            Some (errorString ("host not found for machine " ++ machine_Name machine)))
  | None, Some host =>
      let providerId := host_Name host in
      err ← ensureAnnotation host;
      match err with
      | Some e => mret (providerId, Some e)
      | None =>
          err ← updateMachineStatus now host;
          match err with
          | Some e => mret (providerId, Some e)
          | None => mret (providerId, None)
          end
      end
  end.

End Allocation.

(** [Exists]. *)
Definition Exists_ : M (bool * option error) :=
  '(host, err) ← getHost;
  match err, host with
  | Some e, _ => mret (false, Some e)
  | None, None => mret (false, None)
  | None, Some _ => mret (true, None)
  end.

(** ** Stating the properties *)

(** The annotation of the machine that [getHost] reads. *)
Definition hostAnnotationOf (machine : Machine) : option string :=
  machine_Annotations machine ≫= (fun annotations => annotations !! HostAnnotation).

(** A host is claimed by a machine when its consumer reference matches
    the machine. *)
Definition claimedBy (machine : Machine) (host : BareMetalHost) : bool :=
  match spec_ConsumerRef (host_Spec host) with
  | Some consumer => consumerRefMatches consumer machine
  | None => false
  end.

(** The machine of the manager has no claim to give up: it has no binding
    annotation, or the annotated host is gone from the store, or that host
    has no consumer, or its consumer is another machine. *)
Inductive NoClaim (mgr : MachineManager) : Prop :=
| no_annotation :
    hostAnnotationOf (mgr_Machine mgr) = None ->
    NoClaim mgr
| host_absent hostKey namespace name :
    hostAnnotationOf (mgr_Machine mgr) = Some hostKey ->
    SplitMetaNamespaceKey hostKey = (namespace, name, None) ->
    client_Get (mkObjectKey namespace name) (client mgr)
      = inl (StatusError StatusReasonNotFound) ->
    NoClaim mgr
| consumer_empty hostKey namespace name host :
    hostAnnotationOf (mgr_Machine mgr) = Some hostKey ->
    SplitMetaNamespaceKey hostKey = (namespace, name, None) ->
    client_Get (mkObjectKey namespace name) (client mgr) = inr host ->
    spec_ConsumerRef (host_Spec host) = None ->
    NoClaim mgr
| consumer_other hostKey namespace name host consumer :
    hostAnnotationOf (mgr_Machine mgr) = Some hostKey ->
    SplitMetaNamespaceKey hostKey = (namespace, name, None) ->
    client_Get (mkObjectKey namespace name) (client mgr) = inr host ->
    spec_ConsumerRef (host_Spec host) = Some consumer ->
    consumerRefMatches consumer (mgr_Machine mgr) = false ->
    NoClaim mgr.

(** The host bound to the machine of the manager: the annotation on the
    machine names it and the store returns it. *)
Definition BoundHost (mgr : MachineManager) (host : BareMetalHost) : Prop :=
  exists hostKey namespace name,
    hostAnnotationOf (mgr_Machine mgr) = Some hostKey
    /\ SplitMetaNamespaceKey hostKey = (namespace, name, None)
    /\ client_Get (mkObjectKey namespace name) (client mgr) = inr host.

(** The release step of [Delete]: the consumer reference is cleared, the
    host is sent to the store, and the store's error is returned unless
    it is a not-found. *)
Definition Released (mgr : MachineManager) (host : BareMetalHost) : Prop :=
  forall (err : option error) (c : Client),
    client_Update (releaseHost host) (client mgr) = (err, c) ->
    spec_ConsumerRef (host_Spec (releaseHost host)) = None
    /\ updateCalls c = releaseHost host :: updateCalls (client mgr)
    /\ (err = None -> objects c = replaceHost (releaseHost host) (objects (client mgr)))
    /\ Delete mgr
       = Done (host_Name host, if isFailure err then err else None)
              (mgr_with_client c mgr).

(** [Delete] asks to be called again after the delay and changes
    nothing. *)
Definition Waits (mgr : MachineManager) (host : BareMetalHost) : Prop :=
  Delete mgr = Done (host_Name host, Some (RequeueAfterError requeueAfter)) mgr.

(** The error fields of the bare-metal machine of the manager are both
    nil. *)
Definition ErrorFree (mgr : MachineManager) : Prop :=
  exists b, mgr_BareMetalMachine mgr = Some b
            /\ bmstatus_ErrorMessage (bmm_Status b) = None
            /\ bmstatus_ErrorReason (bmm_Status b) = None.

(** The identity of a machine as [setHostSpec] writes it into a consumer
    reference. *)
Definition machineIdentity (machine : Machine) : ObjectReference :=
  {| ref_Kind := "Machine";
     ref_Namespace := machine_Namespace machine;
     ref_Name := machine_Name machine;
     ref_APIVersion := machine_APIVersion machine |}.

(** A user-data reference with an empty namespace completed by the
    namespace of the machine. *)
Definition defaultedUserData (machine : Machine) (userData : option SecretReference)
  : option SecretReference :=
  match userData with
  | None => None
  | Some u =>
      if String.eqb (secret_Namespace u) ""
      then Some {| secret_Name := secret_Name u;
                   secret_Namespace := machine_Namespace machine |}
      else Some u
  end.

(** The binding annotation of a bare-metal machine. *)
Definition bindingOf (b : BareMetalMachine) : option string :=
  bmm_Annotations b ≫= (fun annotations => annotations !! HostAnnotation).

(** Two selector expressions that differ at most in the letter case of
    the operator, and two selectors that differ at most in that way. *)
Definition sameExpressionUpToCase {ext : Externals} (r1 r2 : HostSelectorRequirement)
  : Prop :=
  req_Key r1 = req_Key r2
  /\ ToLower (req_Operator r1) = ToLower (req_Operator r2)
  /\ req_Values r1 = req_Values r2.

Definition sameUpToCase {ext : Externals} (s1 s2 : HostSelector) : Prop :=
  MatchLabels s1 = MatchLabels s2
  /\ Forall2 sameExpressionUpToCase (MatchExpressions s1) (MatchExpressions s2).

(** An operator written with other letter case, said without [ToLower]:
    [op] is [op0] with some of the letters a to z of [op0] in upper
    case. *)
Definition sameLetter (c c0 : ascii) : bool :=
  Ascii.eqb c c0
  || ((97 <=? nat_of_ascii c0)%nat && (nat_of_ascii c0 <=? 122)%nat
      && (nat_of_ascii c =? nat_of_ascii c0 - 32)%nat).

Fixpoint letterCaseVariant (op op0 : string) : bool :=
  match op, op0 with
  | EmptyString, EmptyString => true
  | String c rest, String c0 rest0 => sameLetter c c0 && letterCaseVariant rest rest0
  | _, _ => false
  end.

(** A string of ASCII bytes with no letter A to Z. *)
Definition lowerStableByte (c : ascii) : bool :=
  (nat_of_ascii c <? 128)%nat
  && negb ((65 <=? nat_of_ascii c)%nat && (nat_of_ascii c <=? 90)%nat).

Fixpoint lowerStable (s : string) : bool :=
  match s with
  | EmptyString => true
  | String c rest => lowerStableByte c && lowerStable rest
  end.

(** A selector expression written with a recognized operator in other
    letter case, and a selector written that way. *)
Definition expressionInOtherCase (r r0 : HostSelectorRequirement) : Prop :=
  req_Key r = req_Key r0
  /\ req_Values r = req_Values r0
  /\ req_Operator r0 ∈ recognizedOperators
  /\ letterCaseVariant (req_Operator r) (req_Operator r0) = true.

Definition selectorInOtherCase (s s0 : HostSelector) : Prop :=
  MatchLabels s = MatchLabels s0
  /\ Forall2 expressionInOtherCase (MatchExpressions s) (MatchExpressions s0).

(** ** A small cluster for the examples

    A machine [m1] in namespace [ns], annotated with the host [ns/h1];
    hosts built from a specification and a provisioning state; stores with
    and without a failing update. *)
Module Ex.

(** The lower-casing of the example instance for strings that are not
all ASCII: the two letters outside ASCII whose lower case is an ASCII
letter (capital I with dot above, bytes 196 176, and the Kelvin sign,
bytes 226 132 170) and the letters A to Z are lowered, other bytes are
kept. *)
Fixpoint lowerDotted (s : string) : string :=
  match s with
  | EmptyString => EmptyString
  | String "196" (String "176" rest) => String "i" (lowerDotted rest)
  | String "226" (String "132" (String "170" rest)) => String "k" (lowerDotted rest)
  | String c rest => String (lower_ascii c) (lowerDotted rest)
  end.

(** Every label key and value is accepted, the integers are the strings
    of one decimal digit, and a descriptor is valid when its image has a
    URL. *)
Definition externals : Externals :=
  {| validateLabelKey := fun _ => None;
     validateLabelValue := fun _ => None;
     MapToLower := lowerDotted;
     ParseInt := fun v =>
       match v with
       | String c EmptyString =>
           let n := nat_of_ascii c in
           if (48 <=? n)%nat && (n <=? 57)%nat then Some (Z.of_nat (n - 48)) else None
       | _ => None
       end;
     IsValid := fun config =>
       if String.eqb (image_URL (bmspec_Image config)) ""
       then Some "Missing fields from ProviderSpec: [Image.URL]"
       else None |}.

Definition emptyStatus : MachineStatus :=
  {| mstatus_NodeRef := None;
     mstatus_LastUpdated := None;
     mstatus_Version := None;
     mstatus_ErrorReason := None;
     mstatus_ErrorMessage := None;
     mstatus_Addresses := [];
     mstatus_Phase := "";
     mstatus_BootstrapReady := false;
     mstatus_InfrastructureReady := false |}.

Definition machine (annotations : option (gmap string string)) : Machine :=
  {| machine_Kind := "Machine";
     machine_APIVersion := "cluster.x-k8s.io/v1alpha2";
     machine_Name := "m1";
     machine_Namespace := "ns";
     machine_Annotations := annotations;
     machine_Status := emptyStatus |}.

Definition bound : option (gmap string string) := Some {[ HostAnnotation := "ns/h1" ]}.

(** The identity of [m1], and that of another machine. *)
Definition consumer : ObjectReference :=
  {| ref_Kind := "Machine";
     ref_Namespace := "ns";
     ref_Name := "m1";
     ref_APIVersion := "cluster.x-k8s.io/v1alpha2" |}.

Definition stranger : ObjectReference :=
  {| ref_Kind := "Machine";
     ref_Namespace := "ns";
     ref_Name := "m2";
     ref_APIVersion := "cluster.x-k8s.io/v1alpha2" |}.

Definition image : Image :=
  {| image_URL := "http://images/os.qcow2"; image_Checksum := "http://images/os.md5sum" |}.

Definition provisionedSpec : BareMetalHostSpec :=
  {| spec_ConsumerRef := Some consumer;
     spec_Image := Some image;
     spec_UserData := None;
     spec_Online := true |}.

Definition idleSpec (ref : option ObjectReference) : BareMetalHostSpec :=
  {| spec_ConsumerRef := ref;
     spec_Image := None;
     spec_UserData := None;
     spec_Online := false |}.

Definition host (name : string) (spec : BareMetalHostSpec)
    (state : ProvisioningState) (poweredOn : bool) : BareMetalHost :=
  {| host_Name := name;
     host_Namespace := "ns";
     host_Labels := ∅;
     host_DeletionTimestamp := None;
     host_Spec := spec;
     host_Status := {| status_ProvisioningState := state;
                       status_PoweredOn := poweredOn;
                       status_HardwareDetails := None;
                       status_ErrorMessage := "" |} |}.

Definition store (hosts : list BareMetalHost) (fault : option error) : Client :=
  {| objects := hosts;
     getFault := None;
     listFault := None;
     updateFault := fault;
     updateCalls := [] |}.

Definition conflict : option error := Some (StatusError StatusReasonConflict).
Definition gone : option error := Some (StatusError StatusReasonNotFound).

Definition manager (c : Client) (m : Machine) (b : option BareMetalMachine)
  : MachineManager :=
  {| client := c; mgr_Machine := m; mgr_BareMetalMachine := b |}.

(** The host [h1] claimed by [m1], provisioned and switched on. *)
Definition provisionedHost : BareMetalHost := host "h1" provisionedSpec StateProvisioned true.

(** [h1] claimed by [m1] with the payload already cleared. *)
Definition idleHost (state : ProvisioningState) (poweredOn : bool) : BareMetalHost :=
  host "h1" (idleSpec (Some consumer)) state poweredOn.

(** [h1] claimed by the machine [m2]. *)
Definition strangersHost : BareMetalHost := host "h1" (idleSpec (Some stranger)) StateReady false.

(** Managers of [m1] bound to [h1], over a store that holds one host. *)
Definition managerOf (h : BareMetalHost) (fault : option error) : MachineManager :=
  manager (store [h] fault) (machine bound) None.

(** Bare-metal machines of [m1]: a descriptor with an image and a
selector, and the status the machine carries. *)
Definition noSelector : HostSelector := {| MatchLabels := []; MatchExpressions := [] |}.

Definition descriptor (i : Image) (userData : option SecretReference)
    (selector : HostSelector) : BareMetalMachineSpec :=
  {| bmspec_ProviderID := None;
     bmspec_Image := i;
     bmspec_UserData := userData;
     bmspec_HostSelector := selector |}.

Definition freshStatus : BareMetalMachineStatus :=
  {| bmstatus_LastUpdated := None;
     bmstatus_ErrorReason := None;
     bmstatus_ErrorMessage := None;
     bmstatus_Addresses := [];
     bmstatus_Ready := false |}.

Definition failedStatus : BareMetalMachineStatus :=
  {| bmstatus_LastUpdated := None;
     bmstatus_ErrorReason := Some InvalidConfigurationMachineError;
     bmstatus_ErrorMessage := Some "Missing fields from ProviderSpec: [Image.URL]";
     bmstatus_Addresses := [];
     bmstatus_Ready := false |}.

Definition bareMetalMachine (config : BareMetalMachineSpec)
    (status : BareMetalMachineStatus) : BareMetalMachine :=
  {| bmm_Name := "m1";
     bmm_Namespace := "ns";
     bmm_Annotations := None;
     bmm_Spec := config;
     bmm_Status := status |}.

Definition noImage : Image := {| image_URL := ""; image_Checksum := "" |}.

(** The host [h2], free, without image, with one network interface and
a host name. *)
Definition details : HardwareDetails :=
  {| hw_NIC := [ {| nic_IP := "192.168.111.20" |} ]; hw_Hostname := "node-0" |}.

Definition freeHost : BareMetalHost :=
  {| host_Name := "h2";
     host_Namespace := "ns";
     host_Labels := {[ "tier" := "core" ]};
     host_DeletionTimestamp := None;
     host_Spec := idleSpec None;
     host_Status := {| status_ProvisioningState := StateReady;
                       status_PoweredOn := false;
                       status_HardwareDetails := Some details;
                       status_ErrorMessage := "" |} |}.

Definition userData : SecretReference :=
  {| secret_Name := "m1-user-data"; secret_Namespace := "" |}.

(** A status that already holds the addresses of [freeHost]. *)
Definition settledStatus : BareMetalMachineStatus :=
  {| bmstatus_LastUpdated := Some 1572700000%Z;
     bmstatus_ErrorReason := None;
     bmstatus_ErrorMessage := None;
     bmstatus_Addresses :=
       [ {| addr_Type := MachineInternalIP; addr_Address := "192.168.111.20" |};
         {| addr_Type := MachineHostName; addr_Address := "node-0" |};
         {| addr_Type := MachineInternalDNS; addr_Address := "node-0" |} ];
     bmstatus_Ready := false |}.

(** The manager of [m1] with its bare-metal machine, over a store that
holds [freeHost]. *)
Definition fullDescriptor : BareMetalMachineSpec :=
  descriptor image (Some userData) noSelector.

Definition allocating (status : BareMetalMachineStatus) : MachineManager :=
  manager (store [freeHost] None) (machine None)
    (Some (bareMetalMachine fullDescriptor status)).

(** Selectors: one with an operator that does not exist, two that differ
in the letter case of the operator. *)
Definition malformedSelector : HostSelector :=
  {| MatchLabels := [];
     MatchExpressions :=
       [ {| req_Key := "tier"; req_Operator := "bogus"; req_Values := ["core"] |} ] |}.

(** The operator "In" written with the capital I with dot above (U+0130)
    for its first letter, in UTF-8. *)
Definition dottedIn : string := String "196" (String "176" "n").

Definition coreSelector (op : string) : HostSelector :=
  {| MatchLabels := [];
     MatchExpressions :=
       [ {| req_Key := "tier"; req_Operator := op; req_Values := ["core"] |} ] |}.

(** The manager of [m1], not yet annotated, with a selector, over a store
with the given hosts. *)
Definition choosing (selector : HostSelector) (hosts : list BareMetalHost)
  : MachineManager :=
  manager (store hosts None) (machine None)
    (Some (bareMetalMachine (descriptor image None selector) freshStatus)).

(** The pool of the selector scenario: [edge] and [core], both free,
labelled with their tier. *)
Definition tierHost (name tier : string) : BareMetalHost :=
  {| host_Name := name;
     host_Namespace := "ns";
     host_Labels := {[ "tier" := tier ]};
     host_DeletionTimestamp := None;
     host_Spec := idleSpec None;
     host_Status := {| status_ProvisioningState := StateReady;
                       status_PoweredOn := false;
                       status_HardwareDetails := None;
                       status_ErrorMessage := "" |} |}.

Definition tierSelector : HostSelector :=
  {| MatchLabels := [("tier", "core")]; MatchExpressions := [] |}.

Definition twoInterfaces : HardwareDetails :=
  {| hw_NIC := [ {| nic_IP := "192.168.111.20" |}; {| nic_IP := "10.0.0.20" |} ];
     hw_Hostname := "node-0" |}.

End Ex.

(** ** The accessors of the manager

    [GetProviderID], [SetProviderID] and [SetAnnotation] read
    and write the bare-metal machine behind the manager's pointer. *)
Definition bmspec_with_ProviderID (p : option string) (s : BareMetalMachineSpec)
  : BareMetalMachineSpec :=
  {| bmspec_ProviderID := p;
     bmspec_Image := bmspec_Image s;
     bmspec_UserData := bmspec_UserData s;
     bmspec_HostSelector := bmspec_HostSelector s |}.

(** [GetProviderID]: the provider identifier, or the empty string when
    none is set. *)
Definition GetProviderID : M string :=
  b ← getBareMetalMachine;
  match bmspec_ProviderID (bmm_Spec b) with
  | Some v => mret v
  | None => mret ""
  end.

(** [SetProviderID]. *)
Definition SetProviderID (v : string) : M unit :=
  b ← getBareMetalMachine;
  setBareMetalMachine (bmm_with_Spec (bmspec_with_ProviderID (Some v) (bmm_Spec b)) b).

(** [SetAnnotation]: a nil annotation map is replaced by an empty one
    before the key is written. *)
Definition SetAnnotation (key value : string) : M unit :=
  b ← getBareMetalMachine;
  let annotations : gmap string string :=
    match bmm_Annotations b with
    | None => ∅
    | Some annotations => annotations
    end in
  setBareMetalMachine (bmm_with_Annotations (Some (<[key := value]> annotations)) b).

(** ** Stating further properties *)

(** A host that [chooseHost] may take for a machine: one the machine has
    claimed, or an available one whose labels match the selector. *)
Definition candidateFor {ext : Externals} (machine : Machine) (labelSelector : list Requirement)
    (host : BareMetalHost) : Prop :=
  claimedBy machine host = true
  \/ (Available host = true /\ selectorMatches labelSelector (host_Labels host) = true).

(** The available hosts of a listing that match the selector, in the
    order of the listing. *)
Definition eligibleHosts {ext : Externals} (labelSelector : list Requirement)
    (hosts : list BareMetalHost) : list BareMetalHost :=
  List.filter
    (fun host => Available host && selectorMatches labelSelector (host_Labels host))
    hosts.

(** The host as [setHostSpec] sends it to the store, and the bare-metal
    machine as [setHostSpec] leaves it (the user-data reference is shared
    between the two). *)
Definition committedHost (machine : Machine) (b : BareMetalMachine) (host : BareMetalHost)
  : BareMetalHost :=
  host_with_Spec
    {| spec_ConsumerRef := Some (machineIdentity machine);
       spec_Image :=
         match spec_Image (host_Spec host) with
         | Some i => Some i
         | None => Some {| image_URL := image_URL (bmspec_Image (bmm_Spec b));
                           image_Checksum := image_Checksum (bmspec_Image (bmm_Spec b)) |}
         end;
       spec_UserData :=
         match spec_Image (host_Spec host) with
         | Some _ => spec_UserData (host_Spec host)
         | None => defaultedUserData machine (bmspec_UserData (bmm_Spec b))
         end;
       spec_Online := true |}
    host.

Definition descriptorAfterCommit (machine : Machine) (b : BareMetalMachine)
    (host : BareMetalHost) : BareMetalMachine :=
  match spec_Image (host_Spec host) with
  | Some _ => b
  | None =>
      bmm_with_Spec
        (bmspec_with_UserData (defaultedUserData machine (bmspec_UserData (bmm_Spec b)))
           (bmm_Spec b)) b
  end.

(** The internal IP addresses among machine addresses. *)
Definition internalIPs (addrs : list MachineAddress) : list string :=
  map addr_Address
    (List.filter (fun a => bool_decide (addr_Type a = MachineInternalIP)) addrs).

(** The lookup of the bound host fails with an error: the annotation
    cannot be split into namespace and name, or the store answers the get
    with an error other than not-found. *)
Inductive LookupFails (mgr : MachineManager) (e : error) : Prop :=
| key_malformed hostKey namespace name :
    hostAnnotationOf (mgr_Machine mgr) = Some hostKey ->
    SplitMetaNamespaceKey hostKey = (namespace, name, Some e) ->
    LookupFails mgr e
| get_failed hostKey namespace name :
    hostAnnotationOf (mgr_Machine mgr) = Some hostKey ->
    SplitMetaNamespaceKey hostKey = (namespace, name, None) ->
    client_Get (mkObjectKey namespace name) (client mgr) = inl e ->
    IsNotFound (Some e) = false ->
    LookupFails mgr e.

(** The machine has no binding the lookup can resolve: no annotation, or
    an annotated host the store does not have. *)
Inductive Unbound (mgr : MachineManager) : Prop :=
| unbound_no_annotation :
    hostAnnotationOf (mgr_Machine mgr) = None ->
    Unbound mgr
| unbound_host_absent hostKey namespace name e :
    hostAnnotationOf (mgr_Machine mgr) = Some hostKey ->
    SplitMetaNamespaceKey hostKey = (namespace, name, None) ->
    client_Get (mkObjectKey namespace name) (client mgr) = inl e ->
    IsNotFound (Some e) = true ->
    Unbound mgr.

(** * Properties *)

(** ** The manager as state *)

Lemma bind_Done {A B : Type} (m : M A) (f : A -> M B) (mgr mgr' : MachineManager) (a : A) :
  m mgr = Done a mgr' -> (m ≫= f) mgr = f a mgr'.
Proof. intros E. unfold mbind, M_bind. rewrite E. reflexivity. Qed.

Lemma oneOf_elem_of (s : string) (l : list string) : oneOf s l = true <-> s ∈ l.
Proof.
  unfold oneOf. rewrite existsb_exists. split.
  - intros (x & Hin & Heq). apply String.eqb_eq in Heq. subst x.
    apply list_elem_of_In. exact Hin.
  - intros Hin. exists s. split.
    + apply list_elem_of_In. exact Hin.
    + apply String.eqb_refl.
Qed.

Lemma oneOf_not_elem_of (s : string) (l : list string) : oneOf s l = false <-> s ∉ l.
Proof.
  rewrite <- oneOf_elem_of. destruct (oneOf s l); split; intros; congruence.
Qed.

(** ** Looking up the bound host *)

(** [getHost] reads the store and leaves the manager as it was. *)
Lemma getHost_no_annotation (mgr : MachineManager) :
  hostAnnotationOf (mgr_Machine mgr) = None ->
  getHost mgr = Done (None, None) mgr.
Proof.
  unfold hostAnnotationOf, getHost. intros Hann.
  rewrite (bind_Done getMachine _ mgr mgr (mgr_Machine mgr)) by reflexivity.
  destruct (machine_Annotations (mgr_Machine mgr)) as [annotations|]; [|reflexivity].
  simpl in Hann. rewrite Hann. reflexivity.
Qed.

Lemma getHost_annotated (mgr : MachineManager) (hostKey namespace name : string) :
  hostAnnotationOf (mgr_Machine mgr) = Some hostKey ->
  SplitMetaNamespaceKey hostKey = (namespace, name, None) ->
  getHost mgr =
    match client_Get (mkObjectKey namespace name) (client mgr) with
    | inl e => if IsNotFound (Some e) then Done (None, None) mgr else Done (None, Some e) mgr
    | inr host => Done (Some host, None) mgr
    end.
Proof.
  unfold hostAnnotationOf, getHost. intros Hann Hsplit.
  rewrite (bind_Done getMachine _ mgr mgr (mgr_Machine mgr)) by reflexivity.
  destruct (machine_Annotations (mgr_Machine mgr)) as [annotations|]; [|discriminate].
  simpl in Hann. rewrite Hann, Hsplit.
  rewrite (bind_Done (callGet _) _ mgr mgr
             (client_Get (mkObjectKey namespace name) (client mgr))) by reflexivity.
  destruct (client_Get _ _) as [e|host]; [|reflexivity].
  destruct (IsNotFound (Some e)); reflexivity.
Qed.

Lemma getHost_bound (mgr : MachineManager) (host : BareMetalHost) :
  BoundHost mgr host -> getHost mgr = Done (Some host, None) mgr.
Proof.
  intros (hostKey & namespace & name & Hann & Hsplit & Hget).
  rewrite (getHost_annotated mgr hostKey namespace name Hann Hsplit), Hget.
  reflexivity.
Qed.

(** ** Delete *)

(** What [Delete] does once the lookup has returned a host. *)
Lemma Delete_found (mgr : MachineManager) (host : BareMetalHost) :
  getHost mgr = Done (Some host, None) mgr ->
  Delete mgr =
    match spec_ConsumerRef (host_Spec host) with
    | None => Done ("", None) mgr
    | Some consumer =>
        if negb (consumerRefMatches consumer (mgr_Machine mgr)) then Done ("", None) mgr
        else if hasPayload host then
          let '(err, c) := client_Update (clearPayload host) (client mgr) in
          Done (host_Name host,
                if isFailure err then err else Some (RequeueAfterError 0%Z))
               (mgr_with_client c mgr)
        else if waitingFor host then
          Done (host_Name host, Some (RequeueAfterError requeueAfter)) mgr
        else
          let '(err, c) := client_Update (releaseHost host) (client mgr) in
          Done (host_Name host, if isFailure err then err else None)
               (mgr_with_client c mgr)
    end.
Proof.
  intros Hget. unfold Delete.
  rewrite (bind_Done getHost _ mgr mgr (Some host, None) Hget).
  destruct (spec_ConsumerRef (host_Spec host)) as [consumer|]; [|reflexivity].
  rewrite (bind_Done getMachine _ mgr mgr (mgr_Machine mgr)) by reflexivity.
  destruct (consumerRefMatches consumer (mgr_Machine mgr)); [|reflexivity].
  unfold mbind, M_bind, callUpdate, mret, M_ret. simpl.
  destruct (hasPayload host).
  - destruct (client_Update (clearPayload host) (client mgr)) as [err c].
    destruct (isFailure err); reflexivity.
  - destruct (waitingFor host); [reflexivity|].
    destruct (client_Update (releaseHost host) (client mgr)) as [err c].
    destruct (isFailure err); reflexivity.
Qed.

Lemma client_Update_calls (h : BareMetalHost) (c c' : Client) (err : option error) :
  client_Update h c = (err, c') -> updateCalls c' = h :: updateCalls c.
Proof.
  unfold client_Update. intros Hup.
  destruct (updateFault c); [|destruct (existsb _ _)]; inversion Hup; reflexivity.
Qed.

Lemma client_Update_accepted (h : BareMetalHost) (c c' : Client) :
  client_Update h c = (None, c') -> objects c' = replaceHost h (objects c).
Proof.
  unfold client_Update. intros Hup.
  destruct (updateFault c); [|destruct (existsb _ _)]; inversion Hup; reflexivity.
Qed.

Lemma client_Update_refused (h : BareMetalHost) (c c' : Client) (e : error) :
  client_Update h c = (Some e, c') -> objects c' = objects c.
Proof.
  unfold client_Update. intros Hup.
  destruct (updateFault c); [|destruct (existsb _ _)]; inversion Hup; reflexivity.
Qed.

(** C4. When the machine has no claim to give up (no binding annotation,
    the annotated host absent from the store, the bound host without a
    consumer, or the bound host consumed by another machine), [Delete]
    returns success, with no error and no requeue signal, and leaves the
    manager and the store behind it untouched: no update is sent. *)
Theorem Delete_without_claim_is_noop (mgr : MachineManager) :
  NoClaim mgr -> Delete mgr = Done ("", None) mgr.
Proof.
  intros [Hann | hostKey namespace name Hann Hsplit Hget
          | hostKey namespace name host Hann Hsplit Hget Hnone
          | hostKey namespace name host consumer Hann Hsplit Hget Hsome Hother].
  - unfold Delete.
    rewrite (bind_Done getHost _ mgr mgr (None, None) (getHost_no_annotation mgr Hann)).
    reflexivity.
  - unfold Delete.
    rewrite (bind_Done getHost _ mgr mgr (None, None)); [reflexivity|].
    rewrite (getHost_annotated mgr hostKey namespace name Hann Hsplit), Hget.
    reflexivity.
  - rewrite (Delete_found mgr host), Hnone; [reflexivity|].
    apply getHost_bound. exists hostKey, namespace, name. auto.
  - rewrite (Delete_found mgr host), Hsome, Hother; [reflexivity|].
    apply getHost_bound. exists hostKey, namespace, name. auto.
Qed.

Lemma Delete_without_claim_is_noop_witness :
  Delete (Ex.managerOf Ex.strangersHost None)
  = Done ("", None) (Ex.managerOf Ex.strangersHost None).
Proof.
  apply Delete_without_claim_is_noop.
  apply consumer_other
    with (hostKey := "ns/h1") (namespace := "ns") (name := "h1")
         (host := Ex.strangersHost) (consumer := Ex.stranger);
    reflexivity.
Defined.

(** The example managers are bound to the host their store holds. *)
Lemma Ex_managerOf_bound (spec : BareMetalHostSpec) (state : ProvisioningState)
    (poweredOn : bool) (fault : option error) :
  BoundHost (Ex.managerOf (Ex.host "h1" spec state poweredOn) fault)
            (Ex.host "h1" spec state poweredOn).
Proof. exists "ns/h1", "ns", "h1". repeat split; reflexivity. Qed.

(** C3, as stated, fails when the store refuses the update: on the host
    [h1], claimed by the machine, with an image and switched on, and a
    store that answers the update with a conflict, [Delete] returns that
    conflict, which is not a requeue signal. *)
Lemma Delete_payload_conflict_is_error :
  BoundHost (Ex.managerOf Ex.provisionedHost Ex.conflict) Ex.provisionedHost
  /\ claimedBy (Ex.machine Ex.bound) Ex.provisionedHost = true
  /\ hasPayload Ex.provisionedHost = true
  /\ Delete (Ex.managerOf Ex.provisionedHost Ex.conflict)
     = Done ("h1", Some (StatusError StatusReasonConflict))
         (Ex.manager
            {| objects := [Ex.provisionedHost];
               getFault := None;
               listFault := None;
               updateFault := Ex.conflict;
               updateCalls := [clearPayload Ex.provisionedHost] |}
            (Ex.machine Ex.bound) None)
  /\ isRequeue (Some (StatusError StatusReasonConflict)) = false.
Proof.
  split; [apply Ex_managerOf_bound|].
  repeat split; reflexivity.
Qed.

(** C3, amended. When the host bound to the machine is claimed by it and
    still carries a payload (an image, the online flag, or user data),
    [Delete] clears the image, the online flag and the user data, keeps the
    consumer reference, and sends that host to the store in one update.
    It returns the requeue signal when the store accepts the update or
    reports the host not found; any other error of the store is returned
    as it is.  The accepted update replaces the stored host. *)
Theorem Delete_clears_payload_and_requeues
    (mgr : MachineManager) (host : BareMetalHost) (consumer : ObjectReference)
    (err : option error) (c : Client) :
  BoundHost mgr host ->
  spec_ConsumerRef (host_Spec host) = Some consumer ->
  consumerRefMatches consumer (mgr_Machine mgr) = true ->
  hasPayload host = true ->
  client_Update (clearPayload host) (client mgr) = (err, c) ->
  spec_Image (host_Spec (clearPayload host)) = None
  /\ spec_Online (host_Spec (clearPayload host)) = false
  /\ spec_UserData (host_Spec (clearPayload host)) = None
  /\ spec_ConsumerRef (host_Spec (clearPayload host)) = Some consumer
  /\ updateCalls c = clearPayload host :: updateCalls (client mgr)
  /\ (err = None -> objects c = replaceHost (clearPayload host) (objects (client mgr)))
  /\ Delete mgr
     = Done (host_Name host,
             if isFailure err then err else Some (RequeueAfterError 0%Z))
            (mgr_with_client c mgr).
Proof.
  intros Hbound Href Hmatch Hpayload Hupdate.
  repeat split; try reflexivity.
  - exact Href.
  - exact (client_Update_calls _ _ _ _ Hupdate).
  - intros ->. exact (client_Update_accepted _ _ _ Hupdate).
  - rewrite (Delete_found mgr host (getHost_bound mgr host Hbound)).
    rewrite Href, Hmatch, Hpayload, Hupdate. reflexivity.
Qed.

Lemma Delete_clears_payload_and_requeues_witness :
  Delete (Ex.managerOf Ex.provisionedHost None)
  = Done ("h1", Some (RequeueAfterError 0%Z))
      (Ex.manager
         {| objects := [clearPayload Ex.provisionedHost];
            getFault := None;
            listFault := None;
            updateFault := None;
            updateCalls := [clearPayload Ex.provisionedHost] |}
         (Ex.machine Ex.bound) None).
Proof.
  apply (Delete_clears_payload_and_requeues
           (Ex.managerOf Ex.provisionedHost None) Ex.provisionedHost Ex.consumer None
           {| objects := [clearPayload Ex.provisionedHost];
              getFault := None;
              listFault := None;
              updateFault := None;
              updateCalls := [clearPayload Ex.provisionedHost] |}).
  - exists "ns/h1", "ns", "h1". repeat split; reflexivity.
  - reflexivity.
  - reflexivity.
  - reflexivity.
  - reflexivity.
Defined.

Lemma Delete_release (mgr : MachineManager) (host : BareMetalHost)
    (consumer : ObjectReference) :
  BoundHost mgr host ->
  spec_ConsumerRef (host_Spec host) = Some consumer ->
  consumerRefMatches consumer (mgr_Machine mgr) = true ->
  hasPayload host = false ->
  waitingFor host = false ->
  Released mgr host.
Proof.
  intros Hbound Href Hmatch Hpayload Hwait err c Hupdate.
  repeat split; try reflexivity.
  - exact (client_Update_calls _ _ _ _ Hupdate).
  - intros ->. exact (client_Update_accepted _ _ _ Hupdate).
  - rewrite (Delete_found mgr host (getHost_bound mgr host Hbound)).
    rewrite Href, Hmatch, Hpayload, Hwait, Hupdate. reflexivity.
Qed.

Lemma Delete_wait (mgr : MachineManager) (host : BareMetalHost)
    (consumer : ObjectReference) :
  BoundHost mgr host ->
  spec_ConsumerRef (host_Spec host) = Some consumer ->
  consumerRefMatches consumer (mgr_Machine mgr) = true ->
  hasPayload host = false ->
  waitingFor host = true ->
  Waits mgr host.
Proof.
  intros Hbound Href Hmatch Hpayload Hwait. unfold Waits.
  rewrite (Delete_found mgr host (getHost_bound mgr host Hbound)).
  rewrite Href, Hmatch, Hpayload, Hwait. reflexivity.
Qed.

Lemma externallyProvisioned_is_provisioned :
  oneOf StateExternallyProvisioned notProvisionedStates = false.
Proof. reflexivity. Qed.

(** C5, as stated, fails when the store refuses the update: on the host
    [h1], claimed by the machine, without payload and in state ready, and a
    store that answers the update with a conflict, [Delete] returns that
    conflict and not success. *)
Lemma Delete_release_conflict_is_error :
  BoundHost (Ex.managerOf (Ex.idleHost StateReady false) Ex.conflict)
            (Ex.idleHost StateReady false)
  /\ claimedBy (Ex.machine Ex.bound) (Ex.idleHost StateReady false) = true
  /\ hasPayload (Ex.idleHost StateReady false) = false
  /\ status_ProvisioningState (host_Status (Ex.idleHost StateReady false)) = StateReady
  /\ Delete (Ex.managerOf (Ex.idleHost StateReady false) Ex.conflict)
     = Done ("h1", Some (StatusError StatusReasonConflict))
         (Ex.manager
            {| objects := [Ex.idleHost StateReady false];
               getFault := None;
               listFault := None;
               updateFault := Ex.conflict;
               updateCalls := [releaseHost (Ex.idleHost StateReady false)] |}
            (Ex.machine Ex.bound) None).
Proof.
  split; [apply Ex_managerOf_bound|].
  repeat split; reflexivity.
Qed.

(** C5, amended. When the host bound to the machine is claimed by it and
    carries no payload: in the states registration error, registering,
    match profile, inspecting, ready and validation error, [Delete] clears
    the consumer reference, sends the host to the store and returns
    success, unless the store answers with an error other than not-found,
    which is returned; in the state externally provisioned it asks for a
    requeue while the host is powered on and releases in the same way once
    it is powered off; in any other state it asks for a requeue and sends
    nothing to the store. *)
Theorem Delete_releases_by_provisioning_state
    (mgr : MachineManager) (host : BareMetalHost) (consumer : ObjectReference) :
  BoundHost mgr host ->
  spec_ConsumerRef (host_Spec host) = Some consumer ->
  consumerRefMatches consumer (mgr_Machine mgr) = true ->
  hasPayload host = false ->
  let state := status_ProvisioningState (host_Status host) in
  (state ∈ notProvisionedStates -> Released mgr host)
  /\ (state = StateExternallyProvisioned ->
      (status_PoweredOn (host_Status host) = true -> Waits mgr host)
      /\ (status_PoweredOn (host_Status host) = false -> Released mgr host))
  /\ (state ∉ notProvisionedStates -> state <> StateExternallyProvisioned ->
      Waits mgr host).
Proof.
  intros Hbound Href Hmatch Hpayload state.
  split; [|split].
  - intros Hin. apply (Delete_release mgr host consumer); auto.
    unfold waitingFor. fold state.
    apply oneOf_elem_of in Hin. rewrite Hin. reflexivity.
  - intros Hstate.
    assert (Hswitch : waitingFor host = status_PoweredOn (host_Status host)).
    { unfold waitingFor. fold state. rewrite Hstate.
      rewrite externallyProvisioned_is_provisioned, String.eqb_refl. reflexivity. }
    split; intros Hpower.
    + apply (Delete_wait mgr host consumer); auto. congruence.
    + apply (Delete_release mgr host consumer); auto. congruence.
  - intros Hnotin Hother. apply (Delete_wait mgr host consumer); auto.
    unfold waitingFor. fold state.
    apply oneOf_not_elem_of in Hnotin. rewrite Hnotin.
    apply String.eqb_neq in Hother. rewrite Hother. reflexivity.
Qed.

Lemma Delete_releases_by_provisioning_state_witness :
  Delete (Ex.managerOf (Ex.idleHost StateReady false) None)
  = Done ("h1", None)
      (Ex.manager
         {| objects := [releaseHost (Ex.idleHost StateReady false)];
            getFault := None;
            listFault := None;
            updateFault := None;
            updateCalls := [releaseHost (Ex.idleHost StateReady false)] |}
         (Ex.machine Ex.bound) None)
  /\ Waits (Ex.managerOf (Ex.idleHost StateExternallyProvisioned true) None)
           (Ex.idleHost StateExternallyProvisioned true)
  /\ Waits (Ex.managerOf (Ex.idleHost StateDeprovisioning false) None)
           (Ex.idleHost StateDeprovisioning false).
Proof.
  assert (Hbound : forall state poweredOn,
            BoundHost (Ex.managerOf (Ex.idleHost state poweredOn) None)
                      (Ex.idleHost state poweredOn)).
  { intros state poweredOn. exists "ns/h1", "ns", "h1". repeat split; reflexivity. }
  split; [|split].
  - assert (Hready : StateReady ∈ notProvisionedStates)
      by (unfold notProvisionedStates; repeat constructor).
    pose proof (proj1 (Delete_releases_by_provisioning_state
                         (Ex.managerOf (Ex.idleHost StateReady false) None)
                         (Ex.idleHost StateReady false) Ex.consumer
                         (Hbound _ _) eq_refl eq_refl eq_refl)
                      Hready) as Hreleased.
    destruct (Hreleased None
                {| objects := [releaseHost (Ex.idleHost StateReady false)];
                   getFault := None;
                   listFault := None;
                   updateFault := None;
                   updateCalls := [releaseHost (Ex.idleHost StateReady false)] |}
                eq_refl) as (_ & _ & _ & Hdelete).
    exact Hdelete.
  - apply (proj1 (proj2 (Delete_releases_by_provisioning_state
                    (Ex.managerOf (Ex.idleHost StateExternallyProvisioned true) None)
                    (Ex.idleHost StateExternallyProvisioned true) Ex.consumer
                    (Hbound _ _) eq_refl eq_refl eq_refl)));
      reflexivity.
  - apply (proj2 (proj2 (Delete_releases_by_provisioning_state
                    (Ex.managerOf (Ex.idleHost StateDeprovisioning false) None)
                    (Ex.idleHost StateDeprovisioning false) Ex.consumer
                    (Hbound _ _) eq_refl eq_refl eq_refl))).
    + unfold notProvisionedStates. rewrite !elem_of_cons, elem_of_nil.
      intros Hin. repeat (destruct Hin as [Hin|Hin]; [discriminate Hin|]). exact Hin.
    + discriminate.
Defined.

(** C10. A not-found answer of the store to the update of the host is
    not an error of [Delete]: when it comes while the payload is cleared,
    [Delete] still returns the requeue signal, and when it comes while
    the consumer reference is cleared, [Delete] still returns success. *)
Theorem Delete_ignores_host_gone
    (mgr : MachineManager) (host : BareMetalHost) (consumer : ObjectReference)
    (c : Client) :
  BoundHost mgr host ->
  spec_ConsumerRef (host_Spec host) = Some consumer ->
  consumerRefMatches consumer (mgr_Machine mgr) = true ->
  (hasPayload host = true ->
   client_Update (clearPayload host) (client mgr)
     = (Some (StatusError StatusReasonNotFound), c) ->
   Delete mgr = Done (host_Name host, Some (RequeueAfterError 0%Z)) (mgr_with_client c mgr))
  /\ (hasPayload host = false ->
      waitingFor host = false ->
      client_Update (releaseHost host) (client mgr)
        = (Some (StatusError StatusReasonNotFound), c) ->
      Delete mgr = Done (host_Name host, None) (mgr_with_client c mgr)).
Proof.
  intros Hbound Href Hmatch.
  pose proof (Delete_found mgr host (getHost_bound mgr host Hbound)) as Hdelete.
  rewrite Href, Hmatch in Hdelete. simpl negb in Hdelete. cbv iota in Hdelete.
  split.
  - intros Hpayload Hupdate. rewrite Hpayload, Hupdate in Hdelete. exact Hdelete.
  - intros Hpayload Hwait Hupdate. rewrite Hpayload, Hwait, Hupdate in Hdelete.
    exact Hdelete.
Qed.

Lemma Delete_ignores_host_gone_witness :
  Delete (Ex.managerOf Ex.provisionedHost Ex.gone)
  = Done ("h1", Some (RequeueAfterError 0%Z))
      (Ex.manager
         {| objects := [Ex.provisionedHost];
            getFault := None;
            listFault := None;
            updateFault := Ex.gone;
            updateCalls := [clearPayload Ex.provisionedHost] |}
         (Ex.machine Ex.bound) None)
  /\ Delete (Ex.managerOf (Ex.idleHost StateReady false) Ex.gone)
     = Done ("h1", None)
         (Ex.manager
            {| objects := [Ex.idleHost StateReady false];
               getFault := None;
               listFault := None;
               updateFault := Ex.gone;
               updateCalls := [releaseHost (Ex.idleHost StateReady false)] |}
            (Ex.machine Ex.bound) None).
Proof.
  assert (Hbound : forall spec state poweredOn,
            BoundHost (Ex.managerOf (Ex.host "h1" spec state poweredOn) Ex.gone)
                      (Ex.host "h1" spec state poweredOn)).
  { intros spec state poweredOn. exists "ns/h1", "ns", "h1".
    repeat split; reflexivity. }
  split.
  - apply (proj1 (Delete_ignores_host_gone
                    (Ex.managerOf Ex.provisionedHost Ex.gone) Ex.provisionedHost
                    Ex.consumer _ (Hbound _ _ _) eq_refl eq_refl));
      reflexivity.
  - apply (proj2 (Delete_ignores_host_gone
                    (Ex.managerOf (Ex.idleHost StateReady false) Ex.gone)
                    (Ex.idleHost StateReady false)
                    Ex.consumer _ (Hbound _ _ _) eq_refl eq_refl));
      reflexivity.
Defined.

(** ** Create *)

Ltac unfold_monad :=
  unfold mbind, M_bind, mret, M_ret, getMachine, getBareMetalMachine,
    setBareMetalMachine, callGet, callList, callUpdate in *;
  cbv beta iota.

Lemma getHost_keeps_manager (mgr : MachineManager) :
  exists r, getHost mgr = Done r mgr.
Proof.
  unfold getHost. unfold_monad.
  repeat case_match; eauto.
Qed.

Section CreateProperties.
Context {ext : Externals}.

Lemma chooseHost_keeps_manager (rnd : nat) (mgr : MachineManager) (b : BareMetalMachine) :
  mgr_BareMetalMachine mgr = Some b ->
  exists r, chooseHost rnd mgr = Done r mgr.
Proof.
  intros Hb. unfold chooseHost. unfold_monad.
  repeat (first [rewrite Hb | case_match]; cbv beta iota); eauto.
Qed.

Lemma setHostSpec_keeps_ErrorFree (host : BareMetalHost) (mgr : MachineManager) :
  ErrorFree mgr ->
  exists r mgr', setHostSpec host mgr = Done r mgr' /\ ErrorFree mgr'.
Proof.
  intros (b & Hb & Hmsg & Hreason). unfold setHostSpec. unfold_monad.
  unfold ErrorFree.
  repeat (first [rewrite Hb | case_match]; cbv beta iota); simplify_eq/=; eauto 10.
Qed.

Lemma ensureAnnotation_keeps_ErrorFree (host : BareMetalHost) (mgr : MachineManager) :
  ErrorFree mgr ->
  exists r mgr', ensureAnnotation host mgr = Done r mgr' /\ ErrorFree mgr'.
Proof.
  intros (b & Hb & Hmsg & Hreason). unfold ensureAnnotation. unfold_monad.
  unfold ErrorFree.
  repeat (first [rewrite Hb | case_match]; cbv beta iota); simplify_eq/=; eauto 10.
Qed.

Lemma updateMachineStatus_keeps_ErrorFree (now : Time) (host : BareMetalHost)
    (mgr : MachineManager) :
  ErrorFree mgr ->
  exists r mgr', updateMachineStatus now host mgr = Done r mgr' /\ ErrorFree mgr'.
Proof.
  intros (b & Hb & Hmsg & Hreason). unfold updateMachineStatus. unfold_monad.
  unfold ErrorFree.
  repeat (first [rewrite Hb | case_match]; cbv beta iota); simplify_eq/=; eauto 10.
Qed.

Lemma associate_keeps_ErrorFree (rnd : nat) (now : Time) (mgr : MachineManager) :
  ErrorFree mgr ->
  exists r mgr', associate rnd now mgr = Done r mgr' /\ ErrorFree mgr'.
Proof.
  intros Hfree. unfold associate.
  destruct (getHost_keeps_manager mgr) as [[host err] Hget].
  rewrite (bind_Done getHost _ mgr mgr _ Hget).
  destruct err as [e|]; [unfold mret, M_ret; eauto|].
  assert (Hchosen : exists r,
             (match host with
              | Some host => mret (Some host, None)
              | None => chooseHost rnd
              end) mgr = Done r mgr).
  { destruct host as [host|]; [unfold mret, M_ret; eauto|].
    destruct Hfree as (b & Hb & _). exact (chooseHost_keeps_manager rnd mgr b Hb). }
  destruct Hchosen as [[chosen err] Hchosen].
  rewrite (bind_Done _ _ mgr mgr _ Hchosen).
  destruct err as [e|]; [unfold mret, M_ret; eauto|].
  destruct chosen as [chosen|]; [|unfold mret, M_ret; eauto].
  destruct (setHostSpec_keeps_ErrorFree chosen mgr Hfree) as ([host' err] & mgr1 & Hset & Hfree1).
  rewrite (bind_Done _ _ mgr mgr1 _ Hset).
  destruct err as [e|]; [unfold mret, M_ret; eauto|].
  destruct (ensureAnnotation_keeps_ErrorFree host' mgr1 Hfree1) as (err & mgr2 & Hann & Hfree2).
  rewrite (bind_Done _ _ mgr1 mgr2 _ Hann).
  destruct err as [e|]; [unfold mret, M_ret; eauto|].
  destruct (updateMachineStatus_keeps_ErrorFree now host' mgr2 Hfree2)
    as (err & mgr3 & Hstatus & Hfree3).
  rewrite (bind_Done _ _ mgr2 mgr3 _ Hstatus).
  destruct err as [e|]; unfold mret, M_ret; eauto.
Qed.

(** C9. With an invalid provisioning descriptor, [Create] writes the
    message of the validation error and the invalid-configuration reason
    into the error fields of the bare-metal machine and returns with no
    error and no requeue signal; nothing else of the manager changes and
    the store is not called.  With a valid descriptor, [Create] runs the
    rest of its sequence from the manager with both error fields reset,
    it ends, and the error fields are nil when it does. *)
Theorem Create_validates_descriptor (rnd : nat) (now : Time) (mgr : MachineManager)
    (b : BareMetalMachine) :
  mgr_BareMetalMachine mgr = Some b ->
  (forall message, IsValid (bmm_Spec b) = Some message ->
     Create rnd now mgr
     = Done ("", None)
         (mgr_with_BareMetalMachine
            (bmm_with_Status
               (bmstatus_with_Error (Some InvalidConfigurationMachineError) (Some message)
                  (bmm_Status b)) b) mgr))
  /\ (IsValid (bmm_Spec b) = None ->
      Create rnd now mgr
      = associate rnd now
          (mgr_with_BareMetalMachine
             (bmm_with_Status (bmstatus_with_Error None None (bmm_Status b)) b) mgr)
      /\ exists r mgr', Create rnd now mgr = Done r mgr' /\ ErrorFree mgr').
Proof.
  intros Hb. split.
  - intros message Hinvalid. unfold Create. rewrite Hb. cbv zeta. rewrite Hinvalid.
    unfold setError. unfold_monad. rewrite Hb. reflexivity.
  - intros Hvalid.
    assert (Hcreate : Create rnd now mgr
                      = associate rnd now
                          (mgr_with_BareMetalMachine
                             (bmm_with_Status
                                (bmstatus_with_Error None None (bmm_Status b)) b) mgr)).
    { unfold Create. rewrite Hb. cbv zeta. rewrite Hvalid.
      unfold clearError. unfold_monad. rewrite Hb.
      destruct mgr as [c m ob]. simpl in Hb. subst ob.
      destruct b as [name namespace annotations config [updated reason message addrs ready]].
      destruct message, reason; reflexivity. }
    split; [exact Hcreate|].
    rewrite Hcreate. apply associate_keeps_ErrorFree.
    eexists. repeat split; reflexivity.
Qed.

End CreateProperties.

Lemma Create_validates_descriptor_witness :
  Create (ext := Ex.externals) 0 1572739200%Z
    (Ex.manager (Ex.store [] None) (Ex.machine None)
       (Some (Ex.bareMetalMachine (Ex.descriptor Ex.noImage None Ex.noSelector)
                Ex.freshStatus)))
  = Done ("", None)
      (Ex.manager (Ex.store [] None) (Ex.machine None)
         (Some (Ex.bareMetalMachine (Ex.descriptor Ex.noImage None Ex.noSelector)
                  Ex.failedStatus)))
  /\ exists r mgr',
      Create (ext := Ex.externals) 0 1572739200%Z
        (Ex.manager (Ex.store [] None) (Ex.machine None)
           (Some (Ex.bareMetalMachine (Ex.descriptor Ex.image None Ex.noSelector)
                    Ex.failedStatus)))
      = Done r mgr' /\ ErrorFree mgr'.
Proof.
  split.
  - apply (proj1 (@Create_validates_descriptor Ex.externals 0 1572739200%Z
                    (Ex.manager (Ex.store [] None) (Ex.machine None)
                       (Some (Ex.bareMetalMachine
                                (Ex.descriptor Ex.noImage None Ex.noSelector)
                                Ex.freshStatus)))
                    _ eq_refl)).
    reflexivity.
  - apply (proj2 (@Create_validates_descriptor Ex.externals 0 1572739200%Z
                    (Ex.manager (Ex.store [] None) (Ex.machine None)
                       (Some (Ex.bareMetalMachine
                                (Ex.descriptor Ex.image None Ex.noSelector)
                                Ex.failedStatus)))
                    _ eq_refl)).
    reflexivity.
Defined.

(** ** Claiming the host *)

(** C6. [setHostSpec] sends to the store, in one update, the host with
    the consumer reference set to the machine (kind Machine, its name,
    namespace and API version) and the online flag set.  When the host had
    no image, that host carries the image of the machine's descriptor (URL
    and checksum) and its user-data reference, an empty user-data
    namespace being replaced by the namespace of the machine; when the
    host had an image, image and user data are as they were.  The name,
    namespace, labels and status of the host are not touched. *)
Theorem setHostSpec_commits_binding (mgr : MachineManager) (b : BareMetalMachine)
    (host : BareMetalHost) :
  mgr_BareMetalMachine mgr = Some b ->
  exists host' err mgr',
    setHostSpec host mgr = Done (host', err) mgr'
    /\ client_Update host' (client mgr) = (err, client mgr')
    /\ updateCalls (client mgr') = host' :: updateCalls (client mgr)
    /\ mgr_Machine mgr' = mgr_Machine mgr
    /\ spec_ConsumerRef (host_Spec host') = Some (machineIdentity (mgr_Machine mgr))
    /\ spec_Online (host_Spec host') = true
    /\ (spec_Image (host_Spec host) = None ->
        spec_Image (host_Spec host')
        = Some {| image_URL := image_URL (bmspec_Image (bmm_Spec b));
                  image_Checksum := image_Checksum (bmspec_Image (bmm_Spec b)) |}
        /\ spec_UserData (host_Spec host')
           = defaultedUserData (mgr_Machine mgr) (bmspec_UserData (bmm_Spec b)))
    /\ (forall i, spec_Image (host_Spec host) = Some i ->
        spec_Image (host_Spec host') = Some i
        /\ spec_UserData (host_Spec host') = spec_UserData (host_Spec host))
    /\ host_Name host' = host_Name host
    /\ host_Namespace host' = host_Namespace host
    /\ host_Labels host' = host_Labels host
    /\ host_Status host' = host_Status host.
Proof.
  intros Hb. unfold setHostSpec. unfold_monad.
  assert (Hsent : forall (h : BareMetalHost) (m : MachineManager) (P : BareMetalHost -> Prop),
            client m = client mgr -> mgr_Machine m = mgr_Machine mgr -> P h ->
            exists host' err mgr',
              match (let '(err, c) := client_Update h (client m) in
                     Done err (mgr_with_client c m)) with
              | Done a mgr' => Done (h, a) mgr'
              | Panic => Panic
              end = Done (host', err) mgr'
              /\ client_Update host' (client mgr) = (err, client mgr')
              /\ updateCalls (client mgr') = host' :: updateCalls (client mgr)
              /\ mgr_Machine mgr' = mgr_Machine mgr
              /\ P host').
  { intros h m P Hclient Hmachine HP. rewrite Hclient.
    destruct (client_Update h (client mgr)) as [err c] eqn:Hupdate.
    exists h, err, (mgr_with_client c m).
    split_and!; auto. exact (client_Update_calls _ _ _ _ Hupdate). }
  destruct (spec_Image (host_Spec host)) as [i|] eqn:Himage; cbv beta iota zeta.
  - apply Hsent; try reflexivity.
    split_and!; try reflexivity; try discriminate.
    intros i' Hi'. simpl. split; congruence.
  - rewrite Hb. cbv beta iota zeta.
    cbn [spec_UserData host_Spec host_with_Spec spec_with_UserData spec_with_Image].
    unfold defaultedUserData.
    destruct (bmspec_UserData (bmm_Spec b)) as [u|] eqn:Hud; cbv beta iota.
    + destruct (String.eqb (secret_Namespace u) "") eqn:Hns; cbv beta iota.
      * apply Hsent; try reflexivity.
        split_and!; try reflexivity; try discriminate.
        intros _. split; reflexivity.
      * apply Hsent; try reflexivity.
        split_and!; try reflexivity; try discriminate.
        intros _. split; reflexivity.
    + apply Hsent; try reflexivity.
      split_and!; try reflexivity; try discriminate.
      intros _. split; reflexivity.
Qed.

Lemma setHostSpec_commits_binding_witness :
  exists host' err mgr',
    setHostSpec Ex.freeHost (Ex.allocating Ex.freshStatus) = Done (host', err) mgr'
    /\ spec_ConsumerRef (host_Spec host') = Some Ex.consumer
    /\ spec_Online (host_Spec host') = true
    /\ spec_Image (host_Spec host') = Some Ex.image
    /\ spec_UserData (host_Spec host')
       = Some {| secret_Name := "m1-user-data"; secret_Namespace := "ns" |}.
Proof.
  destruct (setHostSpec_commits_binding
              (Ex.allocating Ex.freshStatus)
              (Ex.bareMetalMachine Ex.fullDescriptor Ex.freshStatus)
              Ex.freeHost eq_refl)
    as (host' & err & mgr' & Hrun & _ & _ & _ & Href & Honline & Hfresh & _).
  exists host', err, mgr'.
  split; [exact Hrun|].
  split; [exact Href|].
  split; [exact Honline|].
  exact (Hfresh eq_refl).
Defined.

(** ** The binding annotation *)

Lemma Split_without_slash (s : string) : hasSlash s = false -> Split s = [s].
Proof.
  induction s as [|c rest IH]; [reflexivity|].
  simpl. destruct (Ascii.eqb c "/"); [discriminate|].
  simpl. intros Hrest. rewrite (IH Hrest). reflexivity.
Qed.

Lemma Split_at_slash (s t : string) :
  hasSlash s = false -> Split (s ++ "/" ++ t) = s :: Split t.
Proof.
  induction s as [|c rest IH]; [reflexivity|].
  simpl. destruct (Ascii.eqb c "/"); [discriminate|].
  simpl. intros Hrest. rewrite (IH Hrest). reflexivity.
Qed.

(** Decoding the key of a host gives back its namespace and name. *)
Lemma SplitMetaNamespaceKey_of_key (namespace name : string) :
  hasSlash namespace = false ->
  hasSlash name = false ->
  SplitMetaNamespaceKey (namespace ++ "/" ++ name) = (namespace, name, None).
Proof.
  intros Hnamespace Hname. unfold SplitMetaNamespaceKey.
  rewrite (Split_at_slash namespace name Hnamespace), (Split_without_slash name Hname).
  reflexivity.
Qed.

Lemma MetaNamespaceKeyFunc_namespaced (host : BareMetalHost) :
  host_Namespace host <> "" ->
  MetaNamespaceKeyFunc host = (host_Namespace host ++ "/" ++ host_Name host, None).
Proof.
  intros Hnamespace. unfold MetaNamespaceKeyFunc.
  destruct (host_Namespace host) as [|c rest]; [congruence|reflexivity].
Qed.

Lemma mgr_with_same_BareMetalMachine (mgr : MachineManager) (b : BareMetalMachine) :
  mgr_BareMetalMachine mgr = Some b -> mgr_with_BareMetalMachine b mgr = mgr.
Proof. destruct mgr as [c m ob]. simpl. intros ->. reflexivity. Qed.

(** C7. [ensureAnnotation] writes the binding annotation on the
    bare-metal machine and not on the machine.  For a host with a
    namespace, after [ensureAnnotation] the annotation [HostAnnotation] of
    the bare-metal machine is "<namespace>/<name>" of the host: a value
    already equal to it is left alone (nothing changes at all), any other
    value is overwritten.  The other annotations and the other fields of
    the bare-metal machine, the machine and the client are as before, and
    no update is sent.  The annotations of the machine, where
    [HostAnnotation] is documented to go and where [getHost] reads and
    decodes it, do not receive the key: for a machine without the
    annotation [getHost] finds no host after [ensureAnnotation] either,
    although the key decodes to the namespace and the name of the host. *)
Theorem ensureAnnotation_annotates_bare_metal_machine (mgr : MachineManager)
    (b : BareMetalMachine) (host : BareMetalHost) :
  mgr_BareMetalMachine mgr = Some b ->
  host_Namespace host <> "" ->
  let hostKey := host_Namespace host ++ "/" ++ host_Name host in
  exists mgr' b',
    ensureAnnotation host mgr = Done None mgr'
    /\ mgr_BareMetalMachine mgr' = Some b'
    /\ bindingOf b' = Some hostKey
    /\ (forall k, k <> HostAnnotation ->
        (bmm_Annotations b' ≫= fun new => new !! k)
        = (bmm_Annotations b ≫= fun old => old !! k))
    /\ (bmm_Name b' = bmm_Name b /\ bmm_Namespace b' = bmm_Namespace b
        /\ bmm_Spec b' = bmm_Spec b /\ bmm_Status b' = bmm_Status b)
    /\ (bindingOf b = Some hostKey -> mgr' = mgr)
    /\ client mgr' = client mgr
    /\ mgr_Machine mgr' = mgr_Machine mgr
    /\ hostAnnotationOf (mgr_Machine mgr') = hostAnnotationOf (mgr_Machine mgr)
    /\ (hostAnnotationOf (mgr_Machine mgr) = None ->
        getHost mgr' = Done (None, None) mgr')
    /\ (hasSlash (host_Namespace host) = false ->
        hasSlash (host_Name host) = false ->
        SplitMetaNamespaceKey hostKey = (host_Namespace host, host_Name host, None)).
Proof.
  intros Hb Hnamespace hostKey.
  unfold ensureAnnotation. unfold_monad. rewrite Hb. cbv beta iota zeta.
  rewrite (MetaNamespaceKeyFunc_namespaced host Hnamespace). fold hostKey.
  assert (Hwritten : forall annotations : gmap string string,
            annotations !! HostAnnotation = Some hostKey ->
            (forall k, k <> HostAnnotation ->
                       annotations !! k = default ∅ (bmm_Annotations b) !! k) ->
            let b' := bmm_with_Annotations (Some annotations) b in
            bindingOf b' = Some hostKey
            /\ (forall k, k <> HostAnnotation ->
                (bmm_Annotations b' ≫= fun new => new !! k)
                = (bmm_Annotations b ≫= fun old => old !! k))).
  { intros annotations Hkey Hothers. split; [exact Hkey|].
    intros k Hk. simpl. rewrite (Hothers k Hk).
    destruct (bmm_Annotations b); [reflexivity|apply lookup_empty]. }
  destruct (default ∅ (bmm_Annotations b) !! HostAnnotation) as [existing|] eqn:Hexisting.
  - destruct (String.eqb existing hostKey) eqn:Hsame.
    + apply String.eqb_eq in Hsame. subst existing.
      assert (Hbinding : bindingOf b = Some hostKey).
      { unfold bindingOf. destruct (bmm_Annotations b); simpl in *;
          [exact Hexisting|rewrite lookup_empty in Hexisting; discriminate]. }
      exists mgr, b.
      split_and!; auto using getHost_no_annotation.
      intros Hslash1 Hslash2. exact (SplitMetaNamespaceKey_of_key _ _ Hslash1 Hslash2).
    + eexists. eexists. split; [reflexivity|]. split; [reflexivity|].
      destruct (Hwritten (<[HostAnnotation := hostKey]> (default ∅ (bmm_Annotations b))))
        as [Hkey Hothers].
      { apply lookup_insert_eq. }
      { intros k Hk. apply lookup_insert_ne. congruence. }
      split_and!; auto.
      * unfold bindingOf. intros Hbinding.
        destruct (bmm_Annotations b) as [annotations|]; simpl in *; [|discriminate].
        rewrite Hbinding in Hexisting. inversion Hexisting. subst existing.
        rewrite String.eqb_refl in Hsame. discriminate.
      * intros Hnone. apply getHost_no_annotation. exact Hnone.
      * intros Hslash1 Hslash2. exact (SplitMetaNamespaceKey_of_key _ _ Hslash1 Hslash2).
  - eexists. eexists. split; [reflexivity|]. split; [reflexivity|].
    destruct (Hwritten (<[HostAnnotation := hostKey]> (default ∅ (bmm_Annotations b))))
      as [Hkey Hothers].
    { apply lookup_insert_eq. }
    { intros k Hk. apply lookup_insert_ne. congruence. }
    split_and!; auto.
    + unfold bindingOf. intros Hbinding.
      destruct (bmm_Annotations b) as [annotations|]; simpl in *; [|discriminate].
      rewrite Hbinding in Hexisting. discriminate.
    + intros Hnone. apply getHost_no_annotation. exact Hnone.
    + intros Hslash1 Hslash2. exact (SplitMetaNamespaceKey_of_key _ _ Hslash1 Hslash2).
Qed.

(** The manager of the machine [m1] without annotation, its store holding
    the free host [h2]: after [ensureAnnotation] for [h2] the bare-metal
    machine carries "ns/h2", the machine carries nothing, and [getHost]
    returns no host although the store has [h2] under that key. *)
Lemma ensureAnnotation_annotates_bare_metal_machine_witness :
  exists mgr' b',
    ensureAnnotation Ex.freeHost (Ex.allocating Ex.freshStatus) = Done None mgr'
    /\ mgr_BareMetalMachine mgr' = Some b'
    /\ bindingOf b' = Some "ns/h2"
    /\ hostAnnotationOf (mgr_Machine mgr') = None
    /\ getHost mgr' = Done (None, None) mgr'
    /\ SplitMetaNamespaceKey "ns/h2" = ("ns", "h2", None)
    /\ client_Get (mkObjectKey "ns" "h2") (client mgr') = inr Ex.freeHost.
Proof.
  assert (Hnamespace : host_Namespace Ex.freeHost <> "") by discriminate.
  destruct (ensureAnnotation_annotates_bare_metal_machine
              (Ex.allocating Ex.freshStatus)
              (Ex.bareMetalMachine Ex.fullDescriptor Ex.freshStatus)
              Ex.freeHost eq_refl Hnamespace)
    as (mgr' & b' & Hrun & Hb' & Hbinding & _ & _ & _ & Hclient & _ & Hmachine
        & Hlookup & Hdecode).
  exists mgr', b'.
  split; [exact Hrun|].
  split; [exact Hb'|].
  split; [exact Hbinding|].
  split; [rewrite Hmachine; reflexivity|].
  split; [exact (Hlookup eq_refl)|].
  split; [exact (Hdecode eq_refl eq_refl)|].
  rewrite Hclient. reflexivity.
Defined.

(** ** The derived status *)

(** The comparison in [updateMachineStatus] is between the status of the
    machine and the status of the copy of the bare-metal machine, two
    different Go types: it is never true. *)
Lemma DeepEqual_across_types (s1 : MachineStatus) (s2 : BareMetalMachineStatus) :
  DeepEqual (MachineStatusValue s1) (BareMetalMachineStatusValue s2) = false.
Proof. reflexivity. Qed.

(** [updateMachineStatus] writes the addresses and the time on every
    call. *)
Lemma updateMachineStatus_always_writes (now : Time) (host : BareMetalHost)
    (mgr : MachineManager) (b : BareMetalMachine) :
  mgr_BareMetalMachine mgr = Some b ->
  updateMachineStatus now host mgr
  = Done None
      (mgr_with_BareMetalMachine
         (bmm_with_Status
            (bmstatus_with_Addresses (nodeAddresses (Some host))
               (bmstatus_with_LastUpdated (Some now) (bmm_Status b))) b) mgr).
Proof.
  intros Hb. unfold updateMachineStatus. unfold_monad. rewrite Hb.
  cbv beta iota zeta. rewrite DeepEqual_across_types. reflexivity.
Qed.

(** C2 does not hold of the code.  The bare-metal machine already holds
    the addresses derived from the host [h2] and was last updated at
    1572700000; [updateMachineStatus] at 1572739200 does not leave it as it
    is but stamps the new time. *)
Theorem updateMachineStatus_stamps_unchanged_status :
  bmstatus_Addresses Ex.settledStatus = nodeAddresses (Some Ex.freeHost)
  /\ updateMachineStatus 1572739200%Z Ex.freeHost (Ex.allocating Ex.settledStatus)
     = Done None
         (Ex.manager (Ex.store [Ex.freeHost] None) (Ex.machine None)
            (Some (Ex.bareMetalMachine Ex.fullDescriptor
                     (bmstatus_with_LastUpdated (Some 1572739200%Z) Ex.settledStatus))))
  /\ bmstatus_with_LastUpdated (Some 1572739200%Z) Ex.settledStatus <> Ex.settledStatus.
Proof.
  split; [reflexivity|]. split.
  - rewrite (updateMachineStatus_always_writes 1572739200%Z Ex.freeHost
               (Ex.allocating Ex.settledStatus)
               (Ex.bareMetalMachine Ex.fullDescriptor Ex.settledStatus) eq_refl).
    reflexivity.
  - discriminate.
Qed.

(** ** Choosing a host *)

Section ChooseProperties.
Context {ext : Externals}.

Lemma matchLabelRequirements_fails (pairs : list (string * string)) (k v : string)
    (e : error) :
  (k, v) ∈ pairs ->
  NewRequirement k selection.Equals [v] = inl e ->
  forall reqs, exists e', matchLabelRequirements pairs reqs = inl e'.
Proof.
  induction pairs as [|[k0 v0] rest IH]; intros Hin Hbad reqs.
  - inversion Hin.
  - simpl. destruct (NewRequirement k0 selection.Equals [v0]) as [e0|r] eqn:Hfirst;
      [eauto|].
    apply elem_of_cons in Hin. destruct Hin as [Hhead|Htail].
    + inversion Hhead. subst. congruence.
    + apply IH; assumption.
Qed.

Lemma matchExpressionRequirements_fails (exprs : list HostSelectorRequirement)
    (req : HostSelectorRequirement) (e : error) :
  req ∈ exprs ->
  NewRequirement (req_Key req) (ToLower (req_Operator req)) (req_Values req) = inl e ->
  forall reqs, exists e', matchExpressionRequirements exprs reqs = inl e'.
Proof.
  induction exprs as [|req0 rest IH]; intros Hin Hbad reqs.
  - inversion Hin.
  - simpl.
    destruct (NewRequirement (req_Key req0) (ToLower (req_Operator req0)) (req_Values req0))
      as [e0|r] eqn:Hfirst; [eauto|].
    apply elem_of_cons in Hin. destruct Hin as [Hhead|Htail].
    + subst. congruence.
    + apply IH; assumption.
Qed.

Lemma matchExpressionRequirements_up_to_case (l1 l2 : list HostSelectorRequirement) :
  Forall2 sameExpressionUpToCase l1 l2 ->
  forall reqs, matchExpressionRequirements l1 reqs = matchExpressionRequirements l2 reqs.
Proof.
  induction 1 as [|r1 r2 l1 l2 (Hkey & Hop & Hvals) _ IH]; intros reqs; [reflexivity|].
  simpl. rewrite Hkey, Hop, Hvals.
  destruct (NewRequirement _ _ _); [reflexivity|apply IH].
Qed.

Lemma selectorRequirements_up_to_case (s1 s2 : HostSelector) :
  sameUpToCase s1 s2 -> selectorRequirements s1 = selectorRequirements s2.
Proof.
  intros [Hlabels Hexprs]. unfold selectorRequirements. rewrite Hlabels.
  destruct (matchLabelRequirements _ _); [reflexivity|].
  apply matchExpressionRequirements_up_to_case. exact Hexprs.
Qed.

(** A recognized operator is never refused as unrecognized. *)
Lemma checkOperator_recognized (op : string) (vals : list string) :
  op ∈ recognizedOperators -> checkOperator op vals <> Some (unrecognized op).
Proof.
  intros Hin. apply oneOf_elem_of in Hin.
  change recognizedOperators
    with ([selection.In; selection.NotIn]
          ++ [selection.Equals; selection.DoubleEquals; selection.NotEquals]
          ++ [selection.Exists; selection.DoesNotExist]
          ++ [selection.GreaterThan; selection.LessThan])%list in Hin.
  unfold checkOperator, oneOf in *. rewrite !existsb_app in Hin.
  destruct (existsb (String.eqb op) [selection.In; selection.NotIn]);
    [destruct (length vals =? 0)%nat; discriminate|].
  destruct (existsb (String.eqb op) [selection.Equals; selection.DoubleEquals; selection.NotEquals]);
    [destruct (negb (length vals =? 1)%nat); discriminate|].
  destruct (existsb (String.eqb op) [selection.Exists; selection.DoesNotExist]);
    [destruct (negb (length vals =? 0)%nat); discriminate|].
  destruct (existsb (String.eqb op) [selection.GreaterThan; selection.LessThan]);
    [|simpl in Hin; discriminate Hin].
  destruct (negb (length vals =? 1)%nat); [discriminate|].
  induction vals as [|v rest IH]; [discriminate|].
  simpl. unfold checkInteger at 1. destruct (ParseInt v); [exact IH|discriminate].
Qed.


(** An operator outside the recognized set makes the requirement fail. *)
Lemma NewRequirement_unrecognized (k op : string) (vals : list string) :
  op ∉ recognizedOperators -> exists e, NewRequirement k op vals = inl e.
Proof.
  intros Hout. apply oneOf_not_elem_of in Hout.
  change recognizedOperators
    with ([selection.In; selection.NotIn]
          ++ [selection.Equals; selection.DoubleEquals; selection.NotEquals]
          ++ [selection.Exists; selection.DoesNotExist]
          ++ [selection.GreaterThan; selection.LessThan])%list in Hout.
  unfold NewRequirement, checkOperator, oneOf in *. rewrite !existsb_app in Hout.
  destruct (validateLabelKey k); [eauto|].
  destruct (existsb (String.eqb op) [selection.In; selection.NotIn]);
    [discriminate Hout|].
  destruct (existsb (String.eqb op)
              [selection.Equals; selection.DoubleEquals; selection.NotEquals]);
    [discriminate Hout|].
  destruct (existsb (String.eqb op) [selection.Exists; selection.DoesNotExist]);
    [discriminate Hout|].
  destruct (existsb (String.eqb op) [selection.GreaterThan; selection.LessThan]);
    [discriminate Hout|].
  eauto.
Qed.

(** With a selector that cannot be built, [chooseHost] ends with an error
    and no host, whatever the store holds. *)
Lemma chooseHost_selector_error (rnd : nat) (mgr : MachineManager) (b : BareMetalMachine) :
  mgr_BareMetalMachine mgr = Some b ->
  (exists e, selectorRequirements (bmspec_HostSelector (bmm_Spec b)) = inl e) ->
  exists e, chooseHost rnd mgr = Done (None, Some e) mgr.
Proof.
  intros Hb [e Hselector]. unfold chooseHost. unfold_monad.
  destruct (client_List _ _) as [err|hosts]; [eauto|].
  cbv beta iota. rewrite Hb. cbv beta iota. rewrite Hselector. eauto.
Qed.

Lemma selectorRequirements_label_fails (selector : HostSelector) (k v : string) (e : error) :
  (k, v) ∈ MatchLabels selector ->
  NewRequirement k selection.Equals [v] = inl e ->
  exists e', selectorRequirements selector = inl e'.
Proof.
  intros Hin Hbad. unfold selectorRequirements.
  destruct (matchLabelRequirements_fails _ k v e Hin Hbad []) as [e' ->]. eauto.
Qed.

Lemma selectorRequirements_expression_fails (selector : HostSelector)
    (req : HostSelectorRequirement) (e : error) :
  req ∈ MatchExpressions selector ->
  NewRequirement (req_Key req) (ToLower (req_Operator req)) (req_Values req) = inl e ->
  exists e', selectorRequirements selector = inl e'.
Proof.
  intros Hin Hbad. unfold selectorRequirements.
  destruct (matchLabelRequirements (MatchLabels selector) []) as [e0|reqs]; [eauto|].
  exact (matchExpressionRequirements_fails _ req e Hin Hbad reqs).
Qed.

(** Lowering an ASCII letter-case variant of a string without capitals
    gives that string. *)
Lemma sameLetter_lower (c c0 : ascii) :
  lowerStableByte c0 = true ->
  sameLetter c c0 = true ->
  (nat_of_ascii c <? 128)%nat = true /\ lower_ascii c = c0.
Proof.
  unfold lowerStableByte, sameLetter, lower_ascii. intros Hstable Hsame.
  apply andb_true_iff in Hstable. destruct Hstable as [Hascii Hlower].
  apply negb_true_iff in Hlower.
  apply orb_true_iff in Hsame. destruct Hsame as [Hequal | Hupper].
  - apply Ascii.eqb_eq in Hequal. subst c. cbv zeta. rewrite Hlower. auto.
  - apply andb_true_iff in Hupper. destruct Hupper as [Hrange Hshift].
    apply andb_true_iff in Hrange. destruct Hrange as [Hlow Hhigh].
    apply Nat.leb_le in Hlow. apply Nat.leb_le in Hhigh. apply Nat.eqb_eq in Hshift.
    split; [apply Nat.ltb_lt; lia|]. cbv zeta.
    assert (Hcapital : ((65 <=? nat_of_ascii c)%nat && (nat_of_ascii c <=? 90)%nat) = true).
    { apply andb_true_iff. split; apply Nat.leb_le; lia. }
    rewrite Hcapital.
    replace (nat_of_ascii c + 32)%nat with (nat_of_ascii c0) by lia.
    apply ascii_nat_embedding.
Qed.

Lemma letterCaseVariant_lower (op op0 : string) :
  lowerStable op0 = true ->
  letterCaseVariant op op0 = true ->
  isASCII op = true /\ lowerASCII op = op0.
Proof.
  revert op0. induction op as [|c rest IH]; intros [|c0 rest0] Hstable Hvariant;
    try discriminate; [auto|].
  simpl in Hstable, Hvariant.
  apply andb_true_iff in Hstable. destruct Hstable as [Hbyte Hrest].
  apply andb_true_iff in Hvariant. destruct Hvariant as [Hletter Hvariant].
  destruct (sameLetter_lower c c0 Hbyte Hletter) as [Hascii Hlowered].
  destruct (IH rest0 Hrest Hvariant) as [Hasciis Hlowereds].
  simpl. rewrite Hascii, Hasciis, Hlowered, Hlowereds. auto.
Qed.

Lemma recognizedOperators_lowerStable (op0 : string) :
  op0 ∈ recognizedOperators -> lowerStable op0 = true.
Proof.
  unfold recognizedOperators. rewrite !elem_of_cons, elem_of_nil.
  intros Hin. repeat (destruct Hin as [->|Hin]; [reflexivity|]). destruct Hin.
Qed.

Lemma ToLower_letterCaseVariant (op op0 : string) :
  op0 ∈ recognizedOperators -> letterCaseVariant op op0 = true -> ToLower op = op0.
Proof.
  intros Hrecognized Hvariant. unfold ToLower.
  destruct (letterCaseVariant_lower op op0
              (recognizedOperators_lowerStable op0 Hrecognized) Hvariant) as [-> ->].
  reflexivity.
Qed.

Lemma NewRequirement_requirement (k op : string) (vals : list string) (r : Requirement) :
  NewRequirement k op vals = inr r ->
  r = {| r_key := k; r_operator := op; r_strValues := vals |}.
Proof.
  unfold NewRequirement.
  destruct (validateLabelKey k); [discriminate|].
  destruct (checkOperator op vals); [discriminate|].
  destruct (firstError validateLabelValue vals); [discriminate|].
  intros Hbuilt. inversion Hbuilt. reflexivity.
Qed.

Lemma selectorInOtherCase_sameUpToCase (s s0 : HostSelector) :
  selectorInOtherCase s s0 -> sameUpToCase s s0.
Proof.
  intros [Hlabels Hexprs]. split; [exact Hlabels|].
  induction Hexprs as [|r r0 l l0 (Hkey & Hvals & Hrecognized & Hvariant) _ IH];
    constructor; [|exact IH].
  split; [exact Hkey|]. split; [|exact Hvals].
  rewrite (ToLower_letterCaseVariant _ _ Hrecognized Hvariant).
  symmetry. apply ToLower_letterCaseVariant; [exact Hrecognized|].
  clear -Hrecognized. apply recognizedOperators_lowerStable in Hrecognized.
  induction (req_Operator r0) as [|c rest IHs]; [reflexivity|].
  simpl in *. apply andb_true_iff in Hrecognized. destruct Hrecognized as [_ Hrest].
  unfold sameLetter. rewrite Ascii.eqb_refl. simpl. exact (IHs Hrest).
Qed.

(** The choice depends on the operators of the selector only through
    [ToLower]. *)
Lemma chooseHost_up_to_case (rnd : nat) (c : Client) (m : Machine)
    (b b' : BareMetalMachine) :
  sameUpToCase (bmspec_HostSelector (bmm_Spec b)) (bmspec_HostSelector (bmm_Spec b')) ->
  exists r, chooseHost rnd (mkMachineManager c m (Some b))
            = Done r (mkMachineManager c m (Some b))
            /\ chooseHost rnd (mkMachineManager c m (Some b'))
               = Done r (mkMachineManager c m (Some b')).
Proof.
  intros Hsame. unfold chooseHost. unfold_monad.
  cbn [mgr_Machine mgr_BareMetalMachine client].
  destruct (client_List _ _) as [err|hosts]; [eexists; split; reflexivity|].
  cbv beta iota. cbn [mgr_BareMetalMachine]. cbv beta iota.
  rewrite <- (selectorRequirements_up_to_case _ _ Hsame).
  destruct (selectorRequirements (bmspec_HostSelector (bmm_Spec b))) as [e|labelSelector];
    [eexists; split; reflexivity|].
  destruct (scanHosts m labelSelector hosts []) as [host|availableHosts];
    [eexists; split; reflexivity|].
  destruct (length availableHosts =? 0)%nat; eexists; split; reflexivity.
Qed.

(** C8. When a requirement of the selector cannot be built (a label pair,
    or an expression with its operator put in lower case), and so in
    particular when the lowered operator of an expression is outside the
    recognized set, [chooseHost] returns an error and no host and changes
    nothing.  Operators are compared after [ToLower]: selectors whose
    operators have the same lower case give the same result, and an
    operator whose lowered form is recognized is not refused as
    unrecognized.  An operator that is a recognized operator with some of
    its letters in upper case is lowered to that operator; its expression
    is built exactly as with the recognized operator and carries that
    operator, and a selector written that way gives the result of the
    selector written with the recognized operators. *)
Theorem chooseHost_fails_closed (rnd : nat) (c : Client) (m : Machine)
    (b : BareMetalMachine) :
  let mgr := mkMachineManager c m (Some b) in
  let selector := bmspec_HostSelector (bmm_Spec b) in
  ((exists k v e, (k, v) ∈ MatchLabels selector
                  /\ NewRequirement k selection.Equals [v] = inl e)
   \/ (exists req e, req ∈ MatchExpressions selector
                     /\ NewRequirement (req_Key req) (ToLower (req_Operator req))
                          (req_Values req) = inl e) ->
   exists e, chooseHost rnd mgr = Done (None, Some e) mgr)
  /\ (forall req, req ∈ MatchExpressions selector ->
      ToLower (req_Operator req) ∉ recognizedOperators ->
      exists e, chooseHost rnd mgr = Done (None, Some e) mgr)
  /\ (forall b', sameUpToCase selector (bmspec_HostSelector (bmm_Spec b')) ->
      exists r, chooseHost rnd mgr = Done r mgr
                /\ chooseHost rnd (mkMachineManager c m (Some b'))
                   = Done r (mkMachineManager c m (Some b')))
  /\ (forall req, req ∈ MatchExpressions selector ->
      ToLower (req_Operator req) ∈ recognizedOperators ->
      checkOperator (ToLower (req_Operator req)) (req_Values req)
      <> Some (unrecognized (ToLower (req_Operator req))))
  /\ (forall op op0, op0 ∈ recognizedOperators ->
      letterCaseVariant op op0 = true ->
      ToLower op = op0)
  /\ (forall req op0 r reqs, req ∈ MatchExpressions selector ->
      op0 ∈ recognizedOperators ->
      letterCaseVariant (req_Operator req) op0 = true ->
      NewRequirement (req_Key req) op0 (req_Values req) = inr r ->
      matchExpressionRequirements [req] reqs = inr (reqs ++ [r])%list
      /\ r_operator r = op0)
  /\ (forall b0, selectorInOtherCase selector (bmspec_HostSelector (bmm_Spec b0)) ->
      exists r, chooseHost rnd mgr = Done r mgr
                /\ chooseHost rnd (mkMachineManager c m (Some b0))
                   = Done r (mkMachineManager c m (Some b0))).
Proof.
  intros mgr selector.
  assert (Hfails : forall req e, req ∈ MatchExpressions selector ->
            NewRequirement (req_Key req) (ToLower (req_Operator req)) (req_Values req)
            = inl e ->
            exists e', chooseHost rnd mgr = Done (None, Some e') mgr).
  { intros req e Hin Hbad. apply (chooseHost_selector_error rnd mgr b eq_refl).
    exact (selectorRequirements_expression_fails selector req e Hin Hbad). }
  split_and!.
  - intros [(k & v & e & Hin & Hbad) | (req & e & Hin & Hbad)].
    + apply (chooseHost_selector_error rnd mgr b eq_refl).
      exact (selectorRequirements_label_fails selector k v e Hin Hbad).
    + exact (Hfails req e Hin Hbad).
  - intros req Hin Hout.
    destruct (NewRequirement_unrecognized (req_Key req) _ (req_Values req) Hout)
      as [e Hbad].
    exact (Hfails req e Hin Hbad).
  - intros b' Hsame. exact (chooseHost_up_to_case rnd c m b b' Hsame).
  - intros req _ Hin. apply checkOperator_recognized. exact Hin.
  - exact ToLower_letterCaseVariant.
  - intros req op0 r reqs _ Hrecognized Hvariant Hbuilt. simpl.
    rewrite (ToLower_letterCaseVariant _ _ Hrecognized Hvariant), Hbuilt.
    split; [reflexivity|].
    rewrite (NewRequirement_requirement _ _ _ _ Hbuilt). reflexivity.
  - intros b0 Hother. apply (chooseHost_up_to_case rnd c m b b0).
    exact (selectorInOtherCase_sameUpToCase _ _ Hother).
Qed.

(** The host list scan stops at the first host claimed by the machine: a
    claimed host is not available, whatever its labels. *)
Lemma claimed_not_available (machine : Machine) (host : BareMetalHost) :
  claimedBy machine host = true -> Available host = false.
Proof.
  unfold claimedBy, Available.
  destruct (spec_ConsumerRef (host_Spec host)); [reflexivity|discriminate].
Qed.

Lemma scanHosts_finds_claimed (machine : Machine) (labelSelector : list Requirement)
    (items : list BareMetalHost) (host : BareMetalHost) :
  find (claimedBy machine) items = Some host ->
  forall availableHosts, scanHosts machine labelSelector items availableHosts = inl host.
Proof.
  induction items as [|first rest IH]; [discriminate|].
  simpl find. intros Hfind availableHosts. simpl scanHosts.
  destruct (claimedBy machine first) eqn:Hclaimed.
  - inversion Hfind. subst first.
    rewrite (claimed_not_available machine host Hclaimed).
    unfold claimedBy in Hclaimed.
    destruct (spec_ConsumerRef (host_Spec host)); [|discriminate].
    rewrite Hclaimed. reflexivity.
  - unfold claimedBy in Hclaimed.
    destruct (Available first).
    + destruct (selectorMatches labelSelector (host_Labels first)); apply IH; exact Hfind.
    + destruct (spec_ConsumerRef (host_Spec first)); [rewrite Hclaimed|];
        apply IH; exact Hfind.
Qed.

(** C1, amended. When the store lists the hosts and the selector of the
    machine can be built, [chooseHost] returns the first listed host whose
    consumer reference matches the machine, whether or not its labels
    match the selector (a host with a consumer is never available), and
    changes nothing: no update is sent to the store. *)
Theorem chooseHost_returns_claimed_host (rnd : nat) (mgr : MachineManager)
    (b : BareMetalMachine) (hosts : list BareMetalHost)
    (labelSelector : list Requirement) (host : BareMetalHost) :
  mgr_BareMetalMachine mgr = Some b ->
  client_List (machine_Namespace (mgr_Machine mgr)) (client mgr) = inr hosts ->
  selectorRequirements (bmspec_HostSelector (bmm_Spec b)) = inr labelSelector ->
  find (claimedBy (mgr_Machine mgr)) hosts = Some host ->
  chooseHost rnd mgr = Done (Some host, None) mgr.
Proof.
  intros Hb Hlist Hselector Hfind. unfold chooseHost. unfold_monad.
  rewrite Hlist. cbv beta iota. rewrite Hb. cbv beta iota. rewrite Hselector.
  rewrite (scanHosts_finds_claimed _ labelSelector hosts host Hfind). reflexivity.
Qed.

End ChooseProperties.

(** C1, as stated, fails when the selector of the machine cannot be
    built: the store lists the host [h1], whose consumer reference is the
    machine [m1], and the selector holds the operator "bogus"; [chooseHost]
    returns the error of the selector and no host. *)
Lemma chooseHost_malformed_selector_hides_claimed_host :
  client_List "ns" (client (Ex.choosing Ex.malformedSelector [Ex.provisionedHost]))
  = inr [Ex.provisionedHost]
  /\ spec_ConsumerRef (host_Spec Ex.provisionedHost) = Some Ex.consumer
  /\ consumerRefMatches Ex.consumer (Ex.machine None) = true
  /\ chooseHost (ext := Ex.externals) 0
       (Ex.choosing Ex.malformedSelector [Ex.provisionedHost])
     = Done (None, Some (unrecognized "bogus"))
         (Ex.choosing Ex.malformedSelector [Ex.provisionedHost]).
Proof. repeat split; reflexivity. Qed.

Lemma chooseHost_returns_claimed_host_witness :
  selectorMatches (ext := Ex.externals)
    [ {| r_key := "tier"; r_operator := "in"; r_strValues := ["core"] |} ]
    (host_Labels Ex.provisionedHost) = false
  /\ chooseHost (ext := Ex.externals) 0
       (Ex.choosing (Ex.coreSelector "In") [Ex.freeHost; Ex.provisionedHost])
     = Done (Some Ex.provisionedHost, None)
         (Ex.choosing (Ex.coreSelector "In") [Ex.freeHost; Ex.provisionedHost]).
Proof.
  split; [reflexivity|].
  apply (chooseHost_returns_claimed_host (ext := Ex.externals) 0
           (Ex.choosing (Ex.coreSelector "In") [Ex.freeHost; Ex.provisionedHost])
           (Ex.bareMetalMachine
              (Ex.descriptor Ex.image None (Ex.coreSelector "In")) Ex.freshStatus)
           [Ex.freeHost; Ex.provisionedHost]
           [ {| r_key := "tier"; r_operator := "in"; r_strValues := ["core"] |} ]
           Ex.provisionedHost);
    reflexivity.
Defined.

Lemma chooseHost_fails_closed_witness :
  (exists e,
     chooseHost (ext := Ex.externals) 0 (Ex.choosing Ex.malformedSelector [Ex.freeHost])
     = Done (None, Some e) (Ex.choosing Ex.malformedSelector [Ex.freeHost]))
  /\ (exists r,
        chooseHost (ext := Ex.externals) 0 (Ex.choosing (Ex.coreSelector "In") [Ex.freeHost])
        = Done r (Ex.choosing (Ex.coreSelector "In") [Ex.freeHost])
        /\ chooseHost (ext := Ex.externals) 0
             (Ex.choosing (Ex.coreSelector "in") [Ex.freeHost])
           = Done r (Ex.choosing (Ex.coreSelector "in") [Ex.freeHost]))
  /\ ToLower (ext := Ex.externals) "NotIn" = "notin"
  /\ matchExpressionRequirements (ext := Ex.externals)
       [ {| req_Key := "tier"; req_Operator := "NOTIN"; req_Values := ["core"] |} ] []
     = inr [ {| r_key := "tier"; r_operator := "notin"; r_strValues := ["core"] |} ]
  /\ chooseHost (ext := Ex.externals) 0 (Ex.choosing (Ex.coreSelector "In") [Ex.freeHost])
     = Done (Some Ex.freeHost, None) (Ex.choosing (Ex.coreSelector "In") [Ex.freeHost]).
Proof.
  pose proof (chooseHost_fails_closed (ext := Ex.externals) 0
                (Ex.store [Ex.freeHost] None) (Ex.machine None)
                (Ex.bareMetalMachine
                   (Ex.descriptor Ex.image None (Ex.coreSelector "In")) Ex.freshStatus))
    as (_ & _ & Hsame & _ & Hlower & _ & Hother).
  split_and!.
  - apply (proj1 (proj2 (chooseHost_fails_closed (ext := Ex.externals) 0
                           (Ex.store [Ex.freeHost] None) (Ex.machine None)
                           (Ex.bareMetalMachine
                              (Ex.descriptor Ex.image None Ex.malformedSelector)
                              Ex.freshStatus)))
             {| req_Key := "tier"; req_Operator := "bogus"; req_Values := ["core"] |}).
    + apply list_elem_of_here.
    + unfold recognizedOperators. rewrite !elem_of_cons, elem_of_nil.
      intros Hin. repeat (destruct Hin as [Hin|Hin]; [discriminate Hin|]). exact Hin.
  - apply (Hsame (Ex.bareMetalMachine
                    (Ex.descriptor Ex.image None (Ex.coreSelector "in")) Ex.freshStatus)).
    split; [reflexivity|].
    repeat constructor.
  - apply Hlower; [|reflexivity].
    unfold recognizedOperators. rewrite !elem_of_cons. right. left. reflexivity.
  - pose proof (chooseHost_fails_closed (ext := Ex.externals) 0
                  (Ex.store [Ex.freeHost] None) (Ex.machine None)
                  (Ex.bareMetalMachine
                     (Ex.descriptor Ex.image None (Ex.coreSelector "NOTIN"))
                     Ex.freshStatus))
      as (_ & _ & _ & _ & _ & Hbuilt & _).
    apply (Hbuilt
             {| req_Key := "tier"; req_Operator := "NOTIN"; req_Values := ["core"] |}
             "notin"
             {| r_key := "tier"; r_operator := "notin"; r_strValues := ["core"] |} []).
    + apply list_elem_of_here.
    + unfold recognizedOperators. rewrite !elem_of_cons. right. left. reflexivity.
    + reflexivity.
    + reflexivity.
  - destruct (Hother (Ex.bareMetalMachine
                        (Ex.descriptor Ex.image None (Ex.coreSelector "in"))
                        Ex.freshStatus)) as (r & Hupper & Hlowered).
    + split; [reflexivity|].
      constructor; [|constructor].
      split; [reflexivity|]. split; [reflexivity|]. split; [|reflexivity].
      unfold recognizedOperators. rewrite !elem_of_cons. left. reflexivity.
    + vm_compute in Hlowered. inversion Hlowered. subst r. exact Hupper.
Defined.

(** ** The code on small inputs *)

Example ToLower_operator :
  forall ext : Externals,
    ToLower "NotIn" = "notin" /\ ToLower "DoesNotExist" = "doesnotexist".
Proof. intros ext. split; reflexivity. Qed.

(** An operator with a letter outside ASCII takes the Unicode path of
    [ToLower]: with the lower-casing of the example instance the operator
    is lowered to "in" and the selector selects the host. *)
Example chooseHost_lowers_beyond_ASCII :
  isASCII Ex.dottedIn = false
  /\ ToLower (ext := Ex.externals) Ex.dottedIn = "in"
  /\ chooseHost (ext := Ex.externals) 0
       (Ex.choosing (Ex.coreSelector Ex.dottedIn) [Ex.freeHost])
     = Done (Some Ex.freeHost, None)
         (Ex.choosing (Ex.coreSelector Ex.dottedIn) [Ex.freeHost]).
Proof. repeat split; reflexivity. Qed.

Example Split_pieces :
  Split "ns/h1" = ["ns"; "h1"] /\ Split "h1" = ["h1"] /\ Split "a/b/c" = ["a"; "b"; "c"].
Proof. repeat split; reflexivity. Qed.

Example SplitMetaNamespaceKey_rejects_three_pieces :
  SplitMetaNamespaceKey "a/b/c" = ("", "", Some (errorf "unexpected key format: %q" ["a/b/c"])).
Proof. reflexivity. Qed.

Example nodeAddresses_without_details :
  nodeAddresses (Some (Ex.tierHost "h1" "edge")) = [].
Proof. reflexivity. Qed.

Example nodeAddresses_two_interfaces :
  nodeAddresses
    (Some (host_with_Spec (Ex.idleSpec None)
             {| host_Name := "h2";
                host_Namespace := "ns";
                host_Labels := ∅;
                host_DeletionTimestamp := None;
                host_Spec := Ex.idleSpec None;
                host_Status := {| status_ProvisioningState := StateReady;
                                  status_PoweredOn := true;
                                  status_HardwareDetails := Some Ex.twoInterfaces;
                                  status_ErrorMessage := "" |} |}))
  = [ {| addr_Type := MachineInternalIP; addr_Address := "192.168.111.20" |};
      {| addr_Type := MachineInternalIP; addr_Address := "10.0.0.20" |};
      {| addr_Type := MachineHostName; addr_Address := "node-0" |};
      {| addr_Type := MachineInternalDNS; addr_Address := "node-0" |} ].
Proof. reflexivity. Qed.

(** Of two free hosts, [chooseHost] takes the one the selector matches,
    whatever number is drawn. *)
Example chooseHost_single_match :
  chooseHost (ext := Ex.externals) 0
    (Ex.choosing Ex.tierSelector [Ex.tierHost "h1" "edge"; Ex.tierHost "h2" "core"])
  = Done (Some (Ex.tierHost "h2" "core"), None)
      (Ex.choosing Ex.tierSelector [Ex.tierHost "h1" "edge"; Ex.tierHost "h2" "core"])
  /\ chooseHost (ext := Ex.externals) 7
       (Ex.choosing Ex.tierSelector [Ex.tierHost "h1" "edge"; Ex.tierHost "h2" "core"])
     = Done (Some (Ex.tierHost "h2" "core"), None)
         (Ex.choosing Ex.tierSelector [Ex.tierHost "h1" "edge"; Ex.tierHost "h2" "core"]).
Proof. split; reflexivity. Qed.

(** With no host in the store [Create] asks for a requeue after thirty
    seconds. *)
Example Create_without_hosts :
  Create (ext := Ex.externals) 0 1572739200%Z (Ex.choosing Ex.noSelector [])
  = Done ("", Some (RequeueAfterError 30000000000%Z)) (Ex.choosing Ex.noSelector []).
Proof. reflexivity. Qed.

(** * Further properties of the manager *)

(** ** The accessors *)

(** X1. [GetProviderID] reads back what [SetProviderID] wrote, and answers
    the empty string while no provider identifier is set; [SetProviderID]
    changes nothing but that field of the bare-metal machine. *)
Theorem GetProviderID_after_SetProviderID (mgr : MachineManager) (b : BareMetalMachine)
    (v : string) :
  mgr_BareMetalMachine mgr = Some b ->
  (SetProviderID v;; GetProviderID) mgr
  = Done v
      (mgr_with_BareMetalMachine
         (bmm_with_Spec (bmspec_with_ProviderID (Some v) (bmm_Spec b)) b) mgr)
  /\ (bmspec_ProviderID (bmm_Spec b) = None -> GetProviderID mgr = Done "" mgr).
Proof.
  intros Hb. split.
  - unfold SetProviderID, GetProviderID. unfold_monad. rewrite Hb. reflexivity.
  - intros Hunset. unfold GetProviderID. unfold_monad. rewrite Hb, Hunset. reflexivity.
Qed.

Lemma GetProviderID_after_SetProviderID_witness :
  (SetProviderID "h2";; GetProviderID) (Ex.allocating Ex.freshStatus)
  = Done "h2"
      (mgr_with_BareMetalMachine
         (bmm_with_Spec
            (bmspec_with_ProviderID (Some "h2") Ex.fullDescriptor)
            (Ex.bareMetalMachine Ex.fullDescriptor Ex.freshStatus))
         (Ex.allocating Ex.freshStatus))
  /\ GetProviderID (Ex.allocating Ex.freshStatus) = Done "" (Ex.allocating Ex.freshStatus).
Proof.
  split.
  - apply (proj1 (GetProviderID_after_SetProviderID
                    (Ex.allocating Ex.freshStatus)
                    (Ex.bareMetalMachine Ex.fullDescriptor Ex.freshStatus) "h2" eq_refl)).
  - apply (proj2 (GetProviderID_after_SetProviderID
                    (Ex.allocating Ex.freshStatus)
                    (Ex.bareMetalMachine Ex.fullDescriptor Ex.freshStatus) "h2" eq_refl)).
    reflexivity.
Defined.

(** X2. [SetAnnotation key value] on a manager with a bare-metal machine
    leaves a bare-metal machine whose annotations hold the value under the
    key and every other key as before, also when there was no annotation
    map yet; its other fields, the machine and the client are as before.
    Under the key [HostAnnotation] the value is the binding annotation.
    The last write wins: a second [SetAnnotation] under the same key
    leaves the second value and the other keys as they were at the start.
    Without a bare-metal machine the call dereferences nil. *)
Theorem SetAnnotation_lookup (mgr : MachineManager) (key value : string) :
  (mgr_BareMetalMachine mgr = None -> SetAnnotation key value mgr = Panic)
  /\ (forall b, mgr_BareMetalMachine mgr = Some b ->
      exists mgr' b',
        SetAnnotation key value mgr = Done tt mgr'
        /\ mgr_BareMetalMachine mgr' = Some b'
        /\ (bmm_Annotations b' ≫= fun new => new !! key) = Some value
        /\ (forall k, k <> key ->
            (bmm_Annotations b' ≫= fun new => new !! k)
            = (bmm_Annotations b ≫= fun old => old !! k))
        /\ (bmm_Name b' = bmm_Name b /\ bmm_Namespace b' = bmm_Namespace b
            /\ bmm_Spec b' = bmm_Spec b /\ bmm_Status b' = bmm_Status b)
        /\ client mgr' = client mgr
        /\ mgr_Machine mgr' = mgr_Machine mgr
        /\ (key = HostAnnotation -> bindingOf b' = Some value)
        /\ (forall value', exists mgr'' b'',
              (SetAnnotation key value;; SetAnnotation key value') mgr = Done tt mgr''
              /\ mgr_BareMetalMachine mgr'' = Some b''
              /\ (bmm_Annotations b'' ≫= fun new => new !! key) = Some value'
              /\ (forall k, k <> key ->
                  (bmm_Annotations b'' ≫= fun new => new !! k)
                  = (bmm_Annotations b ≫= fun old => old !! k)))).
Proof.
  split.
  - intros Hnil. unfold SetAnnotation. unfold_monad. rewrite Hnil. reflexivity.
  - intros b Hb.
    assert (Hothers : forall (k : string) (v : string) (old : gmap string string),
              k <> key ->
              <[key := v]> old !! k = old !! k).
    { intros k v old Hk. apply lookup_insert_ne. congruence. }
    unfold SetAnnotation. unfold_monad. rewrite Hb. cbv beta iota zeta.
    eexists. eexists. split; [reflexivity|]. split; [reflexivity|].
    split_and!; try reflexivity.
    + apply lookup_insert_eq.
    + intros k Hk. simpl. rewrite (Hothers k _ _ Hk).
      destruct (bmm_Annotations b); [reflexivity|apply lookup_empty].
    + intros ->. apply lookup_insert_eq.
    + intros value'. eexists. eexists. split; [reflexivity|]. split; [reflexivity|].
      split.
      * apply lookup_insert_eq.
      * intros k Hk. simpl. rewrite !(Hothers k _ _ Hk).
        destruct (bmm_Annotations b); [reflexivity|apply lookup_empty].
Qed.

Lemma SetAnnotation_lookup_witness :
  exists mgr' b',
    SetAnnotation "owner" "m1" (Ex.allocating Ex.freshStatus) = Done tt mgr'
    /\ mgr_BareMetalMachine mgr' = Some b'
    /\ (bmm_Annotations b' ≫= fun new => new !! "owner") = Some "m1"
    /\ bindingOf b' = None
    /\ bmm_Spec b' = Ex.fullDescriptor.
Proof.
  destruct (proj2 (SetAnnotation_lookup (Ex.allocating Ex.freshStatus) "owner" "m1")
              (Ex.bareMetalMachine Ex.fullDescriptor Ex.freshStatus) eq_refl)
    as (mgr' & b' & Hrun & Hb' & Hkey & Hothers & (_ & _ & Hspec & _) & _).
  exists mgr', b'.
  split; [exact Hrun|].
  split; [exact Hb'|].
  split; [exact Hkey|].
  split; [|exact Hspec].
  unfold bindingOf. rewrite (Hothers HostAnnotation) by discriminate. reflexivity.
Defined.

(** ** The lookup of the bound host in the verbs *)

Lemma getHost_found_is_bound (mgr mgr' : MachineManager) (host : BareMetalHost) :
  getHost mgr = Done (Some host, None) mgr' -> BoundHost mgr host.
Proof.
  unfold getHost, BoundHost, hostAnnotationOf. unfold_monad.
  destruct (machine_Annotations (mgr_Machine mgr)) as [annotations|]; [|discriminate].
  simpl. destruct (annotations !! HostAnnotation) as [hostKey|]; [|discriminate].
  destruct (SplitMetaNamespaceKey hostKey) as [[namespace name] [e|]] eqn:Hsplit;
    [discriminate|].
  destruct (client_Get _ _) as [e|found] eqn:Hget; cbv beta iota.
  - destruct e as [[]| | |]; cbv beta iota; discriminate.
  - intros Hdone. inversion Hdone. subst. exists hostKey, namespace, name. auto.
Qed.

Lemma getHost_unbound (mgr : MachineManager) :
  Unbound mgr -> getHost mgr = Done (None, None) mgr.
Proof.
  intros [Hann | hostKey namespace name e Hann Hsplit Hget Hgone].
  - exact (getHost_no_annotation mgr Hann).
  - rewrite (getHost_annotated mgr hostKey namespace name Hann Hsplit), Hget, Hgone.
    reflexivity.
Qed.

Lemma getHost_fails (mgr : MachineManager) (e : error) :
  LookupFails mgr e -> getHost mgr = Done (None, Some e) mgr.
Proof.
  intros [hostKey namespace name Hann Hsplit | hostKey namespace name Hann Hsplit Hget Hreal].
  - unfold hostAnnotationOf in Hann. unfold getHost. unfold_monad.
    destruct (machine_Annotations (mgr_Machine mgr)) as [annotations|]; [|discriminate].
    simpl in Hann. rewrite Hann, Hsplit. reflexivity.
  - rewrite (getHost_annotated mgr hostKey namespace name Hann Hsplit), Hget, Hreal.
    reflexivity.
Qed.

(** X3. [Exists] answers true exactly when the annotation on the machine
    names a host that the store returns; it never changes the manager. *)
Theorem Exists_iff_bound (mgr : MachineManager) :
  (Exists_ mgr = Done (true, None) mgr <-> exists host, BoundHost mgr host)
  /\ (exists r, Exists_ mgr = Done r mgr).
Proof.
  destruct (getHost_keeps_manager mgr) as [[host err] Hget].
  assert (Hexists : Exists_ mgr
                    = match err, host with
                      | Some e, _ => Done (false, Some e) mgr
                      | None, None => Done (false, None) mgr
                      | None, Some _ => Done (true, None) mgr
                      end).
  { unfold Exists_. rewrite (bind_Done getHost _ mgr mgr _ Hget).
    destruct err, host; reflexivity. }
  split.
  - split.
    + intros Htrue. rewrite Hexists in Htrue.
      destruct err as [e|]; [discriminate|]. destruct host as [host|]; [|discriminate].
      exists host. exact (getHost_found_is_bound mgr mgr host Hget).
    + intros [bound Hbound]. rewrite Hexists.
      rewrite (getHost_bound mgr bound Hbound) in Hget. inversion Hget. reflexivity.
  - rewrite Hexists. destruct err, host; eauto.
Qed.

(** X4. An error of the lookup (an annotation that is not a key, or a get
    that fails with anything but not-found) is the result of [Delete] and
    of [Exists], and neither changes the manager nor calls the store for
    an update. *)
Theorem lookup_error_is_returned (mgr : MachineManager) (e : error) :
  LookupFails mgr e ->
  Delete mgr = Done ("", Some e) mgr
  /\ Exists_ mgr = Done (false, Some e) mgr.
Proof.
  intros Hfails. pose proof (getHost_fails mgr e Hfails) as Hget. split.
  - unfold Delete. rewrite (bind_Done getHost _ mgr mgr _ Hget). reflexivity.
  - unfold Exists_. rewrite (bind_Done getHost _ mgr mgr _ Hget). reflexivity.
Qed.

Lemma lookup_error_is_returned_witness :
  Delete (Ex.manager (Ex.store [Ex.provisionedHost] None)
            (Ex.machine (Some {[ HostAnnotation := "a/b/c" ]})) None)
  = Done ("", Some (errorf "unexpected key format: %q" ["a/b/c"]))
      (Ex.manager (Ex.store [Ex.provisionedHost] None)
         (Ex.machine (Some {[ HostAnnotation := "a/b/c" ]})) None).
Proof.
  apply lookup_error_is_returned.
  apply key_malformed with (hostKey := "a/b/c") (namespace := "") (name := "");
    reflexivity.
Defined.

Lemma mgr_with_same_client (mgr : MachineManager) : mgr_with_client (client mgr) mgr = mgr.
Proof. destruct mgr. reflexivity. Qed.

(** X5. [Delete] always ends, also without a bare-metal machine, and
    leaves the machine and the bare-metal machine of the manager as they
    were.  It sends at most one update, and only for a host that is bound
    to the machine and claimed by it: that host with its payload cleared,
    or with its consumer reference cleared. *)
Theorem Delete_frame (mgr : MachineManager) :
  exists r c,
    Delete mgr = Done r (mgr_with_client c mgr)
    /\ (c = client mgr
        \/ exists host sent,
             BoundHost mgr host
             /\ claimedBy (mgr_Machine mgr) host = true
             /\ (sent = clearPayload host \/ sent = releaseHost host)
             /\ c = (client_Update sent (client mgr)).2).
Proof.
  destruct (getHost_keeps_manager mgr) as [[[host|] [e|]] Hget].
  - exists ("", Some e), (client mgr). rewrite mgr_with_same_client. split; [|auto].
    unfold Delete. rewrite (bind_Done getHost _ mgr mgr _ Hget). reflexivity.
  - pose proof (getHost_found_is_bound mgr mgr host Hget) as Hbound.
    rewrite (Delete_found mgr host Hget).
    destruct (spec_ConsumerRef (host_Spec host)) as [consumer|] eqn:Href;
      [|exists ("", None), (client mgr); rewrite mgr_with_same_client; auto].
    assert (Hclaimed : claimedBy (mgr_Machine mgr) host
                       = consumerRefMatches consumer (mgr_Machine mgr))
      by (unfold claimedBy; rewrite Href; reflexivity).
    destruct (consumerRefMatches consumer (mgr_Machine mgr)); cbn [negb];
      [|exists ("", None), (client mgr); rewrite mgr_with_same_client; auto].
    destruct (hasPayload host).
    + destruct (client_Update (clearPayload host) (client mgr)) as [err c] eqn:Hupdate.
      eexists _, c. split; [reflexivity|]. right.
      exists host, (clearPayload host). rewrite Hupdate. auto.
    + destruct (waitingFor host).
      * eexists _, (client mgr). rewrite mgr_with_same_client. auto.
      * destruct (client_Update (releaseHost host) (client mgr)) as [err c] eqn:Hupdate.
        eexists _, c. split; [reflexivity|]. right.
        exists host, (releaseHost host). rewrite Hupdate. auto.
  - exists ("", Some e), (client mgr). rewrite mgr_with_same_client. split; [|auto].
    unfold Delete. rewrite (bind_Done getHost _ mgr mgr _ Hget). reflexivity.
  - exists ("", None), (client mgr). rewrite mgr_with_same_client. split; [|auto].
    unfold Delete. rewrite (bind_Done getHost _ mgr mgr _ Hget). reflexivity.
Qed.

(** ** The annotation and the lookup *)

(** The lookup reads the client and the machine only. *)
Lemma getHost_reads_client_and_machine (mgr1 mgr2 : MachineManager)
    (r : option BareMetalHost * option error) :
  client mgr1 = client mgr2 ->
  mgr_Machine mgr1 = mgr_Machine mgr2 ->
  getHost mgr1 = Done r mgr1 ->
  getHost mgr2 = Done r mgr2.
Proof.
  intros Hclient Hmachine.
  destruct (hostAnnotationOf (mgr_Machine mgr1)) as [hostKey|] eqn:Hann.
  - destruct (SplitMetaNamespaceKey hostKey) as [[namespace name] [e|]] eqn:Hsplit.
    + rewrite (getHost_fails mgr1 e (key_malformed mgr1 e hostKey namespace name Hann Hsplit)).
      rewrite Hmachine in Hann.
      rewrite (getHost_fails mgr2 e (key_malformed mgr2 e hostKey namespace name Hann Hsplit)).
      intros Hdone. inversion Hdone. reflexivity.
    + rewrite (getHost_annotated mgr1 hostKey namespace name Hann Hsplit).
      rewrite Hmachine in Hann.
      rewrite (getHost_annotated mgr2 hostKey namespace name Hann Hsplit).
      rewrite Hclient.
      destruct (client_Get _ (client mgr2)) as [e|host];
        [destruct (IsNotFound (Some e))|];
        intros Hdone; inversion Hdone; reflexivity.
  - rewrite (getHost_no_annotation mgr1 Hann).
    rewrite Hmachine in Hann. rewrite (getHost_no_annotation mgr2 Hann).
    intros Hdone. inversion Hdone. reflexivity.
Qed.

Lemma getHost_ignores_BareMetalMachine (mgr : MachineManager) (b : BareMetalMachine)
    (r : option BareMetalHost * option error) :
  getHost mgr = Done r mgr ->
  getHost (mgr_with_BareMetalMachine b mgr) = Done r (mgr_with_BareMetalMachine b mgr).
Proof. apply getHost_reads_client_and_machine; reflexivity. Qed.

(** What [ensureAnnotation] does for any host: the binding annotation
    becomes the key of the host. *)
Lemma ensureAnnotation_result (mgr : MachineManager) (b : BareMetalMachine)
    (host : BareMetalHost) :
  mgr_BareMetalMachine mgr = Some b ->
  exists annotations,
    ensureAnnotation host mgr
    = Done None (mgr_with_BareMetalMachine (bmm_with_Annotations (Some annotations) b) mgr)
    /\ annotations !! HostAnnotation = Some (MetaNamespaceKeyFunc host).1.
Proof.
  intros Hb. unfold ensureAnnotation. unfold_monad. rewrite Hb. cbv beta iota zeta.
  destruct (MetaNamespaceKeyFunc host) as [hostKey err] eqn:Hkey.
  assert (err = None) as ->.
  { unfold MetaNamespaceKeyFunc in Hkey. destruct (0 <? _)%nat; inversion Hkey; reflexivity. }
  cbn [fst].
  destruct (default ∅ (bmm_Annotations b) !! HostAnnotation) as [existing|] eqn:Hexisting.
  - destruct (String.eqb existing hostKey) eqn:Hsame.
    + apply String.eqb_eq in Hsame. subst existing.
      destruct (bmm_Annotations b) as [annotations|] eqn:Hannotations;
        [|simpl in Hexisting; rewrite lookup_empty in Hexisting; discriminate].
      simpl in Hexisting. exists annotations.
      assert (Hsame : bmm_with_Annotations (Some annotations) b = b).
      { destruct b. simpl in Hannotations. subst. reflexivity. }
      rewrite Hsame, (mgr_with_same_BareMetalMachine mgr b Hb). auto.
    + eexists. split; [reflexivity|]. apply lookup_insert_eq.
  - eexists. split; [reflexivity|]. apply lookup_insert_eq.
Qed.

(** X6. [ensureAnnotation] is idempotent and never fails: it returns a
    nil error, and a second call for the same host returns nil again and
    changes nothing. *)
Theorem ensureAnnotation_idempotent (mgr : MachineManager) (b : BareMetalMachine)
    (host : BareMetalHost) :
  mgr_BareMetalMachine mgr = Some b ->
  exists mgr',
    ensureAnnotation host mgr = Done None mgr'
    /\ ensureAnnotation host mgr' = Done None mgr'.
Proof.
  intros Hb.
  destruct (ensureAnnotation_result mgr b host Hb) as (annotations & Hrun & Hkey).
  eexists. split; [exact Hrun|].
  unfold ensureAnnotation. unfold_monad. cbn [mgr_BareMetalMachine mgr_with_BareMetalMachine].
  cbv beta iota zeta.
  destruct (MetaNamespaceKeyFunc host) as [hostKey err] eqn:Hhost.
  assert (err = None) as ->.
  { unfold MetaNamespaceKeyFunc in Hhost. destruct (0 <? _)%nat; inversion Hhost; reflexivity. }
  cbn [fst] in Hkey. cbn [bmm_Annotations bmm_with_Annotations default].
  simpl. rewrite Hkey, String.eqb_refl. reflexivity.
Qed.

Lemma ensureAnnotation_idempotent_witness :
  exists mgr',
    ensureAnnotation Ex.freeHost (Ex.allocating Ex.freshStatus) = Done None mgr'
    /\ ensureAnnotation Ex.freeHost mgr' = Done None mgr'.
Proof.
  exact (ensureAnnotation_idempotent (Ex.allocating Ex.freshStatus)
           (Ex.bareMetalMachine Ex.fullDescriptor Ex.freshStatus) Ex.freeHost eq_refl).
Defined.

(** X7. The binding that [ensureAnnotation] records is not what the lookup
    reads: the annotation is written on the bare-metal machine, [getHost]
    reads the annotations of the machine.  After [ensureAnnotation] the
    lookup, and so [Exists], answer as before. *)
Theorem ensureAnnotation_unseen_by_lookup (mgr : MachineManager) (b : BareMetalMachine)
    (host : BareMetalHost) (r : option BareMetalHost * option error) :
  mgr_BareMetalMachine mgr = Some b ->
  getHost mgr = Done r mgr ->
  exists mgr',
    ensureAnnotation host mgr = Done None mgr'
    /\ getHost mgr' = Done r mgr'
    /\ (hostAnnotationOf (mgr_Machine mgr) = None -> Exists_ mgr' = Done (false, None) mgr').
Proof.
  intros Hb Hget.
  destruct (ensureAnnotation_result mgr b host Hb) as (annotations & Hrun & _).
  eexists. split; [exact Hrun|]. split.
  - apply getHost_ignores_BareMetalMachine. exact Hget.
  - intros Hnone. unfold Exists_.
    rewrite (bind_Done getHost _ _ _ (None, None)
               (getHost_no_annotation
                  (mgr_with_BareMetalMachine (bmm_with_Annotations (Some annotations) b) mgr)
                  Hnone)).
    reflexivity.
Qed.

Lemma ensureAnnotation_unseen_by_lookup_witness :
  exists mgr',
    ensureAnnotation Ex.freeHost (Ex.allocating Ex.freshStatus) = Done None mgr'
    /\ bindingOf (default (Ex.bareMetalMachine Ex.fullDescriptor Ex.freshStatus)
                    (mgr_BareMetalMachine mgr')) = Some "ns/h2"
    /\ Exists_ mgr' = Done (false, None) mgr'.
Proof.
  destruct (ensureAnnotation_unseen_by_lookup (Ex.allocating Ex.freshStatus)
              (Ex.bareMetalMachine Ex.fullDescriptor Ex.freshStatus) Ex.freeHost
              (None, None) eq_refl eq_refl)
    as (mgr' & Hrun & _ & Hexists).
  exists mgr'. split; [exact Hrun|]. split.
  - vm_compute in Hrun. inversion Hrun. reflexivity.
  - apply Hexists. reflexivity.
Defined.

(** ** Update *)

Lemma clearError_result (mgr : MachineManager) (b : BareMetalMachine) :
  mgr_BareMetalMachine mgr = Some b ->
  clearError mgr
  = Done tt (mgr_with_BareMetalMachine
               (bmm_with_Status (bmstatus_with_Error None None (bmm_Status b)) b) mgr).
Proof.
  intros Hb. unfold clearError. unfold_monad. rewrite Hb.
  destruct mgr as [c m ob]. simpl in Hb. subst ob.
  destruct b as [name namespace annotations config [updated reason message addrs ready]].
  destruct message, reason; reflexivity.
Qed.

(** X8. [Update] never calls the store for an update and never changes
    the machine: whatever it returns, the client is as before and the
    error fields of the bare-metal machine are nil.  When the machine has
    no binding that the lookup resolves, it returns the error "host not
    found for machine <name>" and has only reset the error fields. *)
Theorem Update_never_writes (now : Time) (mgr : MachineManager) (b : BareMetalMachine) :
  mgr_BareMetalMachine mgr = Some b ->
  (exists r b',
     Update now mgr = Done r (mgr_with_BareMetalMachine b' mgr)
     /\ bmstatus_ErrorMessage (bmm_Status b') = None
     /\ bmstatus_ErrorReason (bmm_Status b') = None)
  /\ (Unbound mgr ->
      Update now mgr
      = Done ("", Some (errorString
                          ("host not found for machine " ++ machine_Name (mgr_Machine mgr))))
          (mgr_with_BareMetalMachine
             (bmm_with_Status (bmstatus_with_Error None None (bmm_Status b)) b) mgr)).
Proof.
  intros Hb.
  set (cleared := bmm_with_Status (bmstatus_with_Error None None (bmm_Status b)) b).
  set (mgr1 := mgr_with_BareMetalMachine cleared mgr).
  destruct (getHost_keeps_manager mgr) as [[host err] Hget].
  pose proof (getHost_ignores_BareMetalMachine mgr cleared _ Hget) as Hget1.
  fold mgr1 in Hget1.
  assert (Hupdate : Update now mgr
                    = match err, host with
                      | Some e, _ => Done ("", Some e) mgr1
                      | None, None =>
                          Done ("", Some (errorString
                                            ("host not found for machine "
                                             ++ machine_Name (mgr_Machine mgr)))) mgr1
                      | None, Some host =>
                          match ensureAnnotation host mgr1 with
                          | Done (Some e) mgr2 => Done (host_Name host, Some e) mgr2
                          | Done None mgr2 =>
                              match updateMachineStatus now host mgr2 with
                              | Done (Some e) mgr3 => Done (host_Name host, Some e) mgr3
                              | Done None mgr3 => Done (host_Name host, None) mgr3
                              | Panic => Panic
                              end
                          | Panic => Panic
                          end
                      end).
  { unfold Update.
    rewrite (bind_Done clearError _ mgr mgr1 tt (clearError_result mgr b Hb)).
    rewrite (bind_Done getHost _ mgr1 mgr1 _ Hget1).
    destruct err as [e|]; [reflexivity|]. destruct host as [host|]; [|reflexivity].
    unfold mbind, M_bind, mret, M_ret.
    destruct (ensureAnnotation host mgr1) as [[e|] mgr2|]; try reflexivity.
    destruct (updateMachineStatus now host mgr2) as [[e|] mgr3|]; reflexivity. }
  split.
  - rewrite Hupdate.
    destruct err as [e|]; [exists ("", Some e), cleared; auto|].
    destruct host as [host|]; [|eexists _, cleared; auto].
    destruct (ensureAnnotation_result mgr1 cleared host eq_refl) as (annotations & -> & _).
    rewrite (updateMachineStatus_always_writes now host
               (mgr_with_BareMetalMachine
                  (bmm_with_Annotations (Some annotations) cleared) mgr1)
               (bmm_with_Annotations (Some annotations) cleared) eq_refl).
    eexists _, _. split; [reflexivity|]. split; reflexivity.
  - intros Hunbound. rewrite Hupdate.
    rewrite (getHost_unbound mgr Hunbound) in Hget. inversion Hget. reflexivity.
Qed.

Lemma Update_never_writes_witness :
  Update 1572739200%Z
    (Ex.manager (Ex.store [Ex.freeHost] None) (Ex.machine None)
       (Some (Ex.bareMetalMachine Ex.fullDescriptor Ex.failedStatus)))
  = Done ("", Some (errorString "host not found for machine m1"))
      (Ex.manager (Ex.store [Ex.freeHost] None) (Ex.machine None)
         (Some (Ex.bareMetalMachine Ex.fullDescriptor Ex.freshStatus))).
Proof.
  apply (proj2 (Update_never_writes 1572739200%Z
                  (Ex.manager (Ex.store [Ex.freeHost] None) (Ex.machine None)
                     (Some (Ex.bareMetalMachine Ex.fullDescriptor Ex.failedStatus)))
                  (Ex.bareMetalMachine Ex.fullDescriptor Ex.failedStatus) eq_refl)).
  apply unbound_no_annotation. reflexivity.
Defined.

(** ** The derived addresses *)

Lemma internalIPs_app (l1 l2 : list MachineAddress) :
  internalIPs (l1 ++ l2)%list = (internalIPs l1 ++ internalIPs l2)%list.
Proof. unfold internalIPs. rewrite List.filter_app, map_app. reflexivity. Qed.

Lemma internalIPs_of_interfaces (nics : list NIC) :
  internalIPs
    (map (fun nic => {| addr_Type := MachineInternalIP; addr_Address := nic_IP nic |}) nics)
  = map nic_IP nics.
Proof.
  unfold internalIPs. induction nics as [|nic rest IH]; [reflexivity|].
  simpl. rewrite IH. reflexivity.
Qed.

(** X9. For a host with hardware details, the internal IP addresses that
    [nodeAddresses] gives are the addresses of the network interfaces, in
    their order; the list has one entry per interface, and two more (host
    name and internal DNS name, the last two entries) exactly when the
    host name is not empty.  Without hardware details the list is
    empty. *)
Theorem nodeAddresses_of_details (host : BareMetalHost) :
  (status_HardwareDetails (host_Status host) = None -> nodeAddresses (Some host) = [])
  /\ (forall details, status_HardwareDetails (host_Status host) = Some details ->
      internalIPs (nodeAddresses (Some host)) = map nic_IP (hw_NIC details)
      /\ length (nodeAddresses (Some host))
         = (length (hw_NIC details) + if String.eqb (hw_Hostname details) "" then 0 else 2)%nat
      /\ (hw_Hostname details <> "" ->
          drop (length (hw_NIC details)) (nodeAddresses (Some host))
          = [ {| addr_Type := MachineHostName; addr_Address := hw_Hostname details |};
              {| addr_Type := MachineInternalDNS; addr_Address := hw_Hostname details |} ])).
Proof.
  split.
  - intros Hnone. unfold nodeAddresses. rewrite Hnone. reflexivity.
  - intros details Hdetails. unfold nodeAddresses. rewrite Hdetails.
    destruct (String.eqb (hw_Hostname details) "") eqn:Hname; cbn [negb].
    + split; [apply internalIPs_of_interfaces|].
      split; [rewrite length_map; lia|].
      apply String.eqb_eq in Hname. congruence.
    + split; [rewrite internalIPs_app, internalIPs_of_interfaces; apply app_nil_r|].
      split; [rewrite length_app, length_map; reflexivity|].
      intros _. rewrite drop_app_length'; [reflexivity|symmetry; apply length_map].
Qed.

(** ** The identity of the machine in a consumer reference *)


(** X10. The consumer reference that [setHostSpec] writes always carries
    the kind "Machine"; [consumerRefMatches] compares it with the kind of
    the machine object.  So the claim of a machine is recognized as its
    own, by [Delete] and by [chooseHost], exactly when the kind of the
    machine object is "Machine". *)
Theorem consumerRefMatches_own_identity (machine : Machine) :
  consumerRefMatches (machineIdentity machine) machine = true
  <-> machine_Kind machine = "Machine".
Proof.
  unfold consumerRefMatches, machineIdentity. cbn [ref_Name ref_Namespace ref_Kind ref_APIVersion].
  rewrite !String.eqb_refl. cbn [negb].
  destruct (String.eqb "Machine" (machine_Kind machine)) eqn:Hkind; cbn [negb].
  - apply String.eqb_eq in Hkind. split; congruence.
  - apply String.eqb_neq in Hkind. split; [discriminate|congruence].
Qed.

Lemma nodeAddresses_of_details_witness :
  internalIPs (nodeAddresses (Some Ex.freeHost)) = ["192.168.111.20"]
  /\ length (nodeAddresses (Some Ex.freeHost)) = 3%nat.
Proof.
  destruct (proj2 (nodeAddresses_of_details Ex.freeHost) Ex.details eq_refl)
    as (Hips & Hlength & _).
  split; [exact Hips|exact Hlength].
Defined.

(** ** The choice among the listed hosts *)

Section ChoiceProperties.
Context {ext : Externals}.

Lemma scanHosts_without_claim (machine : Machine) (labelSelector : list Requirement)
    (items : list BareMetalHost) :
  find (claimedBy machine) items = None ->
  forall availableHosts,
    scanHosts machine labelSelector items availableHosts
    = inr (availableHosts ++ eligibleHosts labelSelector items)%list.
Proof.
  induction items as [|first rest IH]; intros Hfind availableHosts.
  - simpl. rewrite app_nil_r. reflexivity.
  - simpl in Hfind. destruct (claimedBy machine first) eqn:Hclaimed; [discriminate|].
    unfold claimedBy in Hclaimed. simpl.
    destruct (Available first); simpl.
    + destruct (selectorMatches labelSelector (host_Labels first)).
      * rewrite (IH Hfind). rewrite <- app_assoc. reflexivity.
      * apply IH. exact Hfind.
    + destruct (spec_ConsumerRef (host_Spec first)); [rewrite Hclaimed|];
        apply IH; exact Hfind.
Qed.

(** [chooseHost] in terms of the listing: the first claimed host, or else
    the drawn one of the eligible hosts. *)
Lemma chooseHost_result (rnd : nat) (mgr : MachineManager) (b : BareMetalMachine)
    (hosts : list BareMetalHost) (labelSelector : list Requirement) :
  mgr_BareMetalMachine mgr = Some b ->
  client_List (machine_Namespace (mgr_Machine mgr)) (client mgr) = inr hosts ->
  selectorRequirements (bmspec_HostSelector (bmm_Spec b)) = inr labelSelector ->
  chooseHost rnd mgr
  = Done (match find (claimedBy (mgr_Machine mgr)) hosts with
          | Some host => (Some host, None)
          | None =>
              (eligibleHosts labelSelector hosts
                 !! (rnd mod length (eligibleHosts labelSelector hosts))%nat, None)
          end) mgr.
Proof.
  intros Hb Hlist Hselector.
  destruct (find (claimedBy (mgr_Machine mgr)) hosts) as [host|] eqn:Hfind.
  - unfold chooseHost. unfold_monad.
    rewrite Hlist. cbv beta iota. rewrite Hb. cbv beta iota. rewrite Hselector.
    rewrite (scanHosts_finds_claimed _ labelSelector hosts host Hfind). reflexivity.
  - unfold chooseHost. unfold_monad.
    rewrite Hlist. cbv beta iota. rewrite Hb. cbv beta iota. rewrite Hselector.
    rewrite (scanHosts_without_claim _ labelSelector hosts Hfind). cbn [app].
    destruct (eligibleHosts labelSelector hosts) as [|first rest]; reflexivity.
Qed.

Lemma eligibleHosts_spec (labelSelector : list Requirement) (hosts : list BareMetalHost)
    (host : BareMetalHost) :
  host ∈ eligibleHosts labelSelector hosts
  <-> host ∈ hosts
      /\ Available host = true
      /\ selectorMatches labelSelector (host_Labels host) = true.
Proof.
  unfold eligibleHosts. rewrite !list_elem_of_In, filter_In, andb_true_iff. reflexivity.
Qed.

(** X11. A host that [chooseHost] returns is one of the hosts the store
    listed for the namespace of the machine, and it is either claimed by
    the machine or available with labels that match the selector: a free
    host that fails the selector, or a host claimed by another machine, is
    never chosen.  The manager is left as it was. *)
Theorem chooseHost_sound (rnd : nat) (mgr mgr' : MachineManager) (b : BareMetalMachine)
    (hosts : list BareMetalHost) (labelSelector : list Requirement)
    (host : BareMetalHost) (err : option error) :
  mgr_BareMetalMachine mgr = Some b ->
  client_List (machine_Namespace (mgr_Machine mgr)) (client mgr) = inr hosts ->
  selectorRequirements (bmspec_HostSelector (bmm_Spec b)) = inr labelSelector ->
  chooseHost rnd mgr = Done (Some host, err) mgr' ->
  mgr' = mgr
  /\ err = None
  /\ host ∈ hosts
  /\ candidateFor (mgr_Machine mgr) labelSelector host.
Proof.
  intros Hb Hlist Hselector Hchosen.
  rewrite (chooseHost_result rnd mgr b hosts labelSelector Hb Hlist Hselector) in Hchosen.
  destruct (find (claimedBy (mgr_Machine mgr)) hosts) as [claimed|] eqn:Hfind.
  - inversion Hchosen. subst. apply find_some in Hfind. destruct Hfind as [Hin Hclaimed].
    split_and!; auto. { apply list_elem_of_In. exact Hin. } left. exact Hclaimed.
  - inversion Hchosen as [[Hlookup Herr Hmgr]].
    apply list_elem_of_lookup_2 in Hlookup. apply eligibleHosts_spec in Hlookup.
    destruct Hlookup as (Hin & Havailable & Hmatches).
    split_and!; auto. right. auto.
Qed.


(** X12. When the listing succeeds and the selector can be built,
    [chooseHost] returns no host (and no error) exactly when no listed
    host is claimed by the machine and none is available and matches the
    selector; whenever there is such a host it returns one, whatever
    number is drawn. *)
Theorem chooseHost_absent_iff_no_candidate (rnd : nat) (mgr : MachineManager)
    (b : BareMetalMachine) (hosts : list BareMetalHost)
    (labelSelector : list Requirement) :
  mgr_BareMetalMachine mgr = Some b ->
  client_List (machine_Namespace (mgr_Machine mgr)) (client mgr) = inr hosts ->
  selectorRequirements (bmspec_HostSelector (bmm_Spec b)) = inr labelSelector ->
  (chooseHost rnd mgr = Done (None, None) mgr
   <-> forall host, host ∈ hosts -> ~ candidateFor (mgr_Machine mgr) labelSelector host)
  /\ ((exists host, host ∈ hosts /\ candidateFor (mgr_Machine mgr) labelSelector host) ->
      exists host, chooseHost rnd mgr = Done (Some host, None) mgr).
Proof.
  intros Hb Hlist Hselector.
  rewrite (chooseHost_result rnd mgr b hosts labelSelector Hb Hlist Hselector).
  assert (Hdrawn : eligibleHosts labelSelector hosts <> [] ->
            is_Some (eligibleHosts labelSelector hosts
                       !! (rnd mod length (eligibleHosts labelSelector hosts))%nat)).
  { intros Hnonempty. apply lookup_lt_is_Some. apply Nat.mod_upper_bound.
    destruct (eligibleHosts labelSelector hosts); [congruence|discriminate]. }
  destruct (find (claimedBy (mgr_Machine mgr)) hosts) as [claimed|] eqn:Hfind.
  - split; [split|].
    + discriminate.
    + intros Hnone. exfalso. apply find_some in Hfind. destruct Hfind as [Hin Hclaimed].
      apply (Hnone claimed); [apply list_elem_of_In; exact Hin|left; exact Hclaimed].
    + eauto.
  - assert (Hunclaimed : forall host, host ∈ hosts ->
              claimedBy (mgr_Machine mgr) host = false).
    { intros host Hin. apply list_elem_of_In in Hin.
      exact (find_none _ _ Hfind host Hin). }
    split; [split|].
    + intros Hnone host Hin [Hclaimed | [Havailable Hmatches]].
      * rewrite (Hunclaimed host Hin) in Hclaimed. discriminate.
      * assert (Heligible : host ∈ eligibleHosts labelSelector hosts)
          by (apply eligibleHosts_spec; auto).
        destruct (eligibleHosts labelSelector hosts) as [|first rest] eqn:Hlist';
          [inversion Heligible|].
        destruct Hdrawn as [drawn Hdrawn]; [discriminate|].
        rewrite Hdrawn in Hnone. discriminate.
    + intros Hnone.
      destruct (eligibleHosts labelSelector hosts) as [|first rest] eqn:Hlist';
        [reflexivity|].
      exfalso. assert (Hfirst : first ∈ eligibleHosts labelSelector hosts)
        by (rewrite Hlist'; apply list_elem_of_here).
      apply eligibleHosts_spec in Hfirst. destruct Hfirst as (Hin & Havailable & Hmatches).
      apply (Hnone first Hin). right. auto.
    + intros (host & Hin & [Hclaimed | [Havailable Hmatches]]).
      * rewrite (Hunclaimed host Hin) in Hclaimed. discriminate.
      * assert (Heligible : host ∈ eligibleHosts labelSelector hosts)
          by (apply eligibleHosts_spec; auto).
        destruct Hdrawn as [drawn Hdrawn].
        { intros Hempty. rewrite Hempty in Heligible. inversion Heligible. }
        exists drawn. rewrite Hdrawn. reflexivity.
Qed.

(** X13. Among the eligible hosts none is preferred: when no listed host
    is claimed by the machine, every available host that matches the
    selector is the choice of [chooseHost] for some drawn number. *)
Theorem chooseHost_reaches_every_eligible_host (mgr : MachineManager)
    (b : BareMetalMachine) (hosts : list BareMetalHost)
    (labelSelector : list Requirement) (host : BareMetalHost) :
  mgr_BareMetalMachine mgr = Some b ->
  client_List (machine_Namespace (mgr_Machine mgr)) (client mgr) = inr hosts ->
  selectorRequirements (bmspec_HostSelector (bmm_Spec b)) = inr labelSelector ->
  find (claimedBy (mgr_Machine mgr)) hosts = None ->
  host ∈ hosts ->
  Available host = true ->
  selectorMatches labelSelector (host_Labels host) = true ->
  exists rnd, chooseHost rnd mgr = Done (Some host, None) mgr.
Proof.
  intros Hb Hlist Hselector Hfind Hin Havailable Hmatches.
  assert (Heligible : host ∈ eligibleHosts labelSelector hosts)
    by (apply eligibleHosts_spec; auto).
  apply list_elem_of_lookup in Heligible. destruct Heligible as [i Hi].
  exists i. rewrite (chooseHost_result i mgr b hosts labelSelector Hb Hlist Hselector).
  rewrite Hfind. rewrite Nat.mod_small by (apply lookup_lt_Some in Hi; exact Hi).
  rewrite Hi. reflexivity.
Qed.

End ChoiceProperties.

Lemma chooseHost_sound_witness :
  Ex.tierHost "h2" "core" ∈ [Ex.tierHost "h1" "edge"; Ex.tierHost "h2" "core"]
  /\ candidateFor (ext := Ex.externals) (Ex.machine None)
       [ {| r_key := "tier"; r_operator := "="; r_strValues := ["core"] |} ]
       (Ex.tierHost "h2" "core").
Proof.
  destruct (chooseHost_sound (ext := Ex.externals) 0
              (Ex.choosing Ex.tierSelector [Ex.tierHost "h1" "edge"; Ex.tierHost "h2" "core"])
              (Ex.choosing Ex.tierSelector [Ex.tierHost "h1" "edge"; Ex.tierHost "h2" "core"])
              (Ex.bareMetalMachine (Ex.descriptor Ex.image None Ex.tierSelector)
                 Ex.freshStatus)
              [Ex.tierHost "h1" "edge"; Ex.tierHost "h2" "core"]
              [ {| r_key := "tier"; r_operator := "="; r_strValues := ["core"] |} ]
              (Ex.tierHost "h2" "core") None
              eq_refl eq_refl eq_refl eq_refl)
    as (_ & _ & Hin & Hcandidate).
  split; [exact Hin|exact Hcandidate].
Defined.

Lemma chooseHost_absent_iff_no_candidate_witness :
  chooseHost (ext := Ex.externals) 5 (Ex.choosing Ex.tierSelector [Ex.tierHost "h1" "edge"])
  = Done (None, None) (Ex.choosing Ex.tierSelector [Ex.tierHost "h1" "edge"]).
Proof.
  apply (proj1 (chooseHost_absent_iff_no_candidate (ext := Ex.externals) 5
                  (Ex.choosing Ex.tierSelector [Ex.tierHost "h1" "edge"])
                  (Ex.bareMetalMachine (Ex.descriptor Ex.image None Ex.tierSelector)
                     Ex.freshStatus)
                  [Ex.tierHost "h1" "edge"]
                  [ {| r_key := "tier"; r_operator := "="; r_strValues := ["core"] |} ]
                  eq_refl eq_refl eq_refl)).
  intros host Hin. apply list_elem_of_singleton in Hin. subst host.
  intros [Hclaimed | [_ Hmatches]]; discriminate.
Defined.

Lemma chooseHost_reaches_every_eligible_host_witness :
  exists rnd,
    chooseHost (ext := Ex.externals) rnd
      (Ex.choosing Ex.noSelector [Ex.tierHost "h1" "edge"; Ex.tierHost "h2" "core"])
    = Done (Some (Ex.tierHost "h2" "core"), None)
        (Ex.choosing Ex.noSelector [Ex.tierHost "h1" "edge"; Ex.tierHost "h2" "core"]).
Proof.
  apply (chooseHost_reaches_every_eligible_host (ext := Ex.externals)
           (Ex.choosing Ex.noSelector [Ex.tierHost "h1" "edge"; Ex.tierHost "h2" "core"])
           (Ex.bareMetalMachine (Ex.descriptor Ex.image None Ex.noSelector) Ex.freshStatus)
           [Ex.tierHost "h1" "edge"; Ex.tierHost "h2" "core"] []);
    try reflexivity.
  apply list_elem_of_further, list_elem_of_here.
Defined.

(** ** The selector built from label pairs *)

Section SelectorProperties.
Context {ext : Externals}.

Lemma matchLabelRequirements_built (pairs : list (string * string)) :
  forall reqs out,
    matchLabelRequirements pairs reqs = inr out ->
    out = (reqs ++ map (fun p => {| r_key := p.1;
                                     r_operator := selection.Equals;
                                     r_strValues := [p.2] |}) pairs)%list.
Proof.
  induction pairs as [|[k v] rest IH]; intros reqs out Hbuilt.
  - simpl in Hbuilt. inversion Hbuilt. rewrite app_nil_r. reflexivity.
  - simpl in Hbuilt.
    destruct (NewRequirement k selection.Equals [v]) as [e|r] eqn:Hnew; [discriminate|].
    assert (Hr : r = {| r_key := k; r_operator := selection.Equals; r_strValues := [v] |}).
    { unfold NewRequirement in Hnew.
      destruct (validateLabelKey k); [discriminate|].
      destruct (checkOperator selection.Equals [v]); [discriminate|].
      destruct (firstError validateLabelValue [v]); [discriminate|].
      inversion Hnew. reflexivity. }
    subst r. rewrite (IH _ _ Hbuilt). rewrite <- app_assoc. reflexivity.
Qed.

Lemma Matches_equals (k v : string) (ls : gmap string string) :
  Matches {| r_key := k; r_operator := selection.Equals; r_strValues := [v] |} ls = true
  <-> ls !! k = Some v.
Proof.
  unfold Matches, hasValue. cbn [r_operator r_key r_strValues].
  change (oneOf selection.Equals [selection.In; selection.Equals; selection.DoubleEquals])
    with true. cbv iota.
  destruct (ls !! k) as [v'|]; [|split; discriminate].
  simpl. rewrite orb_false_r. rewrite String.eqb_eq. split; congruence.
Qed.

(** X14. When the selector of the machine holds label pairs only and
    [chooseHost] can build it, the built selector matches a label set
    exactly when every pair is in the label set: the key is present and
    carries that value. *)
Theorem selectorRequirements_of_label_pairs (pairs : list (string * string))
    (labelSelector : list Requirement) (ls : gmap string string) :
  selectorRequirements {| MatchLabels := pairs; MatchExpressions := [] |}
  = inr labelSelector ->
  selectorMatches labelSelector ls = true
  <-> forall k v, (k, v) ∈ pairs -> ls !! k = Some v.
Proof.
  unfold selectorRequirements. cbn [MatchLabels MatchExpressions].
  destruct (matchLabelRequirements pairs []) as [e|reqs] eqn:Hbuilt; [discriminate|].
  simpl. intros Hsel. inversion Hsel. subst labelSelector.
  rewrite (matchLabelRequirements_built pairs [] reqs Hbuilt). cbn [app].
  unfold selectorMatches. rewrite forallb_forall. split.
  - intros Hall k v Hin. apply Matches_equals. apply Hall.
    apply in_map_iff. exists (k, v). split; [reflexivity|].
    apply list_elem_of_In. exact Hin.
  - intros Hall r Hr. apply in_map_iff in Hr. destruct Hr as ([k v] & <- & Hin).
    apply Matches_equals. apply Hall. apply list_elem_of_In. exact Hin.
Qed.

End SelectorProperties.

Lemma selectorRequirements_of_label_pairs_witness :
  selectorMatches (ext := Ex.externals)
    [ {| r_key := "tier"; r_operator := "="; r_strValues := ["core"] |} ]
    (host_Labels (Ex.tierHost "h2" "core")) = true.
Proof.
  apply (proj2 (selectorRequirements_of_label_pairs (ext := Ex.externals)
                  [("tier", "core")]
                  [ {| r_key := "tier"; r_operator := "="; r_strValues := ["core"] |} ]
                  (host_Labels (Ex.tierHost "h2" "core")) eq_refl)).
  intros k v Hin. apply list_elem_of_singleton in Hin. inversion Hin. reflexivity.
Defined.

(** ** The claim written to the store *)

(** [setHostSpec] in one equation: the host it sends, the answer of the
    store, and what it leaves of the bare-metal machine. *)
Lemma setHostSpec_result (mgr : MachineManager) (b : BareMetalMachine)
    (host : BareMetalHost) :
  mgr_BareMetalMachine mgr = Some b ->
  setHostSpec host mgr
  = Done (committedHost (mgr_Machine mgr) b host,
          (client_Update (committedHost (mgr_Machine mgr) b host) (client mgr)).1)
      (mgr_with_client
         (client_Update (committedHost (mgr_Machine mgr) b host) (client mgr)).2
         (mgr_with_BareMetalMachine (descriptorAfterCommit (mgr_Machine mgr) b host) mgr)).
Proof.
  intros Hb. destruct mgr as [c m ob]. simpl in Hb. subst ob.
  unfold setHostSpec, committedHost, descriptorAfterCommit. unfold_monad.
  cbn [mgr_Machine client mgr_BareMetalMachine].
  destruct (spec_Image (host_Spec host)) as [i|] eqn:Himage; cbv beta iota zeta.
  - unfold host_with_Spec, spec_with_Online, spec_with_ConsumerRef; cbn.
    rewrite Himage.
    destruct (client_Update _ c) as [err c']. reflexivity.
  - cbn [spec_UserData host_Spec host_with_Spec spec_with_UserData spec_with_Image
           mgr_BareMetalMachine].
    cbv beta iota.
    unfold defaultedUserData.
    destruct b as [name namespace annotations [pid img ud sel] status].
    cbn [bmm_Spec bmspec_UserData bmspec_Image].
    destruct ud as [u|]; cbv beta iota.
    + destruct (String.eqb (secret_Namespace u) ""); cbv beta iota;
        unfold host_with_Spec, spec_with_Online, spec_with_ConsumerRef, spec_with_UserData,
          spec_with_Image, mgr_with_client, mgr_with_BareMetalMachine, bmm_with_Spec,
          bmspec_with_UserData; cbn;
        destruct (client_Update _ c) as [err c']; reflexivity.
    + unfold host_with_Spec, spec_with_Online, spec_with_ConsumerRef, spec_with_UserData,
        spec_with_Image, mgr_with_client, mgr_with_BareMetalMachine, bmm_with_Spec,
        bmspec_with_UserData; cbn;
        destruct (client_Update _ c) as [err c']; reflexivity.
Qed.

Lemma hasKey_own (h : BareMetalHost) : hasKey (keyOf h) h = true.
Proof. unfold hasKey, keyOf. simpl. rewrite !String.eqb_refl. reflexivity. Qed.

Lemma replaceHost_twice (h : BareMetalHost) (l : list BareMetalHost) :
  replaceHost h (replaceHost h l) = replaceHost h l.
Proof.
  unfold replaceHost. rewrite map_map. apply map_ext. intros o.
  destruct (hasKey (keyOf h) o) eqn:Hkey; [rewrite hasKey_own|rewrite Hkey]; reflexivity.
Qed.

Lemma existsb_replaceHost (h : BareMetalHost) (l : list BareMetalHost) :
  existsb (hasKey (keyOf h)) (replaceHost h l) = existsb (hasKey (keyOf h)) l.
Proof.
  induction l as [|o rest IH]; [reflexivity|].
  simpl. rewrite IH. destruct (hasKey (keyOf h) o) eqn:Hkey;
    [rewrite hasKey_own|rewrite Hkey]; reflexivity.
Qed.

(** An update that the store accepted is accepted again, and then changes
    nothing in the store. *)
Lemma client_Update_again (h : BareMetalHost) (c c1 : Client) :
  client_Update h c = (None, c1) ->
  exists c2, client_Update h c1 = (None, c2) /\ objects c2 = objects c1.
Proof.
  unfold client_Update. intros Hfirst.
  destruct (updateFault c) eqn:Hfault; [discriminate|].
  destruct (existsb (hasKey (keyOf h)) (objects c)) eqn:Hexists; [|discriminate].
  inversion Hfirst. cbn [updateFault objects].
  rewrite existsb_replaceHost, Hexists.
  eexists. split; [reflexivity|]. cbn [objects]. apply replaceHost_twice.
Qed.

Lemma committedHost_twice (machine : Machine) (b b' : BareMetalMachine)
    (host : BareMetalHost) :
  committedHost machine b' (committedHost machine b host) = committedHost machine b host.
Proof.
  unfold committedHost, host_with_Spec. cbn.
  destruct (spec_Image (host_Spec host)); reflexivity.
Qed.

Lemma descriptorAfterCommit_committed (machine : Machine) (b b' : BareMetalMachine)
    (host : BareMetalHost) :
  descriptorAfterCommit machine b' (committedHost machine b host) = b'.
Proof.
  unfold descriptorAfterCommit, committedHost, host_with_Spec. cbn.
  destruct (spec_Image (host_Spec host)); reflexivity.
Qed.

(** X15. [setHostSpec] is idempotent on its result: applied to the host it
    has just sent, it sends the very same host again and leaves the
    bare-metal machine as it is; when the store accepted the first update
    it accepts the second, and the stored hosts do not change. *)
Theorem setHostSpec_idempotent (mgr : MachineManager) (b : BareMetalMachine)
    (host : BareMetalHost) :
  mgr_BareMetalMachine mgr = Some b ->
  exists host1 err1 mgr1 err2 mgr2,
    setHostSpec host mgr = Done (host1, err1) mgr1
    /\ setHostSpec host1 mgr1 = Done (host1, err2) mgr2
    /\ mgr_BareMetalMachine mgr2 = mgr_BareMetalMachine mgr1
    /\ mgr_Machine mgr2 = mgr_Machine mgr
    /\ (err1 = None ->
        err2 = None /\ objects (client mgr2) = objects (client mgr1)).
Proof.
  intros Hb.
  set (m := mgr_Machine mgr).
  set (b1 := descriptorAfterCommit m b host).
  set (host1 := committedHost m b host).
  destruct (client_Update host1 (client mgr)) as [err1 c1] eqn:Hfirst.
  set (mgr1 := mgr_with_client c1 (mgr_with_BareMetalMachine b1 mgr)).
  assert (Hrun1 : setHostSpec host mgr = Done (host1, err1) mgr1).
  { rewrite (setHostSpec_result mgr b host Hb). fold m host1 b1. rewrite Hfirst.
    reflexivity. }
  pose proof (setHostSpec_result mgr1 b1 host1 eq_refl) as Hrun2.
  change (mgr_Machine mgr1) with m in Hrun2.
  unfold host1 in Hrun2.
  rewrite !committedHost_twice, (descriptorAfterCommit_committed m b b1 host) in Hrun2.
  fold host1 in Hrun2.
  change (client mgr1) with c1 in Hrun2.
  destruct (client_Update host1 c1) as [err2 c2] eqn:Hsecond.
  eexists host1, err1, mgr1, err2, _.
  split; [exact Hrun1|]. split; [exact Hrun2|].
  split; [reflexivity|]. split; [reflexivity|].
  intros ->. destruct (client_Update_again host1 (client mgr) c1 Hfirst) as (c2' & Hagain & Hobjects).
  rewrite Hagain in Hsecond. inversion Hsecond. subst. auto.
Qed.

Lemma setHostSpec_idempotent_witness :
  exists host1 mgr1 mgr2,
    setHostSpec Ex.freeHost (Ex.allocating Ex.freshStatus) = Done (host1, None) mgr1
    /\ setHostSpec host1 mgr1 = Done (host1, None) mgr2
    /\ objects (client mgr2) = objects (client mgr1).
Proof.
  destruct (setHostSpec_idempotent (Ex.allocating Ex.freshStatus)
              (Ex.bareMetalMachine Ex.fullDescriptor Ex.freshStatus) Ex.freeHost eq_refl)
    as (host1 & err1 & mgr1 & err2 & mgr2 & Hrun1 & Hrun2 & _ & _ & Haccepted).
  assert (Herr1 : err1 = None).
  { vm_compute in Hrun1. inversion Hrun1. reflexivity. }
  subst err1. destruct (Haccepted eq_refl) as [-> Hobjects].
  exists host1, mgr1, mgr2. auto.
Defined.

(** X16. The user-data reference is a pointer shared by the descriptor of
    the machine and the host: when [setHostSpec] writes the payload (the
    host had no image), the namespace it fills in on the host is filled
    in on the descriptor of the bare-metal machine as well; nothing else
    of the bare-metal machine changes, and it does not change at all when
    the host had an image. *)
Theorem setHostSpec_shares_user_data (mgr : MachineManager) (b : BareMetalMachine)
    (host : BareMetalHost) :
  mgr_BareMetalMachine mgr = Some b ->
  exists host' err mgr',
    setHostSpec host mgr = Done (host', err) mgr'
    /\ (spec_Image (host_Spec host) = None ->
        mgr_BareMetalMachine mgr'
        = Some (bmm_with_Spec
                  (bmspec_with_UserData
                     (defaultedUserData (mgr_Machine mgr) (bmspec_UserData (bmm_Spec b)))
                     (bmm_Spec b)) b)
        /\ spec_UserData (host_Spec host')
           = defaultedUserData (mgr_Machine mgr) (bmspec_UserData (bmm_Spec b)))
    /\ (is_Some (spec_Image (host_Spec host)) -> mgr_BareMetalMachine mgr' = Some b).
Proof.
  intros Hb. rewrite (setHostSpec_result mgr b host Hb).
  eexists _, _, _. split; [reflexivity|].
  unfold descriptorAfterCommit, committedHost.
  cbn [mgr_BareMetalMachine mgr_with_client mgr_with_BareMetalMachine
         host_Spec host_with_Spec spec_UserData].
  split.
  - intros ->. auto.
  - intros [i ->]. reflexivity.
Qed.

Lemma setHostSpec_shares_user_data_witness :
  exists host' err mgr' b',
    setHostSpec Ex.freeHost (Ex.allocating Ex.freshStatus) = Done (host', err) mgr'
    /\ mgr_BareMetalMachine mgr' = Some b'
    /\ bmspec_UserData (bmm_Spec b')
       = Some {| secret_Name := "m1-user-data"; secret_Namespace := "ns" |}
    /\ bmspec_UserData Ex.fullDescriptor
       = Some {| secret_Name := "m1-user-data"; secret_Namespace := "" |}.
Proof.
  destruct (setHostSpec_shares_user_data (Ex.allocating Ex.freshStatus)
              (Ex.bareMetalMachine Ex.fullDescriptor Ex.freshStatus) Ex.freeHost eq_refl)
    as (host' & err & mgr' & Hrun & Hfresh & _).
  destruct (Hfresh eq_refl) as [Hdescriptor _].
  eexists host', err, mgr', _. split; [exact Hrun|]. split; [exact Hdescriptor|].
  split; reflexivity.
Defined.

(** ** The store between two calls *)

Lemma hasKey_eq (k : ObjectKey) (h : BareMetalHost) : hasKey k h = true -> k = keyOf h.
Proof.
  unfold hasKey, keyOf. destruct k as [namespace name]. simpl.
  rewrite andb_true_iff, !String.eqb_eq. intros [-> ->]. reflexivity.
Qed.

Lemma find_replaceHost (h' : BareMetalHost) (l : list BareMetalHost) (host : BareMetalHost) :
  find (hasKey (keyOf h')) l = Some host ->
  find (hasKey (keyOf h')) (replaceHost h' l) = Some h'.
Proof.
  induction l as [|o rest IH]; [discriminate|].
  simpl. destruct (hasKey (keyOf h') o) eqn:Hkey.
  - rewrite hasKey_own. reflexivity.
  - rewrite Hkey. exact IH.
Qed.

Lemma find_existsb (k : ObjectKey) (l : list BareMetalHost) (host : BareMetalHost) :
  find (hasKey k) l = Some host -> existsb (hasKey k) l = true.
Proof.
  intros Hfind. apply find_some in Hfind. apply existsb_exists. exists host. exact Hfind.
Qed.

(** The bound host, once the store has accepted an update of it, is bound
    in its updated form. *)
Lemma BoundHost_updated (mgr : MachineManager) (host h' : BareMetalHost) :
  BoundHost mgr host ->
  keyOf h' = keyOf host ->
  updateFault (client mgr) = None ->
  exists c',
    client_Update h' (client mgr) = (None, c')
    /\ updateCalls c' = h' :: updateCalls (client mgr)
    /\ updateFault c' = None
    /\ BoundHost (mgr_with_client c' mgr) h'.
Proof.
  intros (hostKey & namespace & name & Hann & Hsplit & Hget) Hkey Hfault.
  unfold client_Get in Hget.
  destruct (getFault (client mgr)) eqn:Hgetfault; [discriminate|].
  destruct (find (hasKey (mkObjectKey namespace name)) (objects (client mgr)))
    as [found|] eqn:Hfind; [|discriminate].
  inversion Hget. subst found.
  pose proof (find_some _ _ Hfind) as [_ Hown]. apply hasKey_eq in Hown.
  rewrite Hown, <- Hkey in Hfind.
  unfold client_Update. rewrite Hfault, (find_existsb _ _ _ Hfind).
  eexists. split; [reflexivity|]. split; [reflexivity|]. split; [reflexivity|].
  exists hostKey, namespace, name. split; [exact Hann|]. split; [exact Hsplit|].
  unfold client_Get. cbn [client mgr_with_client getFault objects].
  rewrite Hgetfault, Hown, <- Hkey, (find_replaceHost h' _ host Hfind). reflexivity.
Qed.

(** X17. The three passes of [Delete] over a provisioned host, with a
    store that accepts the updates and a host whose state does not ask to
    wait: the first pass clears the payload and asks to be called again,
    the second clears the consumer reference and returns success, the
    third finds the host without consumer and does nothing.  The store
    then holds the host with no image, no user data, switched off and
    unclaimed, and has received exactly those two updates. *)
Theorem Delete_in_phases (mgr : MachineManager) (host : BareMetalHost)
    (consumer : ObjectReference) :
  BoundHost mgr host ->
  spec_ConsumerRef (host_Spec host) = Some consumer ->
  consumerRefMatches consumer (mgr_Machine mgr) = true ->
  hasPayload host = true ->
  waitingFor host = false ->
  updateFault (client mgr) = None ->
  exists mgr1 mgr2,
    Delete mgr = Done (host_Name host, Some (RequeueAfterError 0%Z)) mgr1
    /\ Delete mgr1 = Done (host_Name host, None) mgr2
    /\ Delete mgr2 = Done ("", None) mgr2
    /\ BoundHost mgr2 (releaseHost (clearPayload host))
    /\ updateCalls (client mgr2)
       = releaseHost (clearPayload host) :: clearPayload host :: updateCalls (client mgr).
Proof.
  intros Hbound Href Hmatch Hpayload Hwait Hfault.
  destruct (BoundHost_updated mgr host (clearPayload host) Hbound eq_refl Hfault)
    as (c1 & Hupdate1 & Hcalls1 & Hfault1 & Hbound1).
  set (mgr1 := mgr_with_client c1 mgr) in *.
  destruct (BoundHost_updated mgr1 (clearPayload host) (releaseHost (clearPayload host))
              Hbound1 eq_refl Hfault1)
    as (c2 & Hupdate2 & Hcalls2 & Hfault2 & Hbound2).
  set (mgr2 := mgr_with_client c2 mgr1) in *.
  exists mgr1, mgr2. split_and!.
  - rewrite (Delete_found mgr host (getHost_bound mgr host Hbound)).
    rewrite Href, Hmatch, Hpayload, Hupdate1. reflexivity.
  - rewrite (Delete_found mgr1 _ (getHost_bound mgr1 _ Hbound1)).
    change (spec_ConsumerRef (host_Spec (clearPayload host)))
      with (spec_ConsumerRef (host_Spec host)).
    rewrite Href. change (mgr_Machine mgr1) with (mgr_Machine mgr). rewrite Hmatch.
    change (hasPayload (clearPayload host)) with false.
    change (waitingFor (clearPayload host)) with (waitingFor host). rewrite Hwait.
    cbn [negb]. rewrite Hupdate2. reflexivity.
  - rewrite (Delete_found mgr2 _ (getHost_bound mgr2 _ Hbound2)). reflexivity.
  - exact Hbound2.
  - change (client mgr2) with c2. rewrite Hcalls2. change (client mgr1) with c1.
    rewrite Hcalls1. reflexivity.
Qed.

Lemma Delete_in_phases_witness :
  exists mgr1 mgr2,
    Delete (Ex.managerOf (Ex.host "h1" Ex.provisionedSpec StateReady false) None)
    = Done ("h1", Some (RequeueAfterError 0%Z)) mgr1
    /\ Delete mgr1 = Done ("h1", None) mgr2
    /\ Delete mgr2 = Done ("", None) mgr2
    /\ objects (client mgr2) = [Ex.host "h1" (Ex.idleSpec None) StateReady false].
Proof.
  assert (Hbound : BoundHost
                     (Ex.managerOf (Ex.host "h1" Ex.provisionedSpec StateReady false) None)
                     (Ex.host "h1" Ex.provisionedSpec StateReady false)).
  { exists "ns/h1", "ns", "h1". repeat split; reflexivity. }
  destruct (Delete_in_phases
              (Ex.managerOf (Ex.host "h1" Ex.provisionedSpec StateReady false) None)
              (Ex.host "h1" Ex.provisionedSpec StateReady false) Ex.consumer
              Hbound eq_refl eq_refl eq_refl eq_refl eq_refl)
    as (mgr1 & mgr2 & Hfirst & Hsecond & Hthird & _ & _).
  exists mgr1, mgr2. split; [exact Hfirst|]. split; [exact Hsecond|].
  split; [exact Hthird|].
  vm_compute in Hfirst. inversion Hfirst. subst mgr1.
  vm_compute in Hsecond. inversion Hsecond. reflexivity.
Defined.

(** ** A committed claim is found again *)




Section RediscoveryProperties.
Context {ext : Externals}.


(** With a valid descriptor [Create] is the rest of its sequence, run
    with the error fields reset. *)
Lemma Create_valid (rnd : nat) (now : Time) (mgr : MachineManager) (b : BareMetalMachine) :
  mgr_BareMetalMachine mgr = Some b ->
  IsValid (bmm_Spec b) = None ->
  Create rnd now mgr
  = associate rnd now
      (mgr_with_BareMetalMachine
         (bmm_with_Status (bmstatus_with_Error None None (bmm_Status b)) b) mgr).
Proof.
  intros Hb Hvalid. unfold Create. rewrite Hb. cbv zeta. rewrite Hvalid.
  rewrite (bind_Done clearError _ mgr _ tt (clearError_result mgr b Hb)). reflexivity.
Qed.


End RediscoveryProperties.



(** ** Create from the host to the binding *)

Section CreateBinding.
Context {ext : Externals}.

(** The choice reads the selector of the bare-metal machine only. *)
Lemma chooseHost_reads_selector (rnd : nat) (mgr : MachineManager)
    (b b' : BareMetalMachine) (r : option BareMetalHost * option error) :
  mgr_BareMetalMachine mgr = Some b ->
  bmspec_HostSelector (bmm_Spec b') = bmspec_HostSelector (bmm_Spec b) ->
  chooseHost rnd mgr = Done r mgr ->
  chooseHost rnd (mgr_with_BareMetalMachine b' mgr)
  = Done r (mgr_with_BareMetalMachine b' mgr).
Proof.
  intros Hb Hselector. destruct mgr as [c m ob]. simpl in Hb. subst ob.
  unfold chooseHost, mgr_with_BareMetalMachine. unfold_monad.
  cbn [client mgr_Machine mgr_BareMetalMachine].
  destruct (client_List (machine_Namespace m) c) as [err|hosts]; cbv beta iota;
    cbn [mgr_BareMetalMachine]; cbv beta iota.
  - intros Hdone. inversion Hdone. reflexivity.
  - rewrite Hselector.
    destruct (selectorRequirements (bmspec_HostSelector (bmm_Spec b)))
      as [err|labelSelector]; [intros Hdone; inversion Hdone; reflexivity|].
    destruct (scanHosts m labelSelector hosts []) as [found|availableHosts];
      [intros Hdone; inversion Hdone; reflexivity|].
    destruct (length availableHosts =? 0)%nat; intros Hdone; inversion Hdone; reflexivity.
Qed.

(** X20. [Create] for a valid descriptor, once the host is determined
    (the bound host, or for an unbound machine the host that [chooseHost]
    returns): it sends that host, claimed, to the store in one update and
    returns the name of the host together with the answer of the store.
    Only when the store accepted the update does the bare-metal machine
    carry the binding annotation, the derived addresses and the time of
    the update; when the store refused, annotation, addresses and time
    are as before.  In both cases the error fields are nil. *)
Theorem Create_binds_host (rnd : nat) (now : Time) (mgr : MachineManager)
    (b : BareMetalMachine) (host : BareMetalHost) :
  mgr_BareMetalMachine mgr = Some b ->
  IsValid (bmm_Spec b) = None ->
  BoundHost mgr host
  \/ (Unbound mgr /\ chooseHost rnd mgr = Done (Some host, None) mgr) ->
  exists err c' b',
    client_Update (committedHost (mgr_Machine mgr) b host) (client mgr) = (err, c')
    /\ Create rnd now mgr
       = Done (host_Name host, err) (mgr_with_client c' (mgr_with_BareMetalMachine b' mgr))
    /\ bmstatus_ErrorMessage (bmm_Status b') = None
    /\ bmstatus_ErrorReason (bmm_Status b') = None
    /\ (err = None ->
        bindingOf b' = Some (MetaNamespaceKeyFunc host).1
        /\ bmstatus_Addresses (bmm_Status b') = nodeAddresses (Some host)
        /\ bmstatus_LastUpdated (bmm_Status b') = Some now)
    /\ (is_Some err ->
        bindingOf b' = bindingOf b
        /\ bmstatus_Addresses (bmm_Status b') = bmstatus_Addresses (bmm_Status b)
        /\ bmstatus_LastUpdated (bmm_Status b') = bmstatus_LastUpdated (bmm_Status b)).
Proof.
  intros Hb Hvalid Hhost.
  rewrite (Create_valid rnd now mgr b Hb Hvalid).
  set (cleared := bmm_with_Status (bmstatus_with_Error None None (bmm_Status b)) b).
  set (mgr1 := mgr_with_BareMetalMachine cleared mgr).
  set (m := mgr_Machine mgr).
  assert (Hassociate :
            associate rnd now mgr1
            = ('(host', err) ← setHostSpec host;
               match err with
               | Some e => mret (host_Name host, Some e)
               | None =>
                   err ← ensureAnnotation host';
                   match err with
                   | Some e => mret (host_Name host, Some e)
                   | None =>
                       err ← updateMachineStatus now host';
                       match err with
                       | Some e => mret (host_Name host, Some e)
                       | None => mret (host_Name host, None)
                       end
                   end
               end) mgr1).
  { unfold associate. destruct Hhost as [Hbound | [Hunbound Hchosen]].
    - rewrite (bind_Done getHost _ mgr1 mgr1 (Some host, None)
                 (getHost_ignores_BareMetalMachine mgr cleared _
                    (getHost_bound mgr host Hbound))).
      reflexivity.
    - rewrite (bind_Done getHost _ mgr1 mgr1 (None, None)
                 (getHost_ignores_BareMetalMachine mgr cleared _
                    (getHost_unbound mgr Hunbound))).
      cbv beta iota.
      rewrite (bind_Done (chooseHost rnd) _ mgr1 mgr1 (Some host, None)
                 (chooseHost_reads_selector rnd mgr b cleared _ Hb eq_refl Hchosen)).
      reflexivity. }
  rewrite Hassociate.
  rewrite (bind_Done (setHostSpec host) _ mgr1 _ _ (setHostSpec_result mgr1 cleared host eq_refl)).
  change (mgr_Machine mgr1) with m. change (client mgr1) with (client mgr).
  change (committedHost m cleared host) with (committedHost m b host).
  destruct (client_Update (committedHost m b host) (client mgr)) as [err c'] eqn:Hupdate.
  cbn [fst snd]. exists err, c'.
  destruct err as [e|].
  - exists (descriptorAfterCommit m cleared host).
    split; [reflexivity|]. split; [reflexivity|].
    unfold descriptorAfterCommit, cleared, bindingOf.
    destruct (spec_Image (host_Spec host)); split_and!; try reflexivity;
      try discriminate; intros _; split_and!; reflexivity.
  - set (b1 := descriptorAfterCommit m cleared host).
    set (mgr2 := mgr_with_client c' (mgr_with_BareMetalMachine b1 mgr1)).
    destruct (ensureAnnotation_result mgr2 b1 (committedHost m b host) eq_refl)
      as (annotations & Hannotate & Hkey).
    rewrite (bind_Done _ _ mgr2 _ _ Hannotate).
    rewrite (bind_Done _ _ _ _ _
               (updateMachineStatus_always_writes now (committedHost m b host)
                  (mgr_with_BareMetalMachine (bmm_with_Annotations (Some annotations) b1) mgr2)
                  (bmm_with_Annotations (Some annotations) b1) eq_refl)).
    eexists. split; [reflexivity|]. split; [reflexivity|].
    unfold b1, descriptorAfterCommit, cleared, bindingOf.
    split_and!.
    + destruct (spec_Image (host_Spec host)); reflexivity.
    + destruct (spec_Image (host_Spec host)); reflexivity.
    + intros _. split_and!; try reflexivity.
      cbn [bmm_Annotations bmm_with_Status bmm_with_Annotations mbind option_bind].
      exact Hkey.
    + intros [e He]. discriminate.
Qed.

End CreateBinding.

Lemma Create_binds_host_witness :
  exists c' b',
    Create (ext := Ex.externals) 3 1572739200%Z (Ex.allocating Ex.freshStatus)
    = Done ("h2", None)
        (mgr_with_client c' (mgr_with_BareMetalMachine b' (Ex.allocating Ex.freshStatus)))
    /\ bindingOf b' = Some "ns/h2"
    /\ bmstatus_LastUpdated (bmm_Status b') = Some 1572739200%Z.
Proof.
  destruct (Create_binds_host (ext := Ex.externals) 3 1572739200%Z
              (Ex.allocating Ex.freshStatus)
              (Ex.bareMetalMachine Ex.fullDescriptor Ex.freshStatus)
              Ex.freeHost eq_refl eq_refl)
    as (err & c' & b' & Hupdate & Hcreate & _ & _ & Haccepted & _).
  { right. split; [apply unbound_no_annotation; reflexivity|reflexivity]. }
  assert (Herr : err = None) by (vm_compute in Hupdate; inversion Hupdate; reflexivity).
  subst err. destruct (Haccepted eq_refl) as (Hbinding & _ & Hupdated).
  exists c', b'. split; [exact Hcreate|]. split; [exact Hbinding|exact Hupdated].
Defined.
